(** * py-spread-macro-intf: the addressing and iteration core of [model.py]

    A shallow embedding of [model.py]: the [Sheet] -> [Line] ([Row],
    [Column]) -> [Cell] hierarchy, the [LineSeries] collection, the
    gap-tolerant iterator [CellLine], the [Color] helper, and the two
    office bindings [Office.XW] and [Office.Uno].

    Python objects become records, Python exceptions become the [Raise]
    outcome of [result], Python's unbounded integers are [Z], and the
    document held by the office program is an explicit [host] state that
    every read takes and every write returns.  Loops whose length depends
    on the document take a [fuel] argument and answer [None] when it runs
    out. *)

From Stdlib Require Import ZArith List String Bool Lia.
Import ListNotations.
Open Scope string_scope.
Open Scope Z_scope.

(** ** Module constants *)

Definition DEFAULT_COLOR : Z := -1.
Definition MAX_CELL_GAP : Z := 10.

(** ** Python values, exceptions and outcomes *)

(** The scalars that travel through the API: [None], [int], [float] and
    [str].  A float is represented by its integral value: the only things
    the code does with a number are to compare it with [==] and to render
    it as text, where an integral float loses its trailing [.0]. *)
Inductive value : Type :=
| VNone
| VInt (n : Z)
| VFloat (n : Z)
| VStr (s : string).

Inductive exn : Type :=
| StopIteration
| TypeError
| ValueError
| IndexError
| AttributeError
| AssertionError.

Inductive result (A : Type) : Type :=
| Ok (a : A)
| Raise (e : exn).

Arguments Ok {A} a.
Arguments Raise {A} e.

Definition bind {A B : Type} (r : result A) (k : A -> result B) : result B :=
  match r with
  | Ok a => k a
  | Raise e => Raise e
  end.

Notation "x <- r ;; k" := (bind r (fun x => k))
  (at level 61, r at next level, right associativity).

(** Python's [assert]. *)
Definition py_assert (b : bool) : result unit :=
  if b then Ok tt else Raise AssertionError.

(** [isinstance(v, int)], [isinstance(v, str)], [isinstance(v, float)]. *)
Definition is_int (v : value) : bool :=
  match v with VInt _ => true | _ => false end.

Definition is_str (v : value) : bool :=
  match v with VStr _ => true | _ => false end.

Definition is_float (v : value) : bool :=
  match v with VFloat _ => true | _ => false end.

(** Python's [==] on scalars: numbers compare by value, across [int] and
    [float]; [None] equals only [None]; a string equals only that string. *)
Definition py_eq (a b : value) : bool :=
  match a, b with
  | VNone, VNone => true
  | VInt m, VInt n | VInt m, VFloat n
  | VFloat m, VInt n | VFloat m, VFloat n => m =? n
  | VStr s, VStr t => (s =? t)%string
  | _, _ => false
  end.

(** [range(lo, hi)]. *)
Definition py_range (lo hi : Z) : list Z :=
  map (fun k => lo + Z.of_nat k) (seq 0 (Z.to_nat (hi - lo))).

(** [str(x)] for a float of integral value: the digits and a trailing [.0]. *)
Definition digit_char (d : Z) : string :=
  match d with
  | 0 => "0" | 1 => "1" | 2 => "2" | 3 => "3" | 4 => "4"
  | 5 => "5" | 6 => "6" | 7 => "7" | 8 => "8" | _ => "9"
  end.

Fixpoint digits_of (fuel : nat) (n : Z) (acc : string) : string :=
  match fuel with
  | O => acc
  | S f =>
      let acc' := (digit_char (n mod 10) ++ acc)%string in
      if n / 10 =? 0 then acc' else digits_of f (n / 10) acc'
  end.

Definition py_str_int (n : Z) : string :=
  let body := digits_of (S (Z.to_nat (Z.log2 (Z.abs n)))) (Z.abs n) "" in
  if n <? 0 then ("-" ++ body)%string else body.

Definition py_str_float (n : Z) : string := (py_str_int n ++ ".0")%string.

(** [s[-2:]] and [s[:-2]]. *)
Definition last_two (s : string) : string :=
  substring (Nat.sub (String.length s) 2) 2 s.

Definition drop_last_two (s : string) : string :=
  substring 0 (Nat.sub (String.length s) 2) s.

(** ** [Color] *)

Record Color : Type := mkColor { color : Z }.

(** What a caller may hand to [Color(...)]. *)
Inductive color_arg : Type :=
| CInt (c : Z)
| CTuple (t : list value)
| CStr (s : string)
| CColor (c : Color)
| COther.

(** One element of the tuple is refused: [not isinstance(value, int) or
    value > 255]. *)
Definition bad_channel (v : value) : bool :=
  match v with
  | VInt n => n >? 255
  | _ => true
  end.

Definition Color_init (arg : color_arg) : result Color :=
  match arg with
  | CInt c => Ok (mkColor c)
  | CTuple t =>
      if negb (Nat.eqb (List.length t) 3) then Raise ValueError
      else if existsb bad_channel t then Raise ValueError
      else
        match t with
        | [VInt r; VInt g; VInt b] =>
            Ok (mkColor (Z.shiftl r 16 + Z.shiftl g 8 + b))
        | _ => Raise ValueError
        end
  | CStr _ => Raise ValueError
  | CColor c => Ok (mkColor (color c))
  | COther => Raise TypeError
  end.

Definition Color_rgb (c : Color) : Z * Z * Z :=
  let r := Z.land (Z.shiftr (color c) 16) 255 in
  let g := Z.land (Z.shiftr (color c) 8) 255 in
  let b := Z.land (color c) 255 in
  (r, g, b).

(** ** The document held by the office program

    The host is not part of [model.py]; it is modelled as a grid of cells
    addressed by zero-based (column, row), each with a content and an
    optional background fill.  The two bindings reach it through their own
    accessors: xlwings' [sheet.range(row, column)], one-based, and UNO's
    [sheet.getCellByPosition(x, y)], zero-based. *)

Inductive content : Type :=
| Blank
| Number (n : Z)
| Text (s : string).

Record host_cell : Type := mkHostCell {
  cell_content : content;
  cell_fill : option (Z * Z * Z)
}.

Definition host : Type := Z * Z -> host_cell.

Definition pos_eqb (p q : Z * Z) : bool :=
  (fst p =? fst q) && (snd p =? snd q).

Definition host_update (h : host) (p : Z * Z) (c : host_cell) : host :=
  fun q => if pos_eqb q p then c else h q.

(** xlwings: [sheet.range(row, column)], both one-based. *)
Definition xw_range (row col : Z) : Z * Z := (col - 1, row - 1).

(** UNO: [sheet.getCellByPosition(x, y)]. *)
Definition getCellByPosition (x y : Z) : Z * Z := (x, y).

(** ** [Sheet], [Line], [Cell]: the objects *)

(** [Office.XW] or [Office.Uno]: which binding's subclasses an object
    belongs to. *)
Inductive interface : Type := XW | Uno.

Record Sheet : Type := mkSheet {
  sheet_interface : interface;
  reference_row_index : Z;
  reference_column_index : Z
}.

(** The setters of [reference_row_index] and [reference_column_index]. *)
Definition Sheet_set_reference_row_index (s : Sheet) (new_index : Z)
  : result Sheet :=
  if new_index <? 0 then Raise IndexError
  else Ok (mkSheet (sheet_interface s) new_index (reference_column_index s)).

Definition Sheet_set_reference_column_index (s : Sheet) (new_index : Z)
  : result Sheet :=
  if new_index <? 0 then Raise IndexError
  else Ok (mkSheet (sheet_interface s) (reference_row_index s) new_index).

(** [Office.XW.Sheet.__init__] and [Office.Uno.Sheet.__init__]: both
    assign the two reference indexes through the setters. *)
Definition Sheet_init (i : interface)
    (reference_row_index reference_column_index : Z) : result Sheet :=
  s <- Sheet_set_reference_row_index (mkSheet i 0 0) reference_row_index ;;
  Sheet_set_reference_column_index s reference_column_index.

Inductive line_class : Type := RowClass | ColumnClass.

Record Line : Type := mkLine {
  line_class_of : line_class;
  line_sheet : Sheet;
  line_index : Z;
  reference_index : Z
}.

Record Cell : Type := mkCell {
  cell_sheet : Sheet;
  position : Z * Z
}.

Definition Cell_x (c : Cell) : Z := fst (position c).
Definition Cell_y (c : Cell) : Z := snd (position c).

(** [Line.__init__(sheet, index, reference_index)]: both numbers must be
    [int]s; the last assignment stores [index]. *)
Definition Line_init (cls : line_class) (sheet : Sheet)
    (index reference_index : value) : result Line :=
  match index with
  | VInt i =>
      match reference_index with
      | VInt _ => Ok (mkLine cls sheet i i)
      | _ => Raise TypeError
      end
  | _ => Raise TypeError
  end.

(** [Office.XW.Sheet.get_row_by_index] *)
Definition XW_Sheet_get_row_by_index (s : Sheet) (row_index : value)
  : result Line :=
  match row_index with
  | VInt i =>
      if i <? 0 then Raise ValueError
      else Line_init RowClass s row_index (VInt (reference_row_index s))
  | _ => Raise TypeError
  end.

(** [Office.XW.Sheet.get_column_by_index] *)
Definition XW_Sheet_get_column_by_index (s : Sheet) (column_index : value)
  : result Line :=
  match column_index with
  | VInt i =>
      if i <? 0 then Raise ValueError
      else Line_init ColumnClass s column_index (VInt (reference_row_index s))
  | _ => Raise TypeError
  end.

(** [Office.Uno.Sheet.get_column_by_index] *)
Definition Uno_Sheet_get_column_by_index (s : Sheet) (column_index : value)
  : result Line :=
  match column_index with
  | VInt i =>
      if i <? 0 then Raise ValueError
      else
        Line_init ColumnClass s column_index (VInt (reference_column_index s))
  | _ => Raise TypeError
  end.

(** [Office.Uno.Sheet.get_row_by_index] *)
Definition Uno_Sheet_get_row_by_index (s : Sheet) (row_index : value)
  : result Line :=
  match row_index with
  | VInt _ => Line_init RowClass s row_index (VInt (reference_row_index s))
  | _ => Raise TypeError
  end.

(** The method call [sheet.get_row_by_index(i)], dispatched on the class
    of the sheet. *)
Definition Sheet_get_row_by_index (s : Sheet) (row_index : value)
  : result Line :=
  match sheet_interface s with
  | XW => XW_Sheet_get_row_by_index s row_index
  | Uno => Uno_Sheet_get_row_by_index s row_index
  end.

Definition Sheet_get_column_by_index (s : Sheet) (column_index : value)
  : result Line :=
  match sheet_interface s with
  | XW => XW_Sheet_get_column_by_index s column_index
  | Uno => Uno_Sheet_get_column_by_index s column_index
  end.

(** [Cell.__init__]: the position is a pair of [int]s. *)
Definition Cell_init (sheet : Sheet) (x y : Z) : Cell := mkCell sheet (x, y).

(** [get_cell_by_index] of [Office.XW.Column] and [Office.XW.Row] (with the
    range check) and of [Office.Uno.Column] and [Office.Uno.Row] (without). *)
Definition Line_get_cell_by_index (l : Line) (index : value) : result Cell :=
  match index with
  | VInt i =>
      match sheet_interface (line_sheet l) with
      | XW =>
          if i <? 0 then Raise ValueError
          else
            match line_class_of l with
            | ColumnClass => Ok (Cell_init (line_sheet l) (line_index l) i)
            | RowClass => Ok (Cell_init (line_sheet l) i (line_index l))
            end
      | Uno =>
          match line_class_of l with
          | ColumnClass => Ok (Cell_init (line_sheet l) (line_index l) i)
          | RowClass => Ok (Cell_init (line_sheet l) i (line_index l))
          end
      end
  | _ => Raise TypeError
  end.

(** [Column.name_cell_index] and [Row.name_cell_index]. *)
Definition Line_name_cell_index (l : Line) : Z :=
  match line_class_of l with
  | ColumnClass => reference_row_index (line_sheet l)
  | RowClass => reference_column_index (line_sheet l)
  end.

(** ** [Cell]: reading and writing through the bindings *)

(** What the host's accessors answer for one cell of the grid. *)

(** xlwings [range.value]: [None], a float or a string. *)
Definition range_value (c : host_cell) : value :=
  match cell_content c with
  | Blank => VNone
  | Number n => VFloat n
  | Text s => VStr s
  end.

(** xlwings [range.value = v]. *)
Definition range_set_value (c : host_cell) (v : value) : host_cell :=
  match v with
  | VNone => mkHostCell Blank (cell_fill c)
  | VInt n | VFloat n => mkHostCell (Number n) (cell_fill c)
  | VStr s => mkHostCell (Text s) (cell_fill c)
  end.

(** xlwings [range.color = rgb] (or [None]). *)
Definition range_set_color (c : host_cell) (rgb : option (Z * Z * Z))
  : host_cell :=
  mkHostCell (cell_content c) rgb.

(** UNO [cell.getString()], [cell.getValue()] and
    [cell.FormulaResultType.value]. *)
Definition getString (c : host_cell) : string :=
  match cell_content c with
  | Blank => ""
  | Number n => py_str_int n
  | Text s => s
  end.

Definition getValue (c : host_cell) : Z :=
  match cell_content c with
  | Number n => n
  | _ => 0
  end.

Definition FormulaResultType (c : host_cell) : string :=
  match cell_content c with
  | Blank => "EMPTY"
  | Number _ => "VALUE"
  | Text _ => "TEXT"
  end.

(** UNO [cell.setString(s)], [cell.setValue(x)] and [cell.CellBackColor]. *)
Definition setString (c : host_cell) (s : string) : host_cell :=
  mkHostCell (Text s) (cell_fill c).

Definition setValue (c : host_cell) (n : Z) : host_cell :=
  mkHostCell (Number n) (cell_fill c).

Definition CellBackColor (c : host_cell) : Z :=
  match cell_fill c with
  | None => -1
  | Some (r, g, b) => r * 65536 + g * 256 + b
  end.

Definition set_CellBackColor (c : host_cell) (color_int : Z) : host_cell :=
  if color_int <? 0 then mkHostCell (cell_content c) None
  else mkHostCell (cell_content c) (Some (Color_rgb (mkColor color_int))).

(** [Office.XW.Cell._range]: the position, corrected to one-based, handed
    to xlwings as (row, column). *)
Definition XW_Cell_range (c : Cell) : Z * Z :=
  let x := Cell_x c + 1 in
  let y := Cell_y c + 1 in
  xw_range y x.

(** [Office.Uno.Cell._source_cell] *)
Definition Uno_Cell_source_cell (c : Cell) : Z * Z :=
  getCellByPosition (Cell_x c) (Cell_y c).

(** [str(v)] *)
Definition py_str (v : value) : string :=
  match v with
  | VNone => "None"
  | VInt n => py_str_int n
  | VFloat n => py_str_float n
  | VStr s => s
  end.

(** [Office.XW.Cell.value] (getter) *)
Definition XW_Cell_value (h : host) (c : Cell) : value :=
  range_value (h (XW_Cell_range c)).

(** [Office.XW.Cell.string] *)
Definition XW_Cell_string (h : host) (c : Cell) : string :=
  match XW_Cell_value h c with
  | VNone => ""
  | v =>
      let s := py_str v in
      if is_float v && (last_two s =? ".0")%string then drop_last_two s
      else s
  end.

(** [Office.Uno.Cell.value] (getter): nothing is returned for a result
    type that is neither [TEXT] nor [VALUE]. *)
Definition Uno_Cell_value (h : host) (c : Cell) : value :=
  let t := FormulaResultType (h (Uno_Cell_source_cell c)) in
  if (t =? "TEXT")%string then VStr (getString (h (Uno_Cell_source_cell c)))
  else if (t =? "VALUE")%string
       then VFloat (getValue (h (Uno_Cell_source_cell c)))
       else VNone.

(** [Office.Uno.Cell.string] (getter) *)
Definition Uno_Cell_string (h : host) (c : Cell) : string :=
  getString (h (Uno_Cell_source_cell c)).

(** [cell.value] and [cell.string], dispatched on the class of the cell. *)
Definition Cell_value (h : host) (c : Cell) : value :=
  match sheet_interface (cell_sheet c) with
  | XW => XW_Cell_value h c
  | Uno => Uno_Cell_value h c
  end.

Definition Cell_string (h : host) (c : Cell) : string :=
  match sheet_interface (cell_sheet c) with
  | XW => XW_Cell_string h c
  | Uno => Uno_Cell_string h c
  end.

(** [Office.XW.Cell.value] (setter) *)
Definition XW_Cell_set_value (h : host) (c : Cell) (new_value : value)
  : result host :=
  Ok (host_update h (XW_Cell_range c)
        (range_set_value (h (XW_Cell_range c)) new_value)).

(** [Office.Uno.Cell.string] (setter) and [Office.Uno.Cell.float]
    (setter). *)
Definition Uno_Cell_set_string (h : host) (c : Cell) (new_string : value)
  : result host :=
  match new_string with
  | VStr s =>
      Ok (host_update h (Uno_Cell_source_cell c)
            (setString (h (Uno_Cell_source_cell c)) s))
  | _ => Raise AssertionError
  end.

Definition Uno_Cell_set_float (h : host) (c : Cell) (new_float : value)
  : result host :=
  match new_float with
  | VInt n | VFloat n =>
      Ok (host_update h (Uno_Cell_source_cell c)
            (setValue (h (Uno_Cell_source_cell c)) n))
  | _ => Raise AssertionError
  end.

(** [Office.Uno.Cell.value] (setter) *)
Definition Uno_Cell_set_value (h : host) (c : Cell) (new_value : value)
  : result host :=
  _ <- py_assert (is_str new_value || is_int new_value || is_float new_value) ;;
  if is_str new_value then Uno_Cell_set_string h c new_value
  else Uno_Cell_set_float h c new_value.

(** [Office.XW.Cell.set_color] *)
Definition XW_Cell_set_color (h : host) (c : Cell) (color : Z) : result host :=
  if color >=? 0 then
    color' <- Color_init (CInt color) ;;
    Ok (host_update h (XW_Cell_range c)
          (range_set_color (h (XW_Cell_range c)) (Some (Color_rgb color'))))
  else if color =? -1 then
    Ok (host_update h (XW_Cell_range c)
          (range_set_color (h (XW_Cell_range c)) None))
  else Ok h.

(** [Office.Uno.Cell.set_color], for an [int] argument. *)
Definition Uno_Cell_set_color (h : host) (c : Cell) (color : Z) : result host :=
  let color_int := color in
  Ok (host_update h (Uno_Cell_source_cell c)
        (set_CellBackColor (h (Uno_Cell_source_cell c)) color_int)).

(** What [get_color] returns: an [int], or the RGB tuple xlwings hands
    back. *)
Inductive color_value : Type :=
| ColorInt (c : Z)
| ColorTuple (rgb : Z * Z * Z).

(** [Office.XW.Cell.get_color] *)
Definition XW_Cell_get_color (h : host) (c : Cell) : color_value :=
  match cell_fill (h (XW_Cell_range c)) with
  | None => ColorInt (-1)
  | Some rgb => ColorTuple rgb
  end.

(** [Office.Uno.Cell.get_color] *)
Definition Uno_Cell_get_color (h : host) (c : Cell) : color_value :=
  ColorInt (CellBackColor (h (Uno_Cell_source_cell c))).

Definition Cell_set_value (h : host) (c : Cell) (new_value : value)
  : result host :=
  match sheet_interface (cell_sheet c) with
  | XW => XW_Cell_set_value h c new_value
  | Uno => Uno_Cell_set_value h c new_value
  end.

Definition Cell_set_color (h : host) (c : Cell) (color : Z) : result host :=
  match sheet_interface (cell_sheet c) with
  | XW => XW_Cell_set_color h c color
  | Uno => Uno_Cell_set_color h c color
  end.

Definition Cell_get_color (h : host) (c : Cell) : color_value :=
  match sheet_interface (cell_sheet c) with
  | XW => XW_Cell_get_color h c
  | Uno => Uno_Cell_get_color h c
  end.

(** [Cell.clear]: the value is set to [None], then the color to the
    default. *)
Definition Cell_clear (h : host) (c : Cell) : result host :=
  h1 <- Cell_set_value h c VNone ;;
  Cell_set_color h1 c DEFAULT_COLOR.

(** ** [CellLine]: the gap-tolerant iterator *)

Inductive axis : Type := AxisX | AxisY.

Record CellLine : Type := mkCellLine {
  cl_sheet : Sheet;
  cl_axis : axis;
  cl_index : Z;
  cl_i : Z;
  highest_inhabited_i : Z
}.

(** [CellLine.__init__]; the class attributes give [i = 0] and
    [highest_inhabited_i = -1]. *)
Definition CellLine_init (sheet : Sheet) (a : axis) (index : Z) : CellLine :=
  mkCellLine sheet a index 0 (-1).

(** [sheet.get_cell((x, y))] as [CellLine.__next__] calls it: two [int]
    coordinates and no type hints, so [Sheet.get_cell] takes the by-index
    branch twice ([Sheet_get_cell_of_ints] below states it). *)
Definition Sheet_get_cell_at (s : Sheet) (x y : Z) : result Cell :=
  column <- Sheet_get_column_by_index s (VInt x) ;;
  Line_get_cell_by_index column (VInt y).

(** The position [(x, y)] of entry [k] of the line the iterator walks. *)
Definition CellLine_position (it : CellLine) (k : Z) : Z * Z :=
  match cl_axis it with
  | AxisY => (cl_index it, k)
  | AxisX => (k, cl_index it)
  end.

(** The inner [for i in range(1, MAX_CELL_GAP)] of [__next__]: the first
    offset whose cell is not empty, as the new [highest_inhabited_i], or
    [None] when the [else] of the loop is reached. *)
Fixpoint CellLine_probe (h : host) (it : CellLine) (offsets : list Z)
  : result (option Z) :=
  match offsets with
  | [] => Ok None
  | i :: rest =>
      let '(test_x, test_y) := CellLine_position it (cl_i it + i) in
      test_cell <- Sheet_get_cell_at (cl_sheet it) test_x test_y ;;
      if negb (Cell_string h test_cell =? "")%string
      then Ok (Some (cl_i it + i))
      else CellLine_probe h it rest
  end.

(** [CellLine.__next__]: the cell and the iterator after the call, or
    [StopIteration]. *)
Definition CellLine_next (h : host) (it : CellLine)
  : result (Cell * CellLine) :=
  let '(x, y) := CellLine_position it (cl_i it) in
  cell <- Sheet_get_cell_at (cl_sheet it) x y ;;
  if (Cell_string h cell =? "")%string && (cl_i it >? highest_inhabited_i it)
  then
    found <- CellLine_probe h it (py_range 1 MAX_CELL_GAP) ;;
    match found with
    | Some hi =>
        Ok (cell,
            mkCellLine (cl_sheet it) (cl_axis it) (cl_index it)
              (cl_i it + 1) hi)
    | None => Raise StopIteration
    end
  else
    Ok (cell,
        mkCellLine (cl_sheet it) (cl_axis it) (cl_index it)
          (cl_i it + 1) (highest_inhabited_i it)).

(** [list(it)]: the cells an iterator yields until [StopIteration]. *)
Fixpoint CellLine_cells (fuel : nat) (h : host) (it : CellLine)
  : option (result (list Cell)) :=
  match fuel with
  | O => None
  | S f =>
      match CellLine_next h it with
      | Raise StopIteration => Some (Ok [])
      | Raise e => Some (Raise e)
      | Ok (cell, it') =>
          match CellLine_cells f h it' with
          | Some (Ok cells) => Some (Ok (cell :: cells))
          | other => other
          end
      end
  end.

(** ** [Line]: iteration, length, lookup by reference, clearing *)

(** [Line.get_iterator] *)
Definition Line_get_iterator (l : Line) (a : axis) : CellLine :=
  CellLine_init (line_sheet l) a (line_index l).

(** [__iter__] of the four concrete line classes.  [Office.Uno.Row]'s
    body evaluates [self.get_iterator(axis='x')] and returns nothing. *)
Definition Line_iter (l : Line) : option CellLine :=
  match sheet_interface (line_sheet l), line_class_of l with
  | XW, ColumnClass => Some (Line_get_iterator l AxisY)
  | XW, RowClass => Some (Line_get_iterator l AxisX)
  | Uno, ColumnClass => Some (Line_get_iterator l AxisY)
  | Uno, RowClass => None
  end.

(** [iter(line)], as [for] and [enumerate] call it: [__iter__] must hand
    back an iterator. *)
Definition py_iter (l : Line) : result CellLine :=
  match Line_iter l with
  | Some it => Ok it
  | None => Raise TypeError
  end.

(** The body of [Line.__len__] in both bindings: count the cells. *)
Fixpoint Line_len_loop (fuel : nat) (h : host) (it : CellLine) (count : Z)
  : option (result Z) :=
  match fuel with
  | O => None
  | S f =>
      match CellLine_next h it with
      | Raise StopIteration => Some (Ok count)
      | Raise e => Some (Raise e)
      | Ok (_, it') => Line_len_loop f h it' (count + 1)
      end
  end.

Definition Line_len (fuel : nat) (h : host) (l : Line) : option (result Z) :=
  match py_iter l with
  | Raise e => Some (Raise e)
  | Ok it => Line_len_loop fuel h it 0
  end.

(** The loop shared by the by-name lookups,

      [for i, cell in enumerate(<line>): if cell.value == name: return ...]

    as the first pair [(i, cell)] that makes the test true, or [None] when
    the loop ends without [return]. *)
Fixpoint find_by_value (fuel : nat) (h : host) (it : CellLine) (i : Z)
    (name : value) : option (result (option (Z * Cell))) :=
  match fuel with
  | O => None
  | S f =>
      match CellLine_next h it with
      | Raise StopIteration => Some (Ok None)
      | Raise e => Some (Raise e)
      | Ok (cell, it') =>
          if py_eq (Cell_value h cell) name then Some (Ok (Some (i, cell)))
          else find_by_value f h it' (i + 1) name
      end
  end.

(** [for i, cell in enumerate(line): ...] of that shape, from [iter(line)]
    on. *)
Definition Line_find (fuel : nat) (h : host) (l : Line) (name : value)
  : option (result (option (Z * Cell))) :=
  match py_iter l with
  | Raise e => Some (Raise e)
  | Ok it => find_by_value fuel h it 0 name
  end.

(** Outcomes of code that loops over the document: [None] is fuel
    exhausted. *)
Definition fbind {A B : Type} (r : option (result A))
    (k : A -> option (result B)) : option (result B) :=
  match r with
  | None => None
  | Some (Raise e) => Some (Raise e)
  | Some (Ok a) => k a
  end.

Notation "x <-- r ;; k" := (fbind r (fun x => k))
  (at level 61, r at next level, right associativity).

(** [Line.clear(include_header)]: the list comprehension

      [[cell.clear() for i, cell in enumerate(self)
        if i > self.name_cell_index or include_header]]

    run against the document, which each [cell.clear()] changes before
    the iterator is asked for its next cell. *)
Fixpoint Line_clear_loop (fuel : nat) (h : host) (l : Line) (it : CellLine)
    (i : Z) (include_header : bool) : option (result host) :=
  match fuel with
  | O => None
  | S f =>
      match CellLine_next h it with
      | Raise StopIteration => Some (Ok h)
      | Raise e => Some (Raise e)
      | Ok (cell, it') =>
          if (i >? Line_name_cell_index l) || include_header then
            h' <-- Some (Cell_clear h cell) ;;
            Line_clear_loop f h' l it' (i + 1) include_header
          else Line_clear_loop f h l it' (i + 1) include_header
      end
  end.

Definition Line_clear (fuel : nat) (h : host) (l : Line)
    (include_header : bool) : option (result host) :=
  it <-- Some (py_iter l) ;;
  Line_clear_loop fuel h l it 0 include_header.

(** ** [Sheet]: reference lines and lookups *)

(** [Sheet.reference_row] is [self.get_row(self.reference_row_index)] and
    [Sheet.reference_column] is
    [self.get_column(self.reference_column_index)]; the identifier is an
    [int], so [get_row] and [get_column] go to the by-index getter
    ([Sheet_get_row_of_int], [Sheet_get_column_of_int]). *)
Definition Sheet_reference_row (s : Sheet) : result Line :=
  Sheet_get_row_by_index s (VInt (reference_row_index s)).

Definition Sheet_reference_column (s : Sheet) : result Line :=
  Sheet_get_column_by_index s (VInt (reference_column_index s)).

(** [Cell.row] is [self.sheet.get_row(self.y)] and [Cell.column] is
    [self.sheet.get_column(self.x)], again with [int] identifiers. *)
Definition Cell_row (c : Cell) : result Line :=
  Sheet_get_row_by_index (cell_sheet c) (VInt (Cell_y c)).

Definition Cell_column (c : Cell) : result Line :=
  Sheet_get_column_by_index (cell_sheet c) (VInt (Cell_x c)).

(** [Sheet.get_column_index_from_name] *)
Definition Sheet_get_column_index_from_name (fuel : nat) (h : host)
    (s : Sheet) (column_name : value) : option (result (option Z)) :=
  reference_row <-- Some (Sheet_reference_row s) ;;
  found <-- Line_find fuel h reference_row column_name ;;
  match found with
  | Some (x, _) => Some (Ok (Some x))
  | None => Some (Ok None)
  end.

(** [Sheet.get_column_by_name] *)
Definition Sheet_get_column_by_name (fuel : nat) (h : host) (s : Sheet)
    (column_name : value) : option (result (option Line)) :=
  x <-- Sheet_get_column_index_from_name fuel h s column_name ;;
  match x with
  | Some x' =>
      column <-- Some (Sheet_get_column_by_index s (VInt x')) ;;
      Some (Ok (Some column))
  | None => Some (Ok None)
  end.

(** [Sheet.get_column] *)
Definition Sheet_get_column (fuel : nat) (h : host) (s : Sheet)
    (column_identifier : value) : option (result (option Line)) :=
  if is_str column_identifier
  then Sheet_get_column_by_name fuel h s column_identifier
  else
    column <-- Some (Sheet_get_column_by_index s column_identifier) ;;
    Some (Ok (Some column)).

(** ** [LineSeries] *)

Record LineSeries : Type := mkLineSeries { reference_line : Line }.

(** [LineSeries._contents_type] *)
Definition LineSeries_contents_type (series : LineSeries) : string :=
  match line_class_of (reference_line series) with
  | RowClass => "columns"
  | ColumnClass => "rows"
  end.

(** [Sheet.columns] and [Sheet.rows] *)
Definition Sheet_columns (s : Sheet) : result LineSeries :=
  reference_row <- Sheet_reference_row s ;;
  Ok (mkLineSeries reference_row).

Definition Sheet_rows (s : Sheet) : result LineSeries :=
  reference_column <- Sheet_reference_column s ;;
  Ok (mkLineSeries reference_column).

(** The generator [LineSeries.__iter__] returns: not yet started, or
    suspended at its [yield] with the iterator of the reference line. *)
Inductive LineSeries_generator : Type :=
| Fresh (series : LineSeries)
| Suspended (series : LineSeries) (it : CellLine).

(** [LineSeries.__iter__] *)
Definition LineSeries_iter (series : LineSeries) : LineSeries_generator :=
  Fresh series.

(** What the body of the generator yields for one cell. *)
Definition LineSeries_yield (series : LineSeries) (cell : Cell)
  : result Line :=
  if (LineSeries_contents_type series =? "rows")%string then Cell_row cell
  else Cell_column cell.

(** [generator.__next__()]: run the [for cell in self.reference_line] loop
    up to the next [yield]. *)
Definition LineSeries_generator_next (h : host) (g : LineSeries_generator)
  : result (Line * LineSeries_generator) :=
  match g with
  | Fresh series =>
      it <- py_iter (reference_line series) ;;
      step <- CellLine_next h it ;;
      line <- LineSeries_yield series (fst step) ;;
      Ok (line, Suspended series (snd step))
  | Suspended series it =>
      step <- CellLine_next h it ;;
      line <- LineSeries_yield series (fst step) ;;
      Ok (line, Suspended series (snd step))
  end.

(** Truth of a line in a condition: there is no [__bool__], so Python asks
    [__len__] and takes a nonzero length for true. *)
Definition Line_bool (fuel : nat) (h : host) (l : Line)
  : option (result bool) :=
  n <-- Line_len fuel h l ;;
  Some (Ok (negb (n =? 0))).

(** [LineSeries.__len__]:

      [count = 0
       try:
           while self.__iter__().__next__():
               count += 1
       except StopIteration:
           return count]

    The answer is [Some count] from the handler, or Python's [None] when
    the [while] ends on a false condition and the function falls off its
    end. *)
Fixpoint LineSeries_len_loop (fuel : nat) (h : host) (series : LineSeries)
    (count : Z) : option (result (option Z)) :=
  match fuel with
  | O => None
  | S f =>
      match LineSeries_generator_next h (LineSeries_iter series) with
      | Raise StopIteration => Some (Ok (Some count))
      | Raise e => Some (Raise e)
      | Ok (line, _) =>
          match Line_bool f h line with
          | None => None
          | Some (Raise StopIteration) => Some (Ok (Some count))
          | Some (Raise e) => Some (Raise e)
          | Some (Ok true) => LineSeries_len_loop f h series (count + 1)
          | Some (Ok false) => Some (Ok None)
          end
      end
  end.

Definition LineSeries_len (fuel : nat) (h : host) (series : LineSeries)
  : option (result (option Z)) :=
  LineSeries_len_loop fuel h series 0.

(** [LineSeries.get_by_name] *)
Definition LineSeries_get_by_name (fuel : nat) (h : host)
    (series : LineSeries) (name : value) : option (result (option Line)) :=
  found <-- Line_find fuel h (reference_line series) name ;;
  match found with
  | Some (_, cell) =>
      if (LineSeries_contents_type series =? "columns")%string then
        line <-- Some (Cell_column cell) ;; Some (Ok (Some line))
      else
        line <-- Some (Cell_row cell) ;; Some (Ok (Some line))
  | None => Some (Ok None)
  end.

(** ** Name lookups through a line or a series *)

(** [Column._reference_line] and [Row._reference_line] *)
Definition Line_reference_line (l : Line) : result Line :=
  match line_class_of l with
  | ColumnClass => Sheet_reference_column (line_sheet l)
  | RowClass => Sheet_reference_row (line_sheet l)
  end.

(** [Line.get_cell_by_reference] *)
Definition Line_get_cell_by_reference (fuel : nat) (h : host) (l : Line)
    (reference : value) : option (result (option Cell)) :=
  reference_line <-- Some (Line_reference_line l) ;;
  found <-- Line_find fuel h reference_line reference ;;
  match found with
  | Some (i, _) =>
      cell <-- Some (Line_get_cell_by_index l (VInt i)) ;;
      Some (Ok (Some cell))
  | None => Some (Ok None)
  end.

(** An object bound to a loop variable: a cell or a line.  Only a cell
    has the attribute [value]. *)
Inductive object : Type :=
| ObjCell (c : Cell)
| ObjLine (l : Line).

Definition getattr_value (h : host) (o : object) : result value :=
  match o with
  | ObjCell c => Ok (Cell_value h c)
  | ObjLine _ => Raise AttributeError
  end.

(** [Sheet.get_row_index_from_name]:

      [for y, cell in enumerate(self.rows):
           if cell.value == row_name:
               return y]

    [self.rows] is a [LineSeries]; what it yields is bound to [cell]. *)
Fixpoint Sheet_get_row_index_from_name_loop (fuel : nat) (h : host)
    (g : LineSeries_generator) (y : Z) (row_name : value)
  : option (result (option Z)) :=
  match fuel with
  | O => None
  | S f =>
      match LineSeries_generator_next h g with
      | Raise StopIteration => Some (Ok None)
      | Raise e => Some (Raise e)
      | Ok (cell, g') =>
          v <-- Some (getattr_value h (ObjLine cell)) ;;
          if py_eq v row_name then Some (Ok (Some y))
          else Sheet_get_row_index_from_name_loop f h g' (y + 1) row_name
      end
  end.

Definition Sheet_get_row_index_from_name (fuel : nat) (h : host) (s : Sheet)
    (row_name : value) : option (result (option Z)) :=
  rows <-- Some (Sheet_rows s) ;;
  Sheet_get_row_index_from_name_loop fuel h (LineSeries_iter rows) 0 row_name.

(** [Sheet.get_row_by_name] *)
Definition Sheet_get_row_by_name (fuel : nat) (h : host) (s : Sheet)
    (row_name : value) : option (result (option Line)) :=
  y <-- Sheet_get_row_index_from_name fuel h s row_name ;;
  match y with
  | Some y' =>
      row <-- Some (Sheet_get_row_by_index s (VInt y')) ;;
      Some (Ok (Some row))
  | None => Some (Ok None)
  end.

(** [Sheet.get_row] *)
Definition Sheet_get_row (fuel : nat) (h : host) (s : Sheet)
    (row_identifier : value) : option (result (option Line)) :=
  if is_str row_identifier
  then Sheet_get_row_by_name fuel h s row_identifier
  else
    row <-- Some (Sheet_get_row_by_index s row_identifier) ;;
    Some (Ok (Some row)).

(** ** [Sheet.get_cell] *)

(** The keyword argument [x_identifier_type] or [y_identifier_type]:
    absent ([None]) or whatever the caller passed. *)
Definition identifier_type_ok (t : option string) : bool :=
  match t with
  | None => true
  | Some k => (k =? "index")%string || (k =? "name")%string
  end.

Definition is_name (t : option string) : bool :=
  match t with
  | Some k => (k =? "name")%string
  | None => false
  end.

Definition is_absent (t : option string) : bool :=
  match t with
  | None => true
  | Some _ => false
  end.

(** The test that sends the x identifier to [get_column_by_name]. *)
Definition x_by_name (x_identifier_type : option string)
    (x_identifier : value) : bool :=
  is_name x_identifier_type
  || (is_absent x_identifier_type && is_str x_identifier).

(** The test that sends the y identifier to [get_cell_by_reference]. *)
Definition y_by_name (x_identifier_type y_identifier_type : option string)
    (y_identifier : value) : bool :=
  is_name y_identifier_type
  || (is_absent x_identifier_type && is_str y_identifier).

(** A method call on what [get_column_by_name] returned, which may be
    [None]. *)
Definition method_of {A : Type} (column : option Line)
    (k : Line -> option (result A)) : option (result A) :=
  match column with
  | Some l => k l
  | None => Some (Raise AttributeError)
  end.

(** [Sheet.get_cell(cell_identifier, **kwargs)] for a two-element
    [cell_identifier]. *)
Definition Sheet_get_cell (fuel : nat) (h : host) (s : Sheet)
    (x_identifier y_identifier : value)
    (x_identifier_type y_identifier_type : option string)
  : option (result (option Cell)) :=
  _ <-- Some (py_assert (identifier_type_ok x_identifier_type)) ;;
  _ <-- Some (py_assert (identifier_type_ok y_identifier_type)) ;;
  column <--
    (if x_by_name x_identifier_type x_identifier
     then Sheet_get_column_by_name fuel h s x_identifier
     else
       _ <-- Some (py_assert (is_int x_identifier)) ;;
       c <-- Some (Sheet_get_column_by_index s x_identifier) ;;
       Some (Ok (Some c))) ;;
  if y_by_name x_identifier_type y_identifier_type y_identifier
  then
    method_of column
      (fun l => Line_get_cell_by_reference fuel h l y_identifier)
  else
    method_of column
      (fun l =>
         cell <-- Some (Line_get_cell_by_index l y_identifier) ;;
         Some (Ok (Some cell))).

(** ** Further operations of [Line], [LineSeries] and [Cell] *)

(** [Column.__getitem__] and [Row.__getitem__]: an [int] goes to
    [get_cell_by_index]; a string is looked up in the reference line
    ([self.reference_column] for a column, [self.reference_row] for a
    row) and the index found is handed to [self[x]] again. *)
Definition Line_getitem (fuel : nat) (h : host) (l : Line)
    (cell_identifier : value) : option (result (option Cell)) :=
  _ <-- Some (py_assert (is_int cell_identifier || is_str cell_identifier)) ;;
  if is_int cell_identifier then
    cell <-- Some (Line_get_cell_by_index l cell_identifier) ;;
    Some (Ok (Some cell))
  else
    reference_line <-- Some (Line_reference_line l) ;;
    found <-- Line_find fuel h reference_line cell_identifier ;;
    match found with
    | Some (x, _) =>
        cell <-- Some (Line_get_cell_by_index l (VInt x)) ;;
        Some (Ok (Some cell))
    | None => Some (Ok None)
    end.

(** [Line.name]: [self[self.name_cell_index].value]; the identifier is an
    [int], so [__getitem__] is [get_cell_by_index]. *)
Definition Line_name (h : host) (l : Line) : result value :=
  cell <- Line_get_cell_by_index l (VInt (Line_name_cell_index l)) ;;
  Ok (Cell_value h cell).

(** [LineSeries.get_by_index] *)
Definition LineSeries_get_by_index (series : LineSeries) (index : value)
  : result Line :=
  if (LineSeries_contents_type series =? "rows")%string
  then Sheet_get_row_by_index (line_sheet (reference_line series)) index
  else Sheet_get_column_by_index (line_sheet (reference_line series)) index.

(** [LineSeries.__getitem__] *)
Definition LineSeries_getitem (fuel : nat) (h : host) (series : LineSeries)
    (item : value) : option (result (option Line)) :=
  if is_int item then
    line <-- Some (LineSeries_get_by_index series item) ;;
    Some (Ok (Some line))
  else LineSeries_get_by_name fuel h series item.

(** Truth of a scalar in a condition. *)
Definition py_truth (v : value) : bool :=
  match v with
  | VNone => false
  | VInt n | VFloat n => negb (n =? 0)
  | VStr s => negb (s =? "")%string
  end.

(** [list(series.names)], [list(series.indexes)] and
    [list(series.named_only)]: each generator runs
    [for line in self] and yields [line.name], [line.index], or the line
    itself when [line.name] is true. *)
Fixpoint LineSeries_names (fuel : nat) (h : host) (g : LineSeries_generator)
  : option (result (list value)) :=
  match fuel with
  | O => None
  | S f =>
      match LineSeries_generator_next h g with
      | Raise StopIteration => Some (Ok [])
      | Raise e => Some (Raise e)
      | Ok (line, g') =>
          name <-- Some (Line_name h line) ;;
          rest <-- LineSeries_names f h g' ;;
          Some (Ok (name :: rest))
      end
  end.

Fixpoint LineSeries_indexes (fuel : nat) (h : host) (g : LineSeries_generator)
  : option (result (list Z)) :=
  match fuel with
  | O => None
  | S f =>
      match LineSeries_generator_next h g with
      | Raise StopIteration => Some (Ok [])
      | Raise e => Some (Raise e)
      | Ok (line, g') =>
          rest <-- LineSeries_indexes f h g' ;;
          Some (Ok (line_index line :: rest))
      end
  end.

Fixpoint LineSeries_named_only (fuel : nat) (h : host)
    (g : LineSeries_generator) : option (result (list Line)) :=
  match fuel with
  | O => None
  | S f =>
      match LineSeries_generator_next h g with
      | Raise StopIteration => Some (Ok [])
      | Raise e => Some (Raise e)
      | Ok (line, g') =>
          name <-- Some (Line_name h line) ;;
          rest <-- LineSeries_named_only f h g' ;;
          if py_truth name then Some (Ok (line :: rest)) else Some (Ok rest)
      end
  end.

(** Characters that [str.split()] treats as white space, among the
    characters with a code below 256 (the strings of the model): tab to
    carriage return, the four separators 28 to 31, the space, and the
    codes 133 and 160. *)
Definition is_space (c : Ascii.ascii) : bool :=
  let n := Ascii.nat_of_ascii c in
  ((9 <=? n)%nat && (n <=? 13)%nat)
  || ((28 <=? n)%nat && (n <=? 32)%nat)
  || (n =? 133)%nat || (n =? 160)%nat.

(** [s.split()]: the maximal runs of characters that are not white space.
    [word] is the run read so far. *)
Fixpoint split_from (word : string) (s : string) : list string :=
  match s with
  | EmptyString => if (word =? "")%string then [] else [word]
  | String c rest =>
      if is_space c then
        if (word =? "")%string then split_from "" rest
        else word :: split_from "" rest
      else split_from (word ++ String c "")%string rest
  end.

Definition py_split (s : string) : list string := split_from "" s.

(** [' '.join(words)] *)
Fixpoint py_join (words : list string) : string :=
  match words with
  | [] => ""
  | [w] => w
  | w :: rest => (w ++ " " ++ py_join rest)%string
  end.

(** [Cell.value_without_whitespace], on the value of the cell. *)
Definition without_whitespace (v : value) : value :=
  match v with
  | VStr s => VStr (py_join (py_split s))
  | other => other
  end.

Definition Cell_value_without_whitespace (h : host) (c : Cell) : value :=
  without_whitespace (Cell_value h c).

(** [Cell.has_whitespace] *)
Definition Cell_has_whitespace (h : host) (c : Cell) : bool :=
  negb (py_eq (Cell_value_without_whitespace h c) (Cell_value h c)).

(** [Cell.remove_whitespace] *)
Definition Cell_remove_whitespace (h : host) (c : Cell) : result host :=
  Cell_set_value h c (Cell_value_without_whitespace h c).

(** [Line.duplicates]: the cells whose value without white space is
    already in the set [cell_values] of the values seen. *)
Fixpoint Line_duplicates_loop (fuel : nat) (h : host) (it : CellLine)
    (cell_values : list value) : option (result (list Cell)) :=
  match fuel with
  | O => None
  | S f =>
      match CellLine_next h it with
      | Raise StopIteration => Some (Ok [])
      | Raise e => Some (Raise e)
      | Ok (cell, it') =>
          let v := Cell_value_without_whitespace h cell in
          rest <-- Line_duplicates_loop f h it' (v :: cell_values) ;;
          if existsb (py_eq v) cell_values then Some (Ok (cell :: rest))
          else Some (Ok rest)
      end
  end.

Definition Line_duplicates (fuel : nat) (h : host) (l : Line)
  : option (result (list Cell)) :=
  it <-- Some (py_iter l) ;;
  Line_duplicates_loop fuel h it [].

(** [Office.Uno.Cell.set_color] for a tuple or list argument. *)
Definition Uno_Cell_set_color_seq (h : host) (c : Cell) (color : list Z)
  : result host :=
  match color with
  | r :: g :: b :: _ =>
      let color_int := r * 256 ^ 2 + g * 256 + b in
      Ok (host_update h (Uno_Cell_source_cell c)
            (set_CellBackColor (h (Uno_Cell_source_cell c)) color_int))
  | _ => Raise IndexError
  end.

(** A string without white space. *)
Fixpoint no_space (s : string) : bool :=
  match s with
  | EmptyString => true
  | String c rest => negb (is_space c) && no_space rest
  end.

(** A word as [str.split()] returns them: not empty, no white space. *)
Definition is_word (w : string) : Prop := w <> "" /\ no_space w = true.

(** The line of index [k] that a series holds: a row when the series
    holds rows, a column when it holds columns. *)
Definition series_line (series : LineSeries) (k : Z) : Line :=
  mkLine
    (match line_class_of (reference_line series) with
     | RowClass => ColumnClass
     | ColumnClass => RowClass
     end)
    (line_sheet (reference_line series)) k k.

(** ** Statements taken from the specification, and sample documents *)

(** The rule the specification gives for the y coordinate of [get_cell]:
    by name exactly when [y_identifier_type] is ['name'], or when it is
    omitted and the identifier is a string. *)
Definition y_by_name_spec (y_identifier_type : option string)
    (y_identifier : value) : bool :=
  is_name y_identifier_type
  || (is_absent y_identifier_type && is_str y_identifier).

(** The position of entry [k] of a line. *)
Definition Line_position (l : Line) (k : Z) : Z * Z :=
  match line_class_of l with
  | ColumnClass => (line_index l, k)
  | RowClass => (k, line_index l)
  end.

(** The frame half of the specification's account of [Line.clear]: a
    finished [clear] leaves every cell before the header cell as it was,
    whatever [include_header] is. *)
Definition clear_keeps_cells_before_header : Prop :=
  forall (fuel : nat) (h h' : host) (l : Line) (include_header : bool) (k : Z),
    Line_clear fuel h l include_header = Some (Ok h') ->
    0 <= k < Line_name_cell_index l ->
    h' (Line_position l k) = h (Line_position l k).

(** The state of a cleared cell in the document. *)
Definition cleared : host_cell := mkHostCell Blank None.

(** The cells [0 .. n-1] of the line an iterator walks. *)
Definition cells_upto (it : CellLine) (n : Z) : list Cell :=
  map (fun k => mkCell (cl_sheet it) (CellLine_position it k)) (py_range 0 n).

(** A document with the given texts and nothing else. *)
Definition host_of (cells : list (Z * Z * string)) : host :=
  fun p =>
    match find (fun e => pos_eqb (fst e) p) cells with
    | Some (_, s) => mkHostCell (Text s) None
    | None => mkHostCell Blank None
    end.

(** Row 0 holds texts at columns 0, 1, 2 and 12. *)
Definition gap_of_nine : host :=
  host_of [((0, 0), "a"); ((1, 0), "b"); ((2, 0), "c"); ((12, 0), "d")].

(** Row 0 holds texts at columns 0, 1, 2 and 13. *)
Definition gap_of_ten : host :=
  host_of [((0, 0), "a"); ((1, 0), "b"); ((2, 0), "c"); ((13, 0), "d")].

(** One text, in the top left cell. *)
Definition one_cell : host := host_of [((0, 0), "a")].

(** Column 0 holds texts in rows 0, 1 and 2. *)
Definition three_rows : host :=
  host_of [((0, 0), "a"); ((0, 1), "b"); ((0, 2), "c")].

(** Column 0 holds ["a"], [" a "], ["b"] and ["a  b"] in rows 0 to 3 and
    ["a"] with a tab and a space after it in row 4. *)
Definition spaced_column : host :=
  host_of [((0, 0), "a"); ((0, 1), " a "); ((0, 2), "b"); ((0, 3), "a  b");
           ((0, 4), ("a" ++ String (Ascii.ascii_of_nat 9) " ")%string)].

(** ** Auxiliary views of the iterator, used to state and prove properties *)

(** The same iterator with another cursor and probe mark. *)
Definition with_cursor (it : CellLine) (i hi : Z) : CellLine :=
  mkCellLine (cl_sheet it) (cl_axis it) (cl_index it) i hi.

(** Entry [k] of the line an iterator walks, as a cell. *)
Definition entry (it : CellLine) (k : Z) : Cell :=
  mkCell (cl_sheet it) (CellLine_position it k).

(** The test [cell.string == ''] at entry [k]. *)
Definition emptiness (h : host) (it : CellLine) (k : Z) : bool :=
  (Cell_string h (entry it k) =? "")%string.

(** One [__next__] seen on the emptiness pattern [e] alone: the cursor and
    probe mark after the call, or [None] for [StopIteration]. *)
Definition scan_step (e : Z -> bool) (i hi : Z) : option (Z * Z) :=
  if e i && (i >? hi) then
    match find (fun k => negb (e (i + k))) (py_range 1 MAX_CELL_GAP) with
    | Some k => Some (i + 1, i + k)
    | None => None
    end
  else Some (i + 1, hi).

(** The indexes yielded from cursor [i] on, on the emptiness pattern. *)
Fixpoint scan (fuel : nat) (e : Z -> bool) (i hi : Z) : option (list Z) :=
  match fuel with
  | O => None
  | S f =>
      match scan_step e i hi with
      | None => Some []
      | Some (i', hi') =>
          match scan f e i' hi' with
          | Some ks => Some (i :: ks)
          | None => None
          end
      end
  end.

(** [n] calls of [__next__] in a row: the cells yielded and the iterator
    left behind. *)
Fixpoint CellLine_take (n : nat) (h : host) (it : CellLine)
  : result (list Cell * CellLine) :=
  match n with
  | O => Ok ([], it)
  | S m =>
      step <- CellLine_next h it ;;
      rest <- CellLine_take m h (snd step) ;;
      Ok (fst step :: fst rest, snd rest)
  end.

(** [list(generator)] for the generator of a [LineSeries]. *)
Fixpoint LineSeries_lines (fuel : nat) (h : host) (g : LineSeries_generator)
  : option (result (list Line)) :=
  match fuel with
  | O => None
  | S f =>
      match LineSeries_generator_next h g with
      | Raise StopIteration => Some (Ok [])
      | Raise e => Some (Raise e)
      | Ok (line, g') =>
          match LineSeries_lines f h g' with
          | Some (Ok lines) => Some (Ok (line :: lines))
          | other => other
          end
      end
  end.

(** Entry [k] of a line, as a cell. *)
Definition Line_entry (l : Line) (k : Z) : Cell :=
  mkCell (line_sheet l) (Line_position l k).

(** Whether [Line.clear] clears the cell it meets at count [k]. *)
Definition clears (l : Line) (include_header : bool) (k : Z) : bool :=
  (k >? Line_name_cell_index l) || include_header.

(** Evaluate closed sums and comparisons of integers in the goal. *)
Ltac closed_arith :=
  repeat match goal with
    | |- context [Z.add ?a ?b] =>
        let v := eval vm_compute in (Z.add a b) in
        match v with
        | Z0 => idtac | Zpos _ => idtac | Zneg _ => idtac
        end;
        progress change (Z.add a b) with v
    | |- context [Z.gtb ?a ?b] =>
        let v := eval vm_compute in (Z.gtb a b) in
        match v with true => idtac | false => idtac end;
        change (Z.gtb a b) with v
    end.

(** * Properties *)

(** ** Basic facts about the embedding *)

Lemma Zgtb_false (a b : Z) : a <= b -> (a >? b) = false.
Proof. intros H. rewrite Z.gtb_ltb. apply Z.ltb_ge. exact H. Qed.

Lemma Zgtb_true (a b : Z) : b < a -> (a >? b) = true.
Proof. intros H. rewrite Z.gtb_ltb. apply Z.ltb_lt. exact H. Qed.

Lemma pos_eqb_refl (p : Z * Z) : pos_eqb p p = true.
Proof. unfold pos_eqb. now rewrite !Z.eqb_refl. Qed.

Lemma pos_eqb_eq (p q : Z * Z) : pos_eqb p q = true <-> p = q.
Proof.
  destruct p as [a b], q as [c d]. unfold pos_eqb. simpl.
  rewrite andb_true_iff, !Z.eqb_eq. split.
  - intros [-> ->]. reflexivity.
  - intros H. inversion H. auto.
Qed.

Lemma pos_eqb_neq (p q : Z * Z) : pos_eqb p q = false <-> p <> q.
Proof.
  split.
  - intros H E. apply pos_eqb_eq in E. congruence.
  - intros H. destruct (pos_eqb p q) eqn:E; auto.
    apply pos_eqb_eq in E. contradiction.
Qed.

(** [_range] and [_source_cell] both address the cell's own position. *)
Lemma XW_Cell_range_position (c : Cell) : XW_Cell_range c = position c.
Proof.
  unfold XW_Cell_range, xw_range, Cell_x, Cell_y.
  destruct (position c) as [x y]. simpl. f_equal; lia.
Qed.

Lemma Uno_Cell_source_cell_position (c : Cell) :
  Uno_Cell_source_cell c = position c.
Proof.
  unfold Uno_Cell_source_cell, getCellByPosition, Cell_x, Cell_y.
  now destruct (position c).
Qed.

(** ** [Color] *)

Lemma pack_unpack (r g b : Z) :
  0 <= r <= 255 -> 0 <= g <= 255 -> 0 <= b <= 255 ->
  Color_rgb (mkColor (r * 65536 + g * 256 + b)) = (r, g, b).
Proof.
  intros Hr Hg Hb. unfold Color_rgb. simpl color.
  change 255 with (Z.ones 8).
  rewrite !Z.land_ones, !Z.shiftr_div_pow2 by lia.
  change (2 ^ 16) with 65536. change (2 ^ 8) with 256.
  repeat f_equal; Z.div_mod_to_equations; lia.
Qed.

(** C9.  For every tuple [(r, g, b)] of integers between 0 and 255,
    [Color((r, g, b))] is built, its packed integer is
    [r * 65536 + g * 256 + b], and its [rgb] is [(r, g, b)] again. *)
Theorem Color_rgb_roundtrip (r g b : Z) :
  0 <= r <= 255 -> 0 <= g <= 255 -> 0 <= b <= 255 ->
  Color_init (CTuple [VInt r; VInt g; VInt b])
    = Ok (mkColor (r * 65536 + g * 256 + b))
  /\ Color_rgb (mkColor (r * 65536 + g * 256 + b)) = (r, g, b).
Proof.
  intros Hr Hg Hb. split.
  - unfold Color_init.
    cbn [List.length Nat.eqb negb existsb bad_channel].
    rewrite !Zgtb_false by lia. cbn [orb].
    rewrite !Z.shiftl_mul_pow2 by lia. reflexivity.
  - now apply pack_unpack.
Qed.

(** The instance the specification names: [(255, 0, 128)] packs to
    [16711808]. *)
Lemma Color_rgb_roundtrip_witness :
  Color_init (CTuple [VInt 255; VInt 0; VInt 128]) = Ok (mkColor 16711808)
  /\ Color_rgb (mkColor 16711808) = (255, 0, 128).
Proof.
  apply (Color_rgb_roundtrip 255 0 128); lia.
Defined.

(** ** [Line.__init__] and the by-index getters *)

(** Whatever is passed as [reference_index], the line stores [index]. *)
Lemma Line_init_reference_index (cls : line_class) (s : Sheet)
    (index reference_index' : value) (l : Line) :
  Line_init cls s index reference_index' = Ok l ->
  reference_index l = line_index l /\ index = VInt (line_index l).
Proof.
  unfold Line_init. destruct index; try discriminate.
  destruct reference_index'; try discriminate.
  intros H. inversion H. simpl. auto.
Qed.

(** C3.  [Line.__init__] checks its [reference_index] argument and then
    stores [index] in the field: on a sheet whose reference row is 3,
    [Line(sheet, 5, 3)] and [get_row_by_index(5)] both give a row whose
    [reference_index] is 5, not the 3 that was passed. *)
Theorem Line_init_ignores_reference_index :
  let sheet := mkSheet XW 3 0 in
  Line_init RowClass sheet (VInt 5) (VInt 3) = Ok (mkLine RowClass sheet 5 5)
  /\ Sheet_get_row_by_index sheet (VInt 5) = Ok (mkLine RowClass sheet 5 5)
  /\ reference_index (mkLine RowClass sheet 5 5) <> reference_row_index sheet.
Proof.
  simpl. repeat split. discriminate.
Qed.

(** Three of the four by-index getters refuse a negative index before
    anything is built. *)
Lemma negative_index_refused (s : Sheet) (i : Z) :
  i < 0 ->
  XW_Sheet_get_row_by_index s (VInt i) = Raise ValueError
  /\ XW_Sheet_get_column_by_index s (VInt i) = Raise ValueError
  /\ Uno_Sheet_get_column_by_index s (VInt i) = Raise ValueError.
Proof.
  intros H. unfold XW_Sheet_get_row_by_index, XW_Sheet_get_column_by_index,
    Uno_Sheet_get_column_by_index.
  assert (E : (i <? 0) = true) by (apply Z.ltb_lt; exact H).
  rewrite E. auto.
Qed.

(** C5.  [Office.Uno.Sheet.get_row_by_index] has no range check: under the
    Uno binding [get_row_by_index(-1)] returns a row of index -1 instead
    of failing, while [get_column_by_index(-1)] and both getters of the XW
    binding raise [ValueError]. *)
Theorem Uno_get_row_by_index_accepts_negative :
  let sheet := mkSheet Uno 0 0 in
  Sheet_get_row_by_index sheet (VInt (-1))
    = Ok (mkLine RowClass sheet (-1) (-1))
  /\ Sheet_get_column_by_index sheet (VInt (-1)) = Raise ValueError
  /\ Sheet_get_row_by_index (mkSheet XW 0 0) (VInt (-1)) = Raise ValueError
  /\ Sheet_get_column_by_index (mkSheet XW 0 0) (VInt (-1)) = Raise ValueError.
Proof.
  simpl. repeat split.
Qed.

(** ** [Sheet.get_cell] *)

(** [get_cell((x, y))] with two [int]s and no hints is the by-index path
    that [CellLine.__next__] relies on. *)
Lemma Sheet_get_cell_of_ints (fuel : nat) (h : host) (s : Sheet) (x y : Z) :
  Sheet_get_cell fuel h s (VInt x) (VInt y) None None
  = match Sheet_get_cell_at s x y with
    | Ok c => Some (Ok (Some c))
    | Raise e => Some (Raise e)
    end.
Proof.
  unfold Sheet_get_cell, Sheet_get_cell_at. simpl.
  destruct (Sheet_get_column_by_index s (VInt x)) as [col|e]; simpl; auto.
Qed.

(** [get_row] and [get_column] with an [int] are the by-index getters. *)
Lemma Sheet_get_row_of_int (fuel : nat) (h : host) (s : Sheet) (y : Z) :
  Sheet_get_row fuel h s (VInt y)
  = match Sheet_get_row_by_index s (VInt y) with
    | Ok l => Some (Ok (Some l))
    | Raise e => Some (Raise e)
    end.
Proof.
  unfold Sheet_get_row. simpl.
  now destruct (Sheet_get_row_by_index s (VInt y)).
Qed.

Lemma Sheet_get_column_of_int (fuel : nat) (h : host) (s : Sheet) (x : Z) :
  Sheet_get_column fuel h s (VInt x)
  = match Sheet_get_column_by_index s (VInt x) with
    | Ok l => Some (Ok (Some l))
    | Raise e => Some (Raise e)
    end.
Proof.
  unfold Sheet_get_column. simpl.
  now destruct (Sheet_get_column_by_index s (VInt x)).
Qed.

(** The x coordinate follows the rule of the specification. *)
Lemma x_by_name_is_spec (xt : option string) (x : value) :
  x_by_name xt x = y_by_name_spec xt x.
Proof. reflexivity. Qed.

(** C6.  The test for the y coordinate reads [x_identifier_type] where it
    should read [y_identifier_type].  With [x_identifier_type='index'],
    no y hint and the string ["foo"] as y identifier, the specification
    resolves y by name, the code resolves it by index and
    [get_cell_by_index("foo")] raises [TypeError]; with no x hint and
    [y_identifier_type='index'] the code resolves a string y by name. *)
Theorem get_cell_y_depends_on_x_hint :
  y_by_name_spec None (VStr "foo") = true
  /\ y_by_name (Some "index") None (VStr "foo") = false
  /\ (forall (fuel : nat) (h : host) (i : interface),
        Sheet_get_cell fuel h (mkSheet i 0 0) (VInt 0) (VStr "foo")
          (Some "index") None = Some (Raise TypeError))
  /\ y_by_name_spec (Some "index") (VStr "foo") = false
  /\ y_by_name None (Some "index") (VStr "foo") = true.
Proof.
  repeat split. intros fuel h i. destruct i; reflexivity.
Qed.

(** ** [Cell.clear] *)

(** Under the XW binding [clear] succeeds and leaves the cell blank and
    without fill, whatever it held; no other cell changes. *)
Lemma XW_Cell_clear (h : host) (c : Cell) :
  sheet_interface (cell_sheet c) = XW ->
  exists h',
    Cell_clear h c = Ok h'
    /\ forall q, h' q = if pos_eqb q (position c) then cleared else h q.
Proof.
  intros HX. unfold Cell_clear, Cell_set_value, Cell_set_color.
  rewrite HX. unfold XW_Cell_set_value, XW_Cell_set_color. simpl.
  eexists. split; [reflexivity|].
  intros q. unfold host_update. rewrite XW_Cell_range_position.
  destruct (pos_eqb q (position c)) eqn:E; [|reflexivity].
  rewrite pos_eqb_refl. reflexivity.
Qed.

Lemma XW_Cell_clear_reads (h h' : host) (c : Cell) :
  sheet_interface (cell_sheet c) = XW ->
  Cell_clear h c = Ok h' ->
  Cell_value h' c = VNone /\ Cell_get_color h' c = ColorInt DEFAULT_COLOR.
Proof.
  intros HX Hc. destruct (XW_Cell_clear h c HX) as (h2 & E & Hq).
  rewrite E in Hc. inversion Hc; subst h2.
  unfold Cell_value, Cell_get_color. rewrite HX.
  unfold XW_Cell_value, XW_Cell_get_color.
  rewrite XW_Cell_range_position, Hq, pos_eqb_refl. split; reflexivity.
Qed.

(** C7.  Under the Uno binding the value setter asserts that the new value
    is a [str], an [int] or a [float]; [clear] hands it [None], so
    [clear()] raises [AssertionError] on every cell and changes nothing,
    where the XW binding ([XW_Cell_clear]) clears the cell. *)
Theorem Uno_Cell_clear_raises :
  forall (h : host) (r c x y : Z),
    Cell_clear h (mkCell (mkSheet Uno r c) (x, y)) = Raise AssertionError.
Proof.
  intros. reflexivity.
Qed.

(** ** [Sheet.get_row] by name *)

(** As soon as the generator of [self.rows] yields, the loop variable is a
    line and reading its [value] raises [AttributeError]. *)
Lemma get_row_index_from_name_loop_raises (fuel : nat) (h : host)
    (g g' : LineSeries_generator) (l : Line) (y : Z) (row_name : value) :
  LineSeries_generator_next h g = Ok (l, g') ->
  Sheet_get_row_index_from_name_loop (S fuel) h g y row_name
  = Some (Raise AttributeError).
Proof.
  intros H. simpl. rewrite H. reflexivity.
Qed.

(** C4.  [get_row_index_from_name] iterates [self.rows], which yields rows,
    and reads [.value] of each: on a sheet whose reference column starts
    with the text ["a"], [get_row(name)] raises [AttributeError] for every
    string [name], the matching ["a"] included, under both bindings.  The
    sibling [get_column_index_from_name] iterates the cells of the
    reference row. *)
Theorem get_row_by_name_raises :
  forall (fuel : nat) (i : interface) (name : string),
    Sheet_get_row (S fuel) one_cell (mkSheet i 0 0) (VStr name)
    = Some (Raise AttributeError).
Proof.
  intros fuel i name. destruct i; reflexivity.
Qed.

(** The sibling lookup of a column finds the name. *)
Lemma get_column_by_name_finds :
  Sheet_get_column 1 one_cell (mkSheet XW 0 0) (VStr "a")
  = Some (Ok (Some (mkLine ColumnClass (mkSheet XW 0 0) 0 0))).
Proof. reflexivity. Qed.

(** ** [LineSeries.__len__] *)

Lemma Line_len_loop_deterministic (f1 f2 : nat) (h : host) :
  forall (it : CellLine) (count : Z) (r1 r2 : result Z),
    Line_len_loop f1 h it count = Some r1 ->
    Line_len_loop f2 h it count = Some r2 ->
    r1 = r2.
Proof.
  revert f2. induction f1 as [|f1 IH]; intros f2 it count r1 r2 H1 H2.
  - discriminate.
  - destruct f2 as [|f2]; [discriminate|].
    simpl in H1, H2.
    destruct (CellLine_next h it) as [[cell it']|e].
    + eapply IH; eassumption.
    + destruct e; congruence.
Qed.

(** A line with at least one cell is true in a condition whenever the
    test finishes. *)
Lemma Line_bool_of_nonempty (h : host) (l : Line) (f0 : nat) (n : Z) :
  Line_len f0 h l = Some (Ok n) -> n <> 0 ->
  forall f, Line_bool f h l = None \/ Line_bool f h l = Some (Ok true).
Proof.
  intros H0 Hn f. unfold Line_bool, Line_len in *.
  destruct (py_iter l) as [it|e]; [|discriminate].
  destruct (Line_len_loop f h it 0) as [r|] eqn:E; [|left; reflexivity].
  right. rewrite (Line_len_loop_deterministic _ _ _ _ _ _ _ E H0).
  simpl. apply Z.eqb_neq in Hn. now rewrite Hn.
Qed.

(** Each turn of the [while] builds a new generator and takes its first
    line; when that line is true the loop can only go round again. *)
Lemma LineSeries_len_diverges (h : host) (series : LineSeries) (l : Line)
    (g : LineSeries_generator) :
  LineSeries_generator_next h (LineSeries_iter series) = Ok (l, g) ->
  (forall f, Line_bool f h l = None \/ Line_bool f h l = Some (Ok true)) ->
  forall (fuel : nat) (count : Z), LineSeries_len_loop fuel h series count = None.
Proof.
  intros Hg Hb fuel. induction fuel as [|f IH]; intros count.
  - reflexivity.
  - cbn [LineSeries_len_loop]. rewrite Hg.
    destruct (Hb f) as [E|E]; rewrite E; auto.
Qed.

(** C2.  [__len__] asks a new generator for its first line on every turn
    of its [while], so the count never reaches the end of the series: on
    the XW sheet whose only content is the text ["a"] in the top left
    cell, one traversal of [sheet.columns] yields exactly one column, and
    [len(sheet.columns)] returns for no amount of fuel. *)
Theorem LineSeries_len_never_returns :
  let sheet := mkSheet XW 0 0 in
  let series := mkLineSeries (mkLine RowClass sheet 0 0) in
  Sheet_columns sheet = Ok series
  /\ LineSeries_lines 2 one_cell (LineSeries_iter series)
     = Some (Ok [mkLine ColumnClass sheet 0 0])
  /\ forall fuel : nat, LineSeries_len fuel one_cell series = None.
Proof.
  simpl. split; [reflexivity|]. split; [reflexivity|].
  intros fuel. unfold LineSeries_len.
  eapply LineSeries_len_diverges.
  - reflexivity.
  - apply (Line_bool_of_nonempty _ _ 2%nat 1); [reflexivity|discriminate].
Qed.

(** ** The gap-tolerant iterator *)

(** Inside the sheet, [get_cell((x, y))] builds the cell at [(x, y)]. *)
Lemma Sheet_get_cell_at_ok (s : Sheet) (x y : Z) :
  0 <= x -> 0 <= y -> Sheet_get_cell_at s x y = Ok (mkCell s (x, y)).
Proof.
  intros Hx Hy.
  assert (Ex : (x <? 0) = false) by (apply Z.ltb_ge; lia).
  assert (Ey : (y <? 0) = false) by (apply Z.ltb_ge; lia).
  unfold Sheet_get_cell_at, Sheet_get_column_by_index,
    XW_Sheet_get_column_by_index, Uno_Sheet_get_column_by_index.
  destruct s as [[] r c]; simpl; rewrite Ex; simpl; rewrite ?Ey; reflexivity.
Qed.

Lemma CellLine_position_nonneg (it : CellLine) (k : Z) :
  0 <= cl_index it -> 0 <= k ->
  0 <= fst (CellLine_position it k) /\ 0 <= snd (CellLine_position it k).
Proof.
  intros Hi Hk. unfold CellLine_position. destruct (cl_axis it); simpl; lia.
Qed.

Lemma py_range_gap : py_range 1 MAX_CELL_GAP = [1; 2; 3; 4; 5; 6; 7; 8; 9].
Proof. reflexivity. Qed.

(** The probe returns the first offset that meets a cell with text. *)
Lemma CellLine_probe_find (h : host) (it : CellLine) (offsets : list Z) :
  0 <= cl_index it -> 0 <= cl_i it ->
  (forall k, In k offsets -> 0 <= k) ->
  CellLine_probe h it offsets
  = Ok (option_map (fun k => cl_i it + k)
          (find (fun k => negb (emptiness h it (cl_i it + k))) offsets)).
Proof.
  intros Hi Hc. induction offsets as [|k rest IH]; intros Hk.
  - reflexivity.
  - cbn [CellLine_probe find].
    assert (Hn : 0 <= cl_i it + k)
      by (specialize (Hk k (or_introl eq_refl)); lia).
    assert (E : (let '(x, y) := CellLine_position it (cl_i it + k) in
                 test_cell <- Sheet_get_cell_at (cl_sheet it) x y ;;
                 if negb (Cell_string h test_cell =? "")%string
                 then Ok (Some (cl_i it + k))
                 else CellLine_probe h it rest)
                = if negb (emptiness h it (cl_i it + k))
                  then Ok (Some (cl_i it + k))
                  else CellLine_probe h it rest).
    { unfold emptiness, entry, CellLine_position.
      destruct (cl_axis it); rewrite Sheet_get_cell_at_ok by lia;
        reflexivity. }
    rewrite E. clear E.
    destruct (emptiness h it (cl_i it + k)); cbn [negb].
    + apply IH. intros j Hj. apply Hk. now right.
    + reflexivity.
Qed.

(** [__next__] on the emptiness pattern of the line. *)
Lemma CellLine_next_scan (h : host) (it : CellLine) :
  0 <= cl_index it -> 0 <= cl_i it ->
  CellLine_next h it
  = match scan_step (emptiness h it) (cl_i it) (highest_inhabited_i it) with
    | Some (i', hi') => Ok (entry it (cl_i it), with_cursor it i' hi')
    | None => Raise StopIteration
    end.
Proof.
  intros Hi Hc.
  assert (E : CellLine_next h it
              = if emptiness h it (cl_i it)
                   && (cl_i it >? highest_inhabited_i it)
                then
                  found <- CellLine_probe h it (py_range 1 MAX_CELL_GAP) ;;
                  match found with
                  | Some hi =>
                      Ok (entry it (cl_i it), with_cursor it (cl_i it + 1) hi)
                  | None => Raise StopIteration
                  end
                else
                  Ok (entry it (cl_i it),
                      with_cursor it (cl_i it + 1) (highest_inhabited_i it))).
  { destruct it as [s [] idx i hi]; cbn in Hi, Hc;
      unfold CellLine_next, emptiness, entry, with_cursor, CellLine_position;
      cbn [cl_sheet cl_axis cl_index cl_i highest_inhabited_i];
      rewrite Sheet_get_cell_at_ok by lia; reflexivity. }
  rewrite E. clear E. unfold scan_step.
  destruct (emptiness h it (cl_i it) && (cl_i it >? highest_inhabited_i it)).
  - rewrite CellLine_probe_find; try assumption.
    + cbn [bind]. destruct (find _ _); reflexivity.
    + rewrite py_range_gap. simpl. intros k Hk.
      repeat (destruct Hk as [<-|Hk]; [lia|]). contradiction.
  - reflexivity.
Qed.

Lemma scan_step_cursor (e : Z -> bool) (i hi i' hi' : Z) :
  scan_step e i hi = Some (i', hi') -> i' = i + 1.
Proof.
  unfold scan_step. destruct (e i && (i >? hi)).
  - destruct (find _ _); intros H; inversion H; reflexivity.
  - intros H; inversion H; reflexivity.
Qed.

(** The cells an iterator yields are the entries [scan] lists. *)
Lemma CellLine_cells_scan (fuel : nat) (h : host) :
  forall it : CellLine,
    0 <= cl_index it -> 0 <= cl_i it ->
    CellLine_cells fuel h it
    = option_map (fun ks => Ok (map (entry it) ks))
        (scan fuel (emptiness h it) (cl_i it) (highest_inhabited_i it)).
Proof.
  induction fuel as [|f IH]; intros it Hi Hc.
  - reflexivity.
  - cbn [CellLine_cells scan]. rewrite CellLine_next_scan by assumption.
    destruct (scan_step _ _ _) as [[i' hi']|] eqn:E; [|reflexivity].
    apply scan_step_cursor in E. subst i'.
    rewrite IH by (simpl; lia).
    change (emptiness h (with_cursor it (cl_i it + 1) hi'))
      with (emptiness h it).
    change (cl_i (with_cursor it (cl_i it + 1) hi')) with (cl_i it + 1).
    change (highest_inhabited_i (with_cursor it (cl_i it + 1) hi')) with hi'.
    destruct (scan f _ _ _); reflexivity.
Qed.

(** [scan] reads the pattern only from the cursor up to the end of the
    last probe window. *)
Lemma scan_step_ext (e1 e2 : Z -> bool) (i hi : Z) :
  (forall k, i <= k < i + MAX_CELL_GAP -> e1 k = e2 k) ->
  scan_step e1 i hi = scan_step e2 i hi.
Proof.
  intros H. unfold scan_step. rewrite py_range_gap. unfold MAX_CELL_GAP in H.
  rewrite (H i) by lia. cbn [find].
  rewrite !(H (i + _)) by lia. reflexivity.
Qed.

Lemma scan_ext (fuel : nat) (e1 e2 : Z -> bool) :
  forall i hi,
    (forall k, i <= k < i + Z.of_nat fuel + MAX_CELL_GAP - 1 -> e1 k = e2 k) ->
    scan fuel e1 i hi = scan fuel e2 i hi.
Proof.
  induction fuel as [|f IH]; intros i hi H.
  - reflexivity.
  - cbn [scan]. rewrite (scan_step_ext e1 e2).
    + destruct (scan_step e2 i hi) as [[i' hi']|] eqn:E; [|reflexivity].
      apply scan_step_cursor in E. subst i'.
      rewrite IH; [reflexivity|]. intros k Hk. apply H. lia.
    + intros k Hk. apply H. lia.
Qed.

Lemma emptiness_true (h : host) (it : CellLine) (k : Z) :
  Cell_string h (entry it k) = "" -> emptiness h it k = true.
Proof. intros H. unfold emptiness. now rewrite H. Qed.

Lemma emptiness_false (h : host) (it : CellLine) (k : Z) :
  Cell_string h (entry it k) <> "" -> emptiness h it k = false.
Proof. intros H. unfold emptiness. now apply String.eqb_neq. Qed.

(** C1.  Walk a line of a sheet with a fresh [CellLine].  On a document
    whose line has text at entries 0, 1, 2 and 12 and nothing at entries
    3 to 11 nor after 12, the iterator yields exactly the cells at entries
    0 to 12, the empty ones included.  On a document whose line has text
    at entries 0, 1, 2 and 13 and nothing at entries 3 to 12, the iterator
    stops after the cell at entry 2, and the empty cell at entry 3 is not
    yielded. *)
Theorem gap_tolerant_iteration (s : Sheet) (a : axis) (index : Z)
    (h1 h2 : host) :
  let it := CellLine_init s a index in
  0 <= index ->
  (forall k, 0 <= k <= 2 \/ k = 12 -> Cell_string h1 (entry it k) <> "") ->
  (forall k, 3 <= k <= 11 -> Cell_string h1 (entry it k) = "") ->
  (forall k, 13 <= k <= 22 -> Cell_string h1 (entry it k) = "") ->
  (forall k, 0 <= k <= 2 \/ k = 13 -> Cell_string h2 (entry it k) <> "") ->
  (forall k, 3 <= k <= 12 -> Cell_string h2 (entry it k) = "") ->
  CellLine_cells 14 h1 it = Some (Ok (cells_upto it 13))
  /\ CellLine_cells 4 h2 it = Some (Ok (cells_upto it 3)).
Proof.
  intros it Hidx T1 E1 E1' T2 E2. split.
  - rewrite CellLine_cells_scan by (simpl; lia).
    rewrite (scan_ext _ _ (fun k => (3 <=? k) && negb (k =? 12))).
    + reflexivity.
    + cbn [cl_i it CellLine_init]. unfold MAX_CELL_GAP. intros k Hk.
      destruct (Z.eq_dec k 12) as [->|Hne].
      * apply emptiness_false, T1. lia.
      * destruct (Z_lt_le_dec k 3) as [Hlt|Hge].
        -- rewrite emptiness_false by (apply T1; lia).
           symmetry. apply andb_false_iff. left. apply Z.leb_gt. lia.
        -- assert (Hcase : 3 <= k <= 11 \/ 13 <= k <= 22) by lia.
           rewrite emptiness_true by (destruct Hcase; [apply E1|apply E1']; lia).
           symmetry. apply andb_true_iff. split.
           ++ apply Z.leb_le. lia.
           ++ apply negb_true_iff, Z.eqb_neq. lia.
  - rewrite CellLine_cells_scan by (simpl; lia).
    rewrite (scan_ext _ _ (fun k => 3 <=? k)).
    + reflexivity.
    + cbn [cl_i it CellLine_init]. unfold MAX_CELL_GAP. intros k Hk.
      destruct (Z_lt_le_dec k 3) as [Hlt|Hge].
      * rewrite emptiness_false by (apply T2; lia).
        symmetry. apply Z.leb_gt. lia.
      * rewrite emptiness_true by (apply E2; lia).
        symmetry. apply Z.leb_le. lia.
Qed.

(** The two documents as row 0 of an XW sheet. *)
Lemma gap_tolerant_iteration_witness :
  CellLine_cells 14 gap_of_nine (CellLine_init (mkSheet XW 0 0) AxisX 0)
  = Some (Ok (cells_upto (CellLine_init (mkSheet XW 0 0) AxisX 0) 13))
  /\ CellLine_cells 4 gap_of_ten (CellLine_init (mkSheet XW 0 0) AxisX 0)
     = Some (Ok (cells_upto (CellLine_init (mkSheet XW 0 0) AxisX 0) 3)).
Proof.
  apply (gap_tolerant_iteration (mkSheet XW 0 0) AxisX 0
           gap_of_nine gap_of_ten).
  - lia.
  - intros k Hk.
    assert (C : k = 0 \/ k = 1 \/ k = 2 \/ k = 12) by lia.
    destruct C as [-> | [-> | [-> | ->]]]; vm_compute; discriminate.
  - intros k Hk.
    assert (C : k = 3 \/ k = 4 \/ k = 5 \/ k = 6 \/ k = 7 \/ k = 8 \/ k = 9
                \/ k = 10 \/ k = 11) by lia.
    repeat (destruct C as [-> | C]; [reflexivity|]). subst k. reflexivity.
  - intros k Hk.
    assert (C : k = 13 \/ k = 14 \/ k = 15 \/ k = 16 \/ k = 17 \/ k = 18
                \/ k = 19 \/ k = 20 \/ k = 21 \/ k = 22) by lia.
    repeat (destruct C as [-> | C]; [reflexivity|]). subst k. reflexivity.
  - intros k Hk.
    assert (C : k = 0 \/ k = 1 \/ k = 2 \/ k = 13) by lia.
    destruct C as [-> | [-> | [-> | ->]]]; vm_compute; discriminate.
  - intros k Hk.
    assert (C : k = 3 \/ k = 4 \/ k = 5 \/ k = 6 \/ k = 7 \/ k = 8 \/ k = 9
                \/ k = 10 \/ k = 11 \/ k = 12) by lia.
    repeat (destruct C as [-> | C]; [reflexivity|]). subst k. reflexivity.
Defined.

(** Whatever follows entry 12, the first thirteen calls of [__next__]
    return the cells at entries 0 to 12: one probe at entry 3 reaches the
    text at entry 12 and vouches for the empty cells in between. *)
Lemma gap_interior_yielded (s : Sheet) (a : axis) (index : Z) (h : host) :
  let it := CellLine_init s a index in
  0 <= index ->
  (forall k, 0 <= k <= 2 \/ k = 12 -> Cell_string h (entry it k) <> "") ->
  (forall k, 3 <= k <= 11 -> Cell_string h (entry it k) = "") ->
  CellLine_take 13 h it = Ok (cells_upto it 13, with_cursor it 13 12).
Proof.
  intros it Hidx T E.
  assert (F : forall k, 0 <= k <= 2 \/ k = 12 -> emptiness h it k = false)
    by (intros; apply emptiness_false; auto).
  assert (G : forall k, 3 <= k <= 11 -> emptiness h it k = true)
    by (intros; apply emptiness_true; auto).
  assert (step : forall i hi,
             0 <= i ->
             CellLine_next h (with_cursor it i hi)
             = match scan_step (emptiness h it) i hi with
               | Some (i', hi') => Ok (entry it i, with_cursor it i' hi')
               | None => Raise StopIteration
               end).
  { intros i hi Hi. rewrite CellLine_next_scan by (simpl; lia). reflexivity. }
  change it with (with_cursor it 0 (-1)) at 1.
  unfold CellLine_take.
  repeat first
    [ rewrite step by lia
    | progress (unfold scan_step; rewrite ?py_range_gap;
                cbn [find andb negb bind fst snd])
    | progress closed_arith
    | rewrite F by lia
    | rewrite G by lia ].
  reflexivity.
Qed.

(** ** What a scan can reach *)

Lemma In_gap_offsets (k : Z) :
  In k (py_range 1 MAX_CELL_GAP) <-> 1 <= k < MAX_CELL_GAP.
Proof.
  rewrite py_range_gap. unfold MAX_CELL_GAP. simpl. split.
  - intros H. repeat (destruct H as [<- | H]; [lia|]). contradiction.
  - intros H.
    assert (C : k = 1 \/ k = 2 \/ k = 3 \/ k = 4 \/ k = 5 \/ k = 6 \/ k = 7
                \/ k = 8 \/ k = 9) by lia.
    intuition.
Qed.

(** A probe mark set by [scan_step] is the index of a cell with text, at
    most [MAX_CELL_GAP - 1] past the cursor. *)
Lemma scan_step_mark (e : Z -> bool) (i hi i' hi' : Z) :
  scan_step e i hi = Some (i', hi') ->
  i' = i + 1
  /\ (hi' = hi /\ (e i = false \/ i <= hi)
      \/ e i = true /\ hi < i /\ e hi' = false /\ i < hi' < i + MAX_CELL_GAP).
Proof.
  unfold scan_step.
  destruct (e i) eqn:Ei; cbn [andb].
  - destruct (i >? hi) eqn:Eg.
    + destruct (find _ _) as [k|] eqn:Ef; [|discriminate].
      intros H. inversion H; subst. split; [reflexivity|]. right.
      apply find_some in Ef. destruct Ef as [Hin Hk].
      apply In_gap_offsets in Hin. apply negb_true_iff in Hk.
      apply Z.gtb_lt in Eg. repeat split; auto; lia.
    + intros H. inversion H; subst. split; [reflexivity|]. left.
      split; [reflexivity|]. right.
      rewrite Z.gtb_ltb in Eg. apply Z.ltb_ge in Eg. exact Eg.
  - intros H. inversion H; subst. split; [reflexivity|]. left. auto.
Qed.

(** At the start of a run of [MAX_CELL_GAP] empty cells that no probe has
    vouched for, the scan stops. *)
Lemma scan_step_stops (e : Z -> bool) (i hi : Z) :
  hi < i ->
  (forall k, i <= k < i + MAX_CELL_GAP -> e k = true) ->
  scan_step e i hi = None.
Proof.
  intros Hhi He. unfold scan_step.
  rewrite (He i) by (unfold MAX_CELL_GAP; lia).
  rewrite Zgtb_true by lia. cbn [andb].
  destruct (find _ _) as [k|] eqn:Ef; [|reflexivity].
  apply find_some in Ef. destruct Ef as [Hin Hk].
  apply In_gap_offsets in Hin.
  rewrite He in Hk by lia. discriminate.
Qed.

Lemma py_range_nil (i : Z) : py_range i i = [].
Proof. unfold py_range. now rewrite Z.sub_diag. Qed.

Lemma py_range_cons (i n : Z) :
  i < n -> py_range i n = i :: py_range (i + 1) n.
Proof.
  intros H. unfold py_range.
  replace (Z.to_nat (n - i)) with (S (Z.to_nat (n - (i + 1)))) by lia.
  cbn [seq map]. f_equal; [lia|].
  rewrite <- seq_shift, map_map. apply map_ext. intros k. lia.
Qed.

Lemma In_py_range (i n k : Z) : In k (py_range i n) <-> i <= k < n.
Proof.
  unfold py_range. rewrite in_map_iff. split.
  - intros (j & <- & Hj). apply in_seq in Hj. lia.
  - intros H. exists (Z.to_nat (k - i)). split; [lia|].
    apply in_seq. lia.
Qed.

(** The indexes a scan yields are consecutive from the cursor. *)
Lemma scan_consecutive (fuel : nat) (e : Z -> bool) :
  forall i hi ks,
    scan fuel e i hi = Some ks ->
    exists n, i <= n /\ ks = py_range i n.
Proof.
  induction fuel as [|f IH]; intros i hi ks H.
  - discriminate.
  - cbn [scan] in H.
    destruct (scan_step e i hi) as [[i' hi']|] eqn:E.
    + apply scan_step_cursor in E. subst i'.
      destruct (scan f e (i + 1) hi') as [ks'|] eqn:E'; [|discriminate].
      inversion H; subst ks. destruct (IH _ _ _ E') as (n & Hn & ->).
      exists n. split; [lia|]. rewrite (py_range_cons i n) by lia.
      reflexivity.
    + inversion H; subst ks. exists i. split; [lia|].
      now rewrite py_range_nil.
Qed.

(** A line that is empty from entry [B] on is scanned to its end with
    [B + 1] units of fuel. *)
Lemma scan_terminates (e : Z -> bool) (B : Z) :
  (forall k, B <= k -> e k = true) ->
  forall (fuel : nat) (i hi : Z),
    hi < B -> B - i <= Z.of_nat fuel ->
    exists ks, scan (S fuel) e i hi = Some ks.
Proof.
  intros He. induction fuel as [|f IH]; intros i hi Hhi Hf.
  - cbn [scan]. rewrite scan_step_stops; [eauto|lia|].
    intros k Hk. apply He. lia.
  - change (scan (S (S f)) e i hi)
      with (match scan_step e i hi with
            | None => Some []
            | Some (i', hi') =>
                match scan (S f) e i' hi' with
                | Some ks => Some (i :: ks)
                | None => None
                end
            end).
    destruct (scan_step e i hi) as [[i' hi']|] eqn:E; [|eauto].
    destruct (Z_lt_le_dec i B) as [Hlt|Hge].
    + apply scan_step_mark in E. destruct E as (-> & E).
      assert (Hhi' : hi' < B).
      { destruct E as [[-> _]|(_ & _ & Hm & _)]; [exact Hhi|].
        destruct (Z_lt_le_dec hi' B) as [?|Hb]; [assumption|].
        rewrite He in Hm by exact Hb. discriminate. }
      destruct (IH (i + 1) hi' Hhi') as (ks & Hks); [lia|].
      rewrite Hks. eauto.
    + rewrite scan_step_stops in E; [discriminate|lia|].
      intros k Hk. apply He. lia.
Qed.

(** ** Lookups by name stop where the scan stops *)

Lemma find_by_value_S (f : nat) (h : host) (it : CellLine) (i : Z)
    (name : value) :
  find_by_value (S f) h it i name
  = match CellLine_next h it with
    | Raise StopIteration => Some (Ok None)
    | Raise e => Some (Raise e)
    | Ok (cell, it') =>
        if py_eq (Cell_value h cell) name then Some (Ok (Some (i, cell)))
        else find_by_value f h it' (i + 1) name
    end.
Proof. reflexivity. Qed.

(** When entries [a .. a + MAX_CELL_GAP - 1] are empty and no entry before
    [a] holds the name, the search loop ends without a match, within
    [a + 1] turns. *)
Lemma find_by_value_gap (h : host) (a : Z) (name : value) :
  forall (fuel : nat) (it : CellLine) (i : Z),
    0 <= cl_index it -> 0 <= cl_i it <= a -> highest_inhabited_i it < a ->
    (forall k, a <= k < a + MAX_CELL_GAP -> emptiness h it k = true) ->
    (forall k, cl_i it <= k < a ->
               py_eq (Cell_value h (entry it k)) name = false) ->
    a - cl_i it <= Z.of_nat fuel ->
    find_by_value (S fuel) h it i name = Some (Ok None).
Proof.
  induction fuel as [|f IH]; intros it i Hidx Hc Hhi Hgap Hname Hf;
    rewrite find_by_value_S, CellLine_next_scan by lia.
  - rewrite scan_step_stops; [reflexivity|lia|].
    intros k Hk. apply Hgap. lia.
  - destruct (scan_step _ _ _) as [[i' hi']|] eqn:E; [|reflexivity].
    apply scan_step_mark in E. destruct E as (-> & E).
    assert (Hlt : cl_i it < a /\ hi' < a).
    { destruct E as [[-> [Ee|Ele]]|(_ & _ & Hm & Hr)].
      - split; [|lia]. destruct (Z.eq_dec (cl_i it) a) as [Ea|]; [|lia].
        rewrite Hgap in Ee by (unfold MAX_CELL_GAP; lia). discriminate.
      - lia.
      - assert (hi' < a); [|lia].
        destruct (Z_lt_le_dec hi' a) as [?|Hb]; [assumption|].
        rewrite Hgap in Hm by lia. discriminate. }
    rewrite Hname by lia.
    apply IH; cbn [cl_index cl_i highest_inhabited_i with_cursor];
      try lia; try assumption.
    intros k Hk. apply Hname. lia.
Qed.

(** The iterator of a line walks the entries of that line. *)
Lemma Line_iter_entry (l : Line) (it : CellLine) :
  Line_iter l = Some it ->
  cl_sheet it = line_sheet l /\ cl_index it = line_index l
  /\ cl_i it = 0 /\ highest_inhabited_i it = -1
  /\ forall k, entry it k = Line_entry l k.
Proof.
  unfold Line_iter, Line_entry, Line_position, entry.
  destruct (sheet_interface (line_sheet l)), (line_class_of l);
    intros H; inversion H; subst; repeat split.
Qed.

Lemma Line_find_gap (h : host) (l : Line) (it : CellLine) (a : Z)
    (name : value) :
  Line_iter l = Some it ->
  0 <= line_index l -> 0 <= a ->
  (forall k, a <= k < a + MAX_CELL_GAP -> Cell_string h (Line_entry l k) = "") ->
  (forall k, 0 <= k -> py_eq (Cell_value h (Line_entry l k)) name = true ->
             a + MAX_CELL_GAP <= k) ->
  Line_find (S (Z.to_nat a)) h l name = Some (Ok None).
Proof.
  intros Hit Hidx Ha Hgap Hname. unfold Line_find, py_iter. rewrite Hit.
  destruct (Line_iter_entry l it Hit) as (_ & Ei & Ec & Eh & Hent).
  apply find_by_value_gap with (a := a); rewrite ?Ei, ?Ec, ?Eh; try lia.
  - intros k Hk. apply emptiness_true. rewrite Hent. now apply Hgap.
  - intros k Hk. rewrite Hent.
    destruct (py_eq (Cell_value h (Line_entry l k)) name) eqn:E; [|reflexivity].
    apply Hname in E; unfold MAX_CELL_GAP in *; lia.
Qed.

(** Wherever the reference line can be iterated (both line classes of
    the XW binding, columns of the Uno binding): when
    every cell of the reference line whose value equals the name lies
    past a run of [MAX_CELL_GAP] empty cells, [LineSeries.get_by_name] and
    [Line.get_cell_by_reference] return [None]. *)
Lemma name_lookup_gap_prefix (h : host) (series : LineSeries) (l : Line)
    (it : CellLine) (a : Z) (name : value) :
  let rl := reference_line series in
  Line_reference_line l = Ok rl ->
  Line_iter rl = Some it ->
  0 <= line_index rl -> 0 <= a ->
  (forall k, a <= k < a + MAX_CELL_GAP ->
             Cell_string h (Line_entry rl k) = "") ->
  (forall k, 0 <= k -> py_eq (Cell_value h (Line_entry rl k)) name = true ->
             a + MAX_CELL_GAP <= k) ->
  LineSeries_get_by_name (S (Z.to_nat a)) h series name = Some (Ok None)
  /\ Line_get_cell_by_reference (S (Z.to_nat a)) h l name = Some (Ok None).
Proof.
  intros rl Hrl Hit Hidx Ha Hgap Hname.
  pose proof (Line_find_gap h rl it a name Hit Hidx Ha Hgap Hname) as F.
  split.
  - unfold LineSeries_get_by_name. fold rl. rewrite F. reflexivity.
  - unfold Line_get_cell_by_reference. rewrite Hrl. cbn [fbind].
    rewrite F. reflexivity.
Qed.

(** On the XW sheet whose reference row holds ["a"] in column 0 and ["d"]
    in column 13, the column named ["d"] is not found. *)
Lemma name_lookup_gap_prefix_example :
  let sheet := mkSheet XW 0 0 in
  let row := mkLine RowClass sheet 0 0 in
  Cell_value gap_of_ten (Line_entry row 13) = VStr "d"
  /\ LineSeries_get_by_name 4 gap_of_ten (mkLineSeries row) (VStr "d")
     = Some (Ok None)
  /\ Line_get_cell_by_reference 4 gap_of_ten row (VStr "d") = Some (Ok None).
Proof.
  repeat split.
Qed.

(** C10.  [Office.Uno.Row.__iter__] calls [get_iterator] and returns
    nothing, so a row of the Uno binding cannot be scanned at all: with
    the reference row as reference line, [LineSeries.get_by_name] and
    [Line.get_cell_by_reference] raise [TypeError] for every name and
    every document, also where no cell holds the name, instead of
    returning [None].  [name_lookup_gap_prefix] covers the lines that can
    be iterated. *)
Theorem Uno_row_lookup_raises :
  forall (fuel : nat) (h : host) (name : value),
    let sheet := mkSheet Uno 0 0 in
    let row := mkLine RowClass sheet 0 0 in
    Sheet_columns sheet = Ok (mkLineSeries row)
    /\ Line_reference_line row = Ok row
    /\ LineSeries_get_by_name fuel h (mkLineSeries row) name
       = Some (Raise TypeError)
    /\ Line_get_cell_by_reference fuel h row name = Some (Raise TypeError).
Proof.
  intros fuel h name. repeat split.
Qed.

(** ** [Line.clear] *)

Lemma Cell_string_ext (h1 h2 : host) (c : Cell) :
  h1 (position c) = h2 (position c) -> Cell_string h1 c = Cell_string h2 c.
Proof.
  intros H. unfold Cell_string, XW_Cell_string, XW_Cell_value, Uno_Cell_string.
  rewrite XW_Cell_range_position, Uno_Cell_source_cell_position, H.
  reflexivity.
Qed.

Lemma emptiness_ext (h1 h2 : host) (it : CellLine) (k : Z) :
  h1 (CellLine_position it k) = h2 (CellLine_position it k) ->
  emptiness h1 it k = emptiness h2 it k.
Proof.
  intros H. unfold emptiness. now rewrite (Cell_string_ext h1 h2).
Qed.

Lemma CellLine_position_inj (it : CellLine) (j k : Z) :
  CellLine_position it j = CellLine_position it k -> j = k.
Proof.
  unfold CellLine_position. destruct (cl_axis it); intros H; now inversion H.
Qed.

Lemma Line_clear_loop_S (f : nat) (h : host) (l : Line) (it : CellLine)
    (i : Z) (include_header : bool) :
  Line_clear_loop (S f) h l it i include_header
  = match CellLine_next h it with
    | Raise StopIteration => Some (Ok h)
    | Raise e => Some (Raise e)
    | Ok (cell, it') =>
        if clears l include_header i then
          h' <-- Some (Cell_clear h cell) ;;
          Line_clear_loop f h' l it' (i + 1) include_header
        else Line_clear_loop f h l it' (i + 1) include_header
    end.
Proof. reflexivity. Qed.

(** The loop of [clear], started anywhere along the line on a document
    [hc] that agrees with [h0] from the cursor on: it ends when the scan
    of [h0] ends, has cleared the scanned cells it was to clear, and has
    left every other cell of [hc] alone.  Clearing the cell just yielded
    does not disturb the iterator, which only looks ahead. *)
Lemma Line_clear_loop_scan (h0 : host) (l : Line) (include_header : bool) :
  forall (fuel : nat) (it : CellLine) (hc : host) (ks : list Z),
    sheet_interface (cl_sheet it) = XW ->
    0 <= cl_index it -> 0 <= cl_i it ->
    scan fuel (emptiness h0 it) (cl_i it) (highest_inhabited_i it) = Some ks ->
    (forall k, cl_i it <= k ->
               hc (CellLine_position it k) = h0 (CellLine_position it k)) ->
    exists h',
      Line_clear_loop fuel hc l it (cl_i it) include_header = Some (Ok h')
      /\ (forall k, In k ks -> clears l include_header k = true ->
                    h' (CellLine_position it k) = cleared)
      /\ (forall p,
             (forall k, In k ks -> clears l include_header k = true ->
                        p <> CellLine_position it k) ->
             h' p = hc p).
Proof.
  induction fuel as [|f IH]; intros it hc ks HX Hidx Hc Hscan Hagree.
  - discriminate Hscan.
  - cbn [scan] in Hscan. rewrite Line_clear_loop_S.
    assert (Enext : CellLine_next hc it = CellLine_next h0 it).
    { rewrite !CellLine_next_scan by assumption.
      rewrite (scan_step_ext (emptiness hc it) (emptiness h0 it));
        [reflexivity|].
      intros k Hk. apply emptiness_ext, Hagree. lia. }
    rewrite Enext, CellLine_next_scan by assumption. clear Enext.
    destruct (scan_step _ _ _) as [[i' hi']|] eqn:E.
    + apply scan_step_cursor in E. subst i'.
      destruct (scan f _ _ _) as [ks'|] eqn:E'; [|discriminate Hscan].
      inversion Hscan; subst ks. clear Hscan.
      assert (Hge : forall k, In k ks' -> cl_i it + 1 <= k).
      { destruct (scan_consecutive _ _ _ _ _ E') as (n & _ & ->).
        intros k Hk. apply In_py_range in Hk. lia. }
      pose (it' := with_cursor it (cl_i it + 1) hi').
      assert (HX' : sheet_interface (cl_sheet it') = XW) by exact HX.
      assert (Hidx' : 0 <= cl_index it') by exact Hidx.
      assert (Hc' : 0 <= cl_i it')
        by (unfold it'; cbn [cl_i with_cursor]; lia).
      assert (Hscan' : scan f (emptiness h0 it') (cl_i it')
                         (highest_inhabited_i it') = Some ks') by exact E'.
      destruct (clears l include_header (cl_i it)) eqn:Ecl.
      * destruct (XW_Cell_clear hc (entry it (cl_i it)) HX)
          as (hc' & Eclr & Hq).
        rewrite Eclr. cbn [fbind].
        assert (Hagree' : forall k, cl_i it' <= k ->
                   hc' (CellLine_position it' k)
                   = h0 (CellLine_position it' k)).
        { intros k Hk. unfold it' in Hk. cbn [cl_i with_cursor] in Hk.
          rewrite Hq.
          change (position (entry it (cl_i it)))
            with (CellLine_position it (cl_i it)).
          change (CellLine_position it' k) with (CellLine_position it k).
          replace (pos_eqb (CellLine_position it k)
                     (CellLine_position it (cl_i it))) with false.
          - apply Hagree. lia.
          - symmetry. apply pos_eqb_neq. intros Ep.
            apply CellLine_position_inj in Ep. lia. }
        destruct (IH it' hc' ks' HX' Hidx' Hc' Hscan' Hagree')
          as (h' & Eloop & Ha & Hb).
        exists h'. split; [exact Eloop|]. split.
        -- intros k [<-|Hk] Hcl.
           ++ change (CellLine_position it (cl_i it))
                with (CellLine_position it' (cl_i it)).
              rewrite Hb.
              ** rewrite Hq.
                 change (position (entry it (cl_i it)))
                   with (CellLine_position it' (cl_i it)).
                 rewrite pos_eqb_refl. reflexivity.
              ** intros k Hk _ Ep. apply CellLine_position_inj in Ep.
                 apply Hge in Hk. lia.
           ++ apply Ha; assumption.
        -- intros p Hp. rewrite Hb.
           ++ rewrite Hq.
              replace (pos_eqb p (position (entry it (cl_i it)))) with false;
                [reflexivity|].
              symmetry. apply pos_eqb_neq.
              apply (Hp (cl_i it)); [left; reflexivity|assumption].
           ++ intros k Hk Hcl. apply Hp; [right; assumption|assumption].
      * assert (Hagree' : forall k, cl_i it' <= k ->
                   hc (CellLine_position it' k)
                   = h0 (CellLine_position it' k)).
        { intros k Hk. unfold it' in Hk. cbn [cl_i with_cursor] in Hk.
          apply Hagree. lia. }
        destruct (IH it' hc ks' HX' Hidx' Hc' Hscan' Hagree')
          as (h' & Eloop & Ha & Hb).
        exists h'. split; [exact Eloop|]. split.
        -- intros k [<-|Hk] Hcl; [congruence|apply Ha; assumption].
        -- intros p Hp. apply Hb.
           intros k Hk Hcl. apply Hp; [right; assumption|assumption].
    + inversion Hscan; subst ks. exists hc. split; [reflexivity|].
      split; [intros k []|reflexivity].
Qed.

(** Under the XW binding every line has an iterator, which walks the
    entries of the line. *)
Lemma XW_Line_iter (l : Line) :
  sheet_interface (line_sheet l) = XW ->
  exists a : axis,
    Line_iter l = Some (CellLine_init (line_sheet l) a (line_index l))
    /\ forall k,
         CellLine_position (CellLine_init (line_sheet l) a (line_index l)) k
         = Line_position l k.
Proof.
  intros HX. unfold Line_iter, Line_position. rewrite HX.
  destruct (line_class_of l); [exists AxisX|exists AxisY]; split; reflexivity.
Qed.

(** A cleared cell reads as [None] with the default color. *)
Lemma cleared_reads (h : host) (c : Cell) :
  sheet_interface (cell_sheet c) = XW ->
  h (position c) = cleared ->
  Cell_value h c = VNone /\ Cell_get_color h c = ColorInt DEFAULT_COLOR.
Proof.
  intros HX Hc. unfold Cell_value, Cell_get_color. rewrite HX.
  unfold XW_Cell_value, XW_Cell_get_color.
  rewrite XW_Cell_range_position, Hc. split; reflexivity.
Qed.

(** C8, as the code has it.  Under the XW binding, on a line that is
    empty from some entry [B] on, [clear(include_header)] returns; with
    [n] the number of cells the iteration of the line yields, it clears
    the yielded cells at the entries [k] with [k > name_cell_index], and
    with [include_header] every yielded cell, the header cell and the
    cells before it included; every other cell of the document is left as
    it was. *)
Theorem Line_clear_XW (h : host) (l : Line) (include_header : bool) (B : Z) :
  sheet_interface (line_sheet l) = XW ->
  0 <= line_index l -> 0 <= B ->
  (forall k, B <= k -> Cell_string h (Line_entry l k) = "") ->
  exists (it : CellLine) (n : Z) (h' : host),
    Line_iter l = Some it
    /\ 0 <= n
    /\ CellLine_cells (S (Z.to_nat B)) h it = Some (Ok (cells_upto it n))
    /\ Line_clear (S (Z.to_nat B)) h l include_header = Some (Ok h')
    /\ (forall k, 0 <= k < n ->
                  Line_name_cell_index l < k \/ include_header = true ->
                  h' (Line_position l k) = cleared)
    /\ (forall p,
           (forall k, 0 <= k < n ->
                      Line_name_cell_index l < k \/ include_header = true ->
                      p <> Line_position l k) ->
           h' p = h p).
Proof.
  intros HX Hidx HB Hempty.
  destruct (XW_Line_iter l HX) as (a & Hit & Hpos).
  set (it := CellLine_init (line_sheet l) a (line_index l)) in *.
  assert (He : forall k, B <= k -> emptiness h it k = true).
  { intros k Hk. apply emptiness_true. unfold entry. rewrite Hpos.
    apply Hempty. exact Hk. }
  destruct (scan_terminates (emptiness h it) B He (Z.to_nat B) 0 (-1))
    as (ks & Hks); [lia|lia|].
  destruct (scan_consecutive _ _ _ _ _ Hks) as (n & Hn & Eks).
  assert (Hcl : forall k, Line_name_cell_index l < k \/ include_header = true
                          <-> clears l include_header k = true).
  { intros k. unfold clears. rewrite orb_true_iff, Z.gtb_ltb, Z.ltb_lt.
    reflexivity. }
  destruct (Line_clear_loop_scan h l include_header (S (Z.to_nat B)) it h ks)
    as (h' & Eloop & Ha & Hb).
  { exact HX. }
  { exact Hidx. }
  { unfold it. cbn [cl_i CellLine_init]. lia. }
  { exact Hks. }
  { intros k _. reflexivity. }
  exists it, n, h'. repeat split.
  - exact Hit.
  - exact Hn.
  - rewrite CellLine_cells_scan
      by (assumption || (unfold it; cbn [cl_i CellLine_init]; lia)).
    change (scan (S (Z.to_nat B)) (emptiness h it) (cl_i it)
              (highest_inhabited_i it))
      with (scan (S (Z.to_nat B)) (emptiness h it) 0 (-1)).
    rewrite Hks, Eks. reflexivity.
  - unfold Line_clear, py_iter. rewrite Hit. exact Eloop.
  - intros k Hk Hc. rewrite <- Hpos. apply Ha.
    + rewrite Eks. apply In_py_range. exact Hk.
    + apply Hcl. exact Hc.
  - intros p Hp. apply Hb. intros k Hk Hc. rewrite Hpos.
    rewrite Eks in Hk. apply In_py_range in Hk.
    apply Hp; [exact Hk|]. apply Hcl. exact Hc.
Qed.

(** Column 0 of an XW sheet whose reference row is row 1, holding texts
    in rows 0, 1 and 2, cleared without its header. *)
Lemma Line_clear_XW_witness :
  exists (it : CellLine) (n : Z) (h' : host),
    Line_iter (mkLine ColumnClass (mkSheet XW 1 0) 0 0) = Some it
    /\ 0 <= n
    /\ CellLine_cells 4 three_rows it = Some (Ok (cells_upto it n))
    /\ Line_clear 4 three_rows (mkLine ColumnClass (mkSheet XW 1 0) 0 0) false
       = Some (Ok h')
    /\ (forall k, 0 <= k < n ->
                  Line_name_cell_index (mkLine ColumnClass (mkSheet XW 1 0) 0 0)
                  < k \/ false = true ->
                  h' (Line_position (mkLine ColumnClass (mkSheet XW 1 0) 0 0) k)
                  = cleared)
    /\ (forall p,
           (forall k, 0 <= k < n ->
                      Line_name_cell_index
                        (mkLine ColumnClass (mkSheet XW 1 0) 0 0) < k
                      \/ false = true ->
                      p <> Line_position
                             (mkLine ColumnClass (mkSheet XW 1 0) 0 0) k) ->
           h' p = three_rows p).
Proof.
  apply (Line_clear_XW three_rows
           (mkLine ColumnClass (mkSheet XW 1 0) 0 0) false 3).
  - reflexivity.
  - simpl. lia.
  - lia.
  - intros k Hk. destruct k as [|p|p]; try lia.
    destruct p as [[p|p|]|[p|p|]|]; try lia; reflexivity.
Defined.

(** C8, as the specification has it, fails: with [include_header] the
    cell before the header cell is cleared too.  Column 0 of an XW sheet
    whose reference row is row 1 holds ["a"], ["b"], ["c"] in rows 0, 1,
    2; after [clear(True)] row 0 is blank. *)
Lemma clear_with_header_clears_cells_before :
  ~ clear_keeps_cells_before_header.
Proof.
  intros H.
  pose (l := mkLine ColumnClass (mkSheet XW 1 0) 0 0).
  assert (E : exists h',
             Line_clear 4 three_rows l true = Some (Ok h')
             /\ cell_content (h' (0, 0)) = Blank).
  { eexists. split; [vm_compute; reflexivity|reflexivity]. }
  destruct E as (h' & E1 & E2).
  specialize (H 4%nat three_rows h' l true 0 E1).
  assert (Hk : 0 <= 0 < Line_name_cell_index l) by (cbn; lia).
  apply H in Hk. change (Line_position l 0) with (0, 0) in Hk.
  rewrite Hk in E2. discriminate E2.
Qed.

(** * Further properties of the code *)

(** ** Where an iteration ends *)

Lemma scan_step_none (e : Z -> bool) (i hi : Z) :
  scan_step e i hi = None ->
  hi < i /\ forall k, i <= k < i + MAX_CELL_GAP -> e k = true.
Proof.
  unfold scan_step. destruct (e i) eqn:Ei; cbn [andb]; [|discriminate].
  destruct (i >? hi) eqn:Eg; [|discriminate].
  destruct (find _ _) as [k|] eqn:Ef; [discriminate|]. intros _.
  apply Z.gtb_lt in Eg. split; [lia|]. intros k Hk.
  destruct (Z.eq_dec k i) as [->|Hne]; [exact Ei|].
  pose proof (find_none _ _ Ef (k - i)) as Hn. cbv beta in Hn.
  replace (i + (k - i)) with k in Hn by lia.
  apply negb_false_iff, Hn, In_gap_offsets. lia.
Qed.

(** From any run of the iterator that has vouched for nothing at or past
    [n]: when entries [n .. n + MAX_CELL_GAP - 1] are empty and every
    earlier window of [MAX_CELL_GAP] entries holds a text, the scan yields
    every index up to [n] and stops there. *)
Lemma scan_exact (e : Z -> bool) (n : Z) :
  (forall k, n <= k < n + MAX_CELL_GAP -> e k = true) ->
  (forall m, 0 <= m < n -> exists k, m <= k < m + MAX_CELL_GAP /\ e k = false) ->
  forall (fuel : nat) (i hi : Z),
    0 <= i <= n -> hi < n -> n - i <= Z.of_nat fuel ->
    scan (S fuel) e i hi = Some (py_range i n).
Proof.
  intros Hgap Htext.
  assert (Hstop : forall f hi, hi < n -> scan (S f) e n hi = Some (py_range n n)).
  { intros f hi Hhi. cbn [scan].
    rewrite scan_step_stops by (assumption || lia).
    now rewrite py_range_nil. }
  induction fuel as [|f IH]; intros i hi Hi Hhi Hf.
  - assert (i = n) by lia. subst i. now apply Hstop.
  - destruct (Z.eq_dec i n) as [->|Hne]; [now apply Hstop|].
    change (scan (S (S f)) e i hi)
      with (match scan_step e i hi with
            | None => Some []
            | Some (i', hi') =>
                match scan (S f) e i' hi' with
                | Some ks => Some (i :: ks)
                | None => None
                end
            end).
    destruct (scan_step e i hi) as [[i' hi']|] eqn:E.
    + apply scan_step_mark in E. destruct E as (-> & E).
      assert (Hhi' : hi' < n).
      { destruct E as [[-> _]|(_ & _ & Hm & Hr)]; [exact Hhi|].
        destruct (Z_lt_le_dec hi' n) as [?|Hb]; [assumption|].
        rewrite Hgap in Hm by lia. discriminate. }
      rewrite IH by lia. rewrite (py_range_cons i n) by lia. reflexivity.
    + apply scan_step_none in E. destruct E as [_ He].
      destruct (Htext i) as (k & Hk & Ek); [lia|].
      rewrite He in Ek by exact Hk. discriminate.
Qed.

(** X1.  The cells a fresh [CellLine] yields are exactly the entries below
    the first run of [MAX_CELL_GAP] empty cells: when entries
    [n .. n + MAX_CELL_GAP - 1] are empty and every window of
    [MAX_CELL_GAP] entries that starts before [n] holds a text, the
    iteration yields the cells at [0 .. n - 1], the empty ones included,
    and then raises [StopIteration].  The mark [highest_inhabited_i] only
    saves probes. *)
Theorem CellLine_yields_up_to_first_gap (h : host) (s : Sheet) (a : axis)
    (index n : Z) :
  0 <= index -> 0 <= n ->
  (forall k, n <= k < n + MAX_CELL_GAP ->
             Cell_string h (entry (CellLine_init s a index) k) = "") ->
  (forall m, 0 <= m < n ->
             exists k, m <= k < m + MAX_CELL_GAP
                       /\ Cell_string h (entry (CellLine_init s a index) k)
                          <> "") ->
  CellLine_cells (S (Z.to_nat n)) h (CellLine_init s a index)
  = Some (Ok (cells_upto (CellLine_init s a index) n)).
Proof.
  intros Hidx Hn Hgap Htext.
  rewrite CellLine_cells_scan by (cbn; lia).
  cbn [cl_i highest_inhabited_i CellLine_init].
  rewrite (scan_exact _ n); try lia.
  - reflexivity.
  - intros k Hk. apply emptiness_true. now apply Hgap.
  - intros m Hm. destruct (Htext m Hm) as (k & Hk & Ek).
    exists k. split; [exact Hk|]. now apply emptiness_false.
Qed.

Lemma CellLine_yields_up_to_first_gap_witness :
  CellLine_cells 14 gap_of_nine (CellLine_init (mkSheet XW 0 0) AxisX 0)
  = Some (Ok (cells_upto (CellLine_init (mkSheet XW 0 0) AxisX 0) 13)).
Proof.
  apply (CellLine_yields_up_to_first_gap gap_of_nine (mkSheet XW 0 0)
           AxisX 0 13).
  - lia.
  - lia.
  - unfold MAX_CELL_GAP. intros k Hk.
    assert (C : k = 13 \/ k = 14 \/ k = 15 \/ k = 16 \/ k = 17 \/ k = 18
                \/ k = 19 \/ k = 20 \/ k = 21 \/ k = 22) by lia.
    repeat (destruct C as [-> | C]; [reflexivity|]). subst k. reflexivity.
  - unfold MAX_CELL_GAP. intros m Hm.
    destruct (Z_lt_le_dec m 3) as [Hlt|Hge].
    + exists m. split; [lia|].
      assert (C : m = 0 \/ m = 1 \/ m = 2) by lia.
      destruct C as [-> | [-> | ->]]; vm_compute; discriminate.
    + exists 12. split; [lia|]. vm_compute. discriminate.
Defined.

(** A scan whose mark is below the cursor or on a cell with text never
    ends on an empty cell. *)
Lemma scan_last_has_text (e : Z -> bool) :
  forall (fuel : nat) (i hi : Z) (ks : list Z),
    hi < i \/ e hi = false ->
    scan fuel e i hi = Some ks -> ks <> [] ->
    e (last ks 0) = false.
Proof.
  induction fuel as [|f IH]; intros i hi ks HP H Hne.
  - discriminate H.
  - cbn [scan] in H.
    destruct (scan_step e i hi) as [[i' hi']|] eqn:E;
      [|inversion H; subst ks; contradiction].
    destruct (scan f e i' hi') as [ks'|] eqn:E'; [|discriminate H].
    inversion H; subst ks. clear H.
    pose proof (scan_step_mark _ _ _ _ _ E) as (-> & M).
    assert (HP' : hi' < i + 1 \/ e hi' = false).
    { destruct M as [[-> _]|(_ & _ & Hm & _)]; [|now right].
      destruct HP; [left; lia|now right]. }
    destruct ks' as [|k ks'].
    + cbn [last].
      destruct f as [|f]; [discriminate E'|]. cbn [scan] in E'.
      destruct (scan_step e (i + 1) hi') as [[i2 hi2]|] eqn:E2.
      { destruct (scan f e i2 hi2); discriminate E'. }
      apply scan_step_none in E2. destruct E2 as [Hlt _].
      destruct M as [[-> [Ee|Ele]]|(_ & _ & _ & Hr)].
      * exact Ee.
      * assert (hi = i) by lia. subst hi.
        destruct HP as [?|?]; [lia|assumption].
      * lia.
    + change (last (i :: k :: ks') 0) with (last (k :: ks') 0).
      apply (IH _ _ _ HP' E'). discriminate.
Qed.

Lemma last_py_range (i n : Z) : i < n -> last (py_range i n) 0 = n - 1.
Proof.
  intros H.
  assert (G : forall (m : nat) (j : Z),
             last (py_range j (j + Z.of_nat (S m))) 0 = j + Z.of_nat m).
  { induction m as [|m IH]; intros j.
    - rewrite (py_range_cons j) by lia.
      replace (j + Z.of_nat 1) with (j + 1) by lia.
      rewrite py_range_nil. cbn [last]. lia.
    - rewrite (py_range_cons j) by lia.
      replace (j + Z.of_nat (S (S m))) with (j + 1 + Z.of_nat (S m)) by lia.
      specialize (IH (j + 1)).
      destruct (py_range (j + 1) (j + 1 + Z.of_nat (S m))) as [|k ks] eqn:Ek.
      + exfalso. assert (In (j + 1) (@nil Z)) as Hin; [|exact Hin].
        rewrite <- Ek. apply In_py_range. lia.
      + change (last (j :: k :: ks) 0) with (last (k :: ks) 0).
        rewrite IH. lia. }
  specialize (G (Z.to_nat (n - i - 1)) i).
  replace (i + Z.of_nat (S (Z.to_nat (n - i - 1)))) with n in G by lia.
  rewrite G. lia.
Qed.

(** X2.  An iteration never ends on an empty cell: when a fresh
    [CellLine] yields the cells [0 .. n - 1] with [n > 0], the last of
    them, at entry [n - 1], has text; trailing empty cells are not
    yielded. *)
Theorem CellLine_last_cell_has_text (fuel : nat) (h : host) (s : Sheet)
    (a : axis) (index n : Z) :
  0 <= index -> 0 < n ->
  CellLine_cells fuel h (CellLine_init s a index)
  = Some (Ok (cells_upto (CellLine_init s a index) n)) ->
  Cell_string h (entry (CellLine_init s a index) (n - 1)) <> "".
Proof.
  intros Hidx Hn H.
  rewrite CellLine_cells_scan in H by (cbn; lia).
  cbn [cl_i highest_inhabited_i CellLine_init] in H.
  set (it := CellLine_init s a index) in *.
  destruct (scan fuel (emptiness h it) 0 (-1)) as [ks|] eqn:E;
    [|discriminate H].
  destruct (scan_consecutive _ _ _ _ _ E) as (m & Hm & Eks).
  cbn [option_map] in H. inversion H as [Hmap]. clear H.
  assert (Hlen : List.length ks = List.length (py_range 0 n)).
  { unfold cells_upto in Hmap.
    apply (f_equal (@List.length Cell)) in Hmap.
    now rewrite !length_map in Hmap. }
  assert (Emn : m = n).
  { rewrite Eks in Hlen. unfold py_range in Hlen.
    rewrite !length_map, !length_seq in Hlen. lia. }
  subst m.
  assert (Hks : ks <> []).
  { rewrite Eks, (py_range_cons 0 n) by lia. discriminate. }
  pose proof (scan_last_has_text _ _ _ _ _ (or_introl (eq_refl : -1 < 0)%Z)
                E Hks) as L.
  rewrite Eks, last_py_range in L by lia.
  unfold emptiness in L. now apply String.eqb_neq in L.
Qed.

Lemma CellLine_last_cell_has_text_witness :
  Cell_string gap_of_nine (entry (CellLine_init (mkSheet XW 0 0) AxisX 0)
                             (13 - 1)) <> "".
Proof.
  apply (CellLine_last_cell_has_text 14 gap_of_nine (mkSheet XW 0 0)
           AxisX 0 13).
  - lia.
  - lia.
  - reflexivity.
Defined.

(** ** [Line.__len__] *)

Lemma Line_len_loop_counts (h : host) :
  forall (fuel : nat) (it : CellLine) (count : Z) (cells : list Cell),
    CellLine_cells fuel h it = Some (Ok cells) ->
    Line_len_loop fuel h it count
    = Some (Ok (count + Z.of_nat (List.length cells))).
Proof.
  induction fuel as [|f IH]; intros it count cells H.
  - discriminate H.
  - cbn [CellLine_cells] in H. cbn [Line_len_loop].
    destruct (CellLine_next h it) as [[cell it']|e].
    + destruct (CellLine_cells f h it') as [[cs|e]|] eqn:E;
        try discriminate H.
      inversion H; subst cells. rewrite (IH _ _ _ E).
      cbn [List.length]. do 2 f_equal. lia.
    + destruct e; try discriminate H. inversion H; subst cells.
      cbn [List.length]. do 2 f_equal. lia.
Qed.

Lemma length_cells_upto (it : CellLine) (n : Z) :
  0 <= n -> Z.of_nat (List.length (cells_upto it n)) = n.
Proof.
  intros H. unfold cells_upto, py_range.
  rewrite !length_map, length_seq. lia.
Qed.

(** X3.  On a line that is empty from entry [B] on, [len(line)] returns
    under every binding whose line has an iterator: it is the number [n]
    of cells the iteration yields, these are the cells at entries
    [0 .. n - 1], and [n] is at most [B]. *)
Theorem Line_len_counts_cells (h : host) (l : Line) (it : CellLine) (B : Z) :
  Line_iter l = Some it ->
  0 <= line_index l -> 0 <= B ->
  (forall k, B <= k -> Cell_string h (Line_entry l k) = "") ->
  exists n : Z,
    0 <= n <= B
    /\ CellLine_cells (S (Z.to_nat B)) h it = Some (Ok (cells_upto it n))
    /\ Line_len (S (Z.to_nat B)) h l = Some (Ok n).
Proof.
  intros Hit Hidx HB Hempty.
  destruct (Line_iter_entry l it Hit) as (_ & Ei & Ec & Eh & Hent).
  assert (He : forall k, B <= k -> emptiness h it k = true).
  { intros k Hk. apply emptiness_true. rewrite Hent. now apply Hempty. }
  destruct (scan_terminates (emptiness h it) B He (Z.to_nat B) 0 (-1))
    as (ks & Hks); [lia|lia|].
  destruct (scan_consecutive _ _ _ _ _ Hks) as (n & Hn & Eks).
  assert (Hcells : CellLine_cells (S (Z.to_nat B)) h it
                   = Some (Ok (cells_upto it n))).
  { rewrite CellLine_cells_scan by lia. rewrite Ec, Eh, Hks, Eks.
    reflexivity. }
  exists n. split; [|split].
  - split; [exact Hn|].
    destruct (Z.eq_dec n 0) as [->|Hne]; [lia|].
    assert (Hks' : ks <> []).
    { rewrite Eks, (py_range_cons 0 n) by lia. discriminate. }
    pose proof (scan_last_has_text _ _ _ _ _
                  (or_introl (eq_refl : -1 < 0)%Z) Hks Hks') as L.
    rewrite Eks, last_py_range in L by lia.
    destruct (Z_lt_le_dec (n - 1) B) as [?|Hb]; [lia|].
    rewrite He in L by exact Hb. discriminate L.
  - exact Hcells.
  - unfold Line_len, py_iter. rewrite Hit.
    rewrite (Line_len_loop_counts _ _ _ _ _ Hcells), length_cells_upto by lia.
    reflexivity.
Qed.

Lemma Line_len_counts_cells_witness :
  exists n : Z,
    0 <= n <= 3
    /\ CellLine_cells 4 three_rows
         (CellLine_init (mkSheet Uno 0 0) AxisY 0)
       = Some (Ok (cells_upto (CellLine_init (mkSheet Uno 0 0) AxisY 0) n))
    /\ Line_len 4 three_rows (mkLine ColumnClass (mkSheet Uno 0 0) 0 0)
       = Some (Ok n).
Proof.
  apply (Line_len_counts_cells three_rows
           (mkLine ColumnClass (mkSheet Uno 0 0) 0 0)
           (CellLine_init (mkSheet Uno 0 0) AxisY 0) 3).
  - reflexivity.
  - simpl. lia.
  - lia.
  - intros k Hk. destruct k as [|p|p]; try lia.
    destruct p as [[p|p|]|[p|p|]|]; try lia; reflexivity.
Defined.

(** ** The reference indexes of a sheet *)

(** X4.  A sheet that its constructor returns has both reference indexes
    at least 0, equal to the arguments, and its reference row and
    reference column exist: [sheet.reference_row] is the row at
    [reference_row_index] and [sheet.reference_column] the column at
    [reference_column_index], under both bindings. *)
Theorem Sheet_init_reference_lines (i : interface) (r c : Z) (s : Sheet) :
  Sheet_init i r c = Ok s ->
  0 <= r /\ 0 <= c
  /\ reference_row_index s = r /\ reference_column_index s = c
  /\ (exists row, Sheet_reference_row s = Ok row
                  /\ line_class_of row = RowClass /\ line_index row = r)
  /\ (exists col, Sheet_reference_column s = Ok col
                  /\ line_class_of col = ColumnClass /\ line_index col = c).
Proof.
  unfold Sheet_init, Sheet_set_reference_row_index,
    Sheet_set_reference_column_index.
  destruct (r <? 0) eqn:Er; [discriminate|]. cbn [bind].
  destruct (c <? 0) eqn:Ec; [discriminate|].
  intros H. inversion H; subst s. clear H.
  apply Z.ltb_ge in Er. apply Z.ltb_ge in Ec.
  repeat split; try assumption.
  - unfold Sheet_reference_row, Sheet_get_row_by_index,
      XW_Sheet_get_row_by_index, Uno_Sheet_get_row_by_index.
    cbn [sheet_interface reference_row_index].
    destruct i.
    + apply Z.ltb_ge in Er. rewrite Er. eexists. repeat split.
    + eexists. repeat split.
  - unfold Sheet_reference_column, Sheet_get_column_by_index,
      XW_Sheet_get_column_by_index, Uno_Sheet_get_column_by_index.
    cbn [sheet_interface reference_column_index].
    apply Z.ltb_ge in Ec. rewrite Ec.
    destruct i; eexists; repeat split.
Qed.

Lemma Sheet_init_reference_lines_witness :
  0 <= 2 /\ 0 <= 5
  /\ reference_row_index (mkSheet XW 2 5) = 2
  /\ reference_column_index (mkSheet XW 2 5) = 5
  /\ (exists row, Sheet_reference_row (mkSheet XW 2 5) = Ok row
                  /\ line_class_of row = RowClass /\ line_index row = 2)
  /\ (exists col, Sheet_reference_column (mkSheet XW 2 5) = Ok col
                  /\ line_class_of col = ColumnClass /\ line_index col = 5).
Proof.
  apply (Sheet_init_reference_lines XW 2 5 (mkSheet XW 2 5)). reflexivity.
Defined.

(** ** Lookups by name return the first match *)

(** What the search loop returns is the first scanned cell that holds the
    name. *)
Lemma find_by_value_first (h : host) (name : value) :
  forall (fuel : nat) (it : CellLine) (i x : Z) (c : Cell),
    0 <= cl_index it -> 0 <= cl_i it ->
    find_by_value fuel h it i name = Some (Ok (Some (x, c))) ->
    i <= x
    /\ c = entry it (cl_i it + (x - i))
    /\ py_eq (Cell_value h c) name = true
    /\ forall k, cl_i it <= k < cl_i it + (x - i) ->
                 py_eq (Cell_value h (entry it k)) name = false.
Proof.
  induction fuel as [|f IH]; intros it i x c Hidx Hc H.
  - discriminate H.
  - rewrite find_by_value_S, CellLine_next_scan in H by assumption.
    destruct (scan_step _ _ _) as [[i' hi']|] eqn:E; [|discriminate H].
    apply scan_step_cursor in E. subst i'.
    destruct (py_eq (Cell_value h (entry it (cl_i it))) name) eqn:Ev.
    + inversion H; subst x c. clear H.
      replace (cl_i it + (i - i)) with (cl_i it) by lia.
      repeat split; try assumption; try lia.
    + apply IH in H; [|exact Hidx|cbn [cl_i with_cursor]; lia].
      cbn [cl_i with_cursor] in H.
      change (entry (with_cursor it (cl_i it + 1) hi')) with (entry it) in H.
      destruct H as (Hx & Hcx & Hv & Hk).
      replace (cl_i it + 1 + (x - (i + 1))) with (cl_i it + (x - i)) in *
        by lia.
      repeat split; try assumption; try lia.
      intros k Hkr. destruct (Z.eq_dec k (cl_i it)) as [->|Hne];
        [exact Ev|apply Hk; lia].
Qed.

(** A scanned cell that holds the name is found, or an earlier one is. *)
Lemma find_by_value_complete (h : host) (name : value) :
  forall (fuel : nat) (it : CellLine) (i x : Z) (ks : list Z),
    0 <= cl_index it -> 0 <= cl_i it ->
    scan fuel (emptiness h it) (cl_i it) (highest_inhabited_i it) = Some ks ->
    In x ks ->
    py_eq (Cell_value h (entry it x)) name = true ->
    exists x0 c, find_by_value fuel h it i name = Some (Ok (Some (x0, c)))
                 /\ x0 - i <= x - cl_i it.
Proof.
  induction fuel as [|f IH]; intros it i x ks Hidx Hc Hs Hin Hv.
  - discriminate Hs.
  - cbn [scan] in Hs. rewrite find_by_value_S, CellLine_next_scan by assumption.
    destruct (scan_step _ _ _) as [[i' hi']|] eqn:E;
      [|inversion Hs; subst ks; contradiction].
    apply scan_step_cursor in E. subst i'.
    destruct (scan f _ _ _) as [ks'|] eqn:E'; [|discriminate Hs].
    inversion Hs; subst ks. clear Hs.
    destruct (py_eq (Cell_value h (entry it (cl_i it))) name) eqn:Ev.
    + exists i, (entry it (cl_i it)). split; [reflexivity|].
      destruct (scan_consecutive _ _ _ _ _ E') as (n & _ & ->).
      destruct Hin as [<-|Hin]; [lia|]. apply In_py_range in Hin. lia.
    + destruct Hin as [<-|Hin]; [congruence|].
      destruct (IH (with_cursor it (cl_i it + 1) hi') (i + 1) x ks')
        as (x0 & c & Hf & Hle);
        try assumption; try (cbn [cl_i with_cursor]; lia).
      exists x0, c. split; [exact Hf|].
      cbn [cl_i with_cursor] in Hle. lia.
Qed.

Lemma Sheet_reference_row_inv (s : Sheet) (row : Line) :
  Sheet_reference_row s = Ok row ->
  row = mkLine RowClass s (reference_row_index s) (reference_row_index s).
Proof.
  unfold Sheet_reference_row, Sheet_get_row_by_index,
    XW_Sheet_get_row_by_index, Uno_Sheet_get_row_by_index.
  destruct (sheet_interface s); cbn [Line_init];
    [destruct (reference_row_index s <? 0); [discriminate|]|];
    intros H; inversion H; reflexivity.
Qed.

Lemma Sheet_reference_column_inv (s : Sheet) (col : Line) :
  Sheet_reference_column s = Ok col ->
  0 <= reference_column_index s
  /\ col = mkLine ColumnClass s (reference_column_index s)
             (reference_column_index s).
Proof.
  unfold Sheet_reference_column, Sheet_get_column_by_index,
    XW_Sheet_get_column_by_index, Uno_Sheet_get_column_by_index.
  destruct (sheet_interface s); cbn [Line_init];
    destruct (reference_column_index s <? 0) eqn:E; try discriminate;
    apply Z.ltb_ge in E; intros H; inversion H; auto.
Qed.

(** What a successful [get_column_by_name] tells: the binding is XW, the
    reference row exists, and the column stands at the first scanned
    entry of the reference row that holds the name. *)
Lemma get_column_by_name_inv (fuel : nat) (h : host) (s : Sheet)
    (name : value) (col : Line) :
  Sheet_get_column_by_name fuel h s name = Some (Ok (Some col)) ->
  sheet_interface s = XW /\ 0 <= reference_row_index s
  /\ exists x,
       0 <= x /\ col = mkLine ColumnClass s x x
       /\ py_eq (Cell_value h (mkCell s (x, reference_row_index s))) name
          = true
       /\ forall x', 0 <= x' < x ->
            py_eq (Cell_value h (mkCell s (x', reference_row_index s))) name
            = false.
Proof.
  unfold Sheet_get_column_by_name, Sheet_get_column_index_from_name.
  destruct (Sheet_reference_row s) as [row|e] eqn:Er; [|discriminate].
  cbn [fbind]. pose proof (Sheet_reference_row_inv s row Er) as Erow.
  unfold Line_find, py_iter.
  destruct (Line_iter row) as [it|] eqn:Eit; [|discriminate].
  assert (HX : sheet_interface s = XW /\ it = CellLine_init s AxisX
                                                (reference_row_index s)).
  { subst row. unfold Line_iter in Eit. cbn in Eit.
    destruct (sheet_interface s); inversion Eit; auto. }
  destruct HX as [HX Eit'].
  assert (Hr : 0 <= reference_row_index s).
  { unfold Sheet_reference_row, Sheet_get_row_by_index in Er.
    rewrite HX in Er. unfold XW_Sheet_get_row_by_index in Er.
    destruct (reference_row_index s <? 0) eqn:E; [discriminate|].
    now apply Z.ltb_ge in E. }
  destruct (find_by_value fuel h it 0 name) as [[[[x c]|]|e]|] eqn:Ef;
    cbn [fbind]; try discriminate.
  destruct (Sheet_get_column_by_index s (VInt x)) as [col'|e] eqn:Ec;
    cbn [fbind]; [|discriminate].
  intros H. inversion H; subst col'. clear H.
  apply find_by_value_first in Ef; [|subst it; exact Hr|subst it; cbn; lia].
  destruct Ef as (Hx & Hcx & Hv & Hk).
  subst it. cbn [cl_i CellLine_init] in *.
  replace (0 + (x - 0)) with x in * by lia.
  split; [exact HX|]. split; [exact Hr|]. exists x. repeat split.
  - exact Hx.
  - unfold Sheet_get_column_by_index in Ec. rewrite HX in Ec.
    unfold XW_Sheet_get_column_by_index in Ec.
    destruct (x <? 0); [discriminate|]. cbn [Line_init] in Ec.
    inversion Ec. reflexivity.
  - subst c. exact Hv.
  - intros x' Hx'. apply (Hk x'). lia.
Qed.

(** X5.  [Sheet.get_column_by_name] returns the first match: when it
    returns a column, that column stands at an index [x] whose cell in the
    reference row equals the name, and no cell of the reference row at a
    lower index does. *)
Theorem get_column_by_name_first_match (fuel : nat) (h : host) (s : Sheet)
    (name : value) (col : Line) :
  Sheet_get_column_by_name fuel h s name = Some (Ok (Some col)) ->
  exists x,
    0 <= x
    /\ Sheet_get_column_by_index s (VInt x) = Ok col
    /\ line_index col = x
    /\ py_eq (Cell_value h (mkCell s (x, reference_row_index s))) name = true
    /\ forall x', 0 <= x' < x ->
         py_eq (Cell_value h (mkCell s (x', reference_row_index s))) name
         = false.
Proof.
  intros H. pose proof H as H'.
  apply get_column_by_name_inv in H.
  destruct H as (HX & Hr & x & Hx & -> & Hv & Hk).
  exists x. repeat split; try assumption.
  unfold Sheet_get_column_by_index. rewrite HX.
  unfold XW_Sheet_get_column_by_index.
  replace (x <? 0) with false by (symmetry; apply Z.ltb_ge; lia).
  reflexivity.
Qed.

Lemma get_column_by_name_first_match_witness :
  exists x,
    0 <= x
    /\ Sheet_get_column_by_index (mkSheet XW 0 0) (VInt x)
       = Ok (mkLine ColumnClass (mkSheet XW 0 0) 2 2)
    /\ line_index (mkLine ColumnClass (mkSheet XW 0 0) 2 2) = x
    /\ py_eq (Cell_value gap_of_nine
                (mkCell (mkSheet XW 0 0)
                   (x, reference_row_index (mkSheet XW 0 0))))
         (VStr "c") = true
    /\ forall x', 0 <= x' < x ->
         py_eq (Cell_value gap_of_nine
                  (mkCell (mkSheet XW 0 0)
                     (x', reference_row_index (mkSheet XW 0 0))))
           (VStr "c") = false.
Proof.
  apply (get_column_by_name_first_match 3 gap_of_nine (mkSheet XW 0 0)
           (VStr "c") (mkLine ColumnClass (mkSheet XW 0 0) 2 2)).
  reflexivity.
Defined.

(** X6.  [Sheet.get_column_by_name] finds every name the scan of the
    reference row reaches: under the XW binding, when the iteration of the
    reference row yields the cells [0 .. n - 1] and the cell at some
    [x < n] equals the name, a column at an index of at most [x] is
    returned, not [None]. *)
Theorem get_column_by_name_finds_scanned (fuel : nat) (h : host) (s : Sheet)
    (name : value) (n x : Z) :
  sheet_interface s = XW -> 0 <= reference_row_index s ->
  CellLine_cells fuel h (CellLine_init s AxisX (reference_row_index s))
  = Some (Ok (cells_upto (CellLine_init s AxisX (reference_row_index s)) n)) ->
  0 <= x < n ->
  py_eq (Cell_value h (mkCell s (x, reference_row_index s))) name = true ->
  exists col,
    Sheet_get_column_by_name fuel h s name = Some (Ok (Some col))
    /\ 0 <= line_index col <= x.
Proof.
  intros HX Hr Hcells Hx Hv.
  set (it := CellLine_init s AxisX (reference_row_index s)) in *.
  rewrite CellLine_cells_scan in Hcells by (unfold it; cbn; lia).
  destruct (scan fuel (emptiness h it) (cl_i it) (highest_inhabited_i it))
    as [ks|] eqn:Es; [|discriminate Hcells].
  destruct (scan_consecutive _ _ _ _ _ Es) as (m & Hm & Eks).
  assert (Emn : m = n).
  { cbn [option_map] in Hcells. inversion Hcells as [Hmap].
    apply (f_equal (@List.length Cell)) in Hmap. unfold cells_upto in Hmap.
    rewrite !length_map in Hmap. rewrite Eks in Hmap. unfold py_range in Hmap.
    rewrite !length_map, !length_seq in Hmap.
    change (cl_i it) with 0 in *. lia. }
  subst m.
  assert (Hidx : 0 <= cl_index it) by exact Hr.
  assert (Hc : 0 <= cl_i it) by (unfold it; cbn; lia).
  assert (Hin : In x ks).
  { rewrite Eks. apply In_py_range. change (cl_i it) with 0. lia. }
  destruct (find_by_value_complete h name fuel it 0 x ks Hidx Hc Es Hin Hv)
    as (x0 & c & Hf & Hle).
  destruct (find_by_value_first h name fuel it 0 x0 c Hidx Hc Hf)
    as (Hx0 & _).
  change (cl_i it) with 0 in Hle.
  exists (mkLine ColumnClass s x0 x0). split; [|cbn; lia].
  unfold Sheet_get_column_by_name, Sheet_get_column_index_from_name,
    Sheet_reference_row, Sheet_get_row_by_index.
  rewrite HX. unfold XW_Sheet_get_row_by_index.
  replace (reference_row_index s <? 0) with false
    by (symmetry; apply Z.ltb_ge; lia).
  cbn [Line_init fbind]. unfold Line_find, py_iter, Line_iter.
  cbn [line_sheet line_class_of]. rewrite HX.
  change (Line_get_iterator
            (mkLine RowClass s (reference_row_index s) (reference_row_index s))
            AxisX) with it.
  rewrite Hf. cbn [fbind].
  unfold Sheet_get_column_by_index. rewrite HX.
  unfold XW_Sheet_get_column_by_index.
  replace (x0 <? 0) with false by (symmetry; apply Z.ltb_ge; lia).
  reflexivity.
Qed.

Lemma get_column_by_name_finds_scanned_witness :
  exists col,
    Sheet_get_column_by_name 14 gap_of_nine (mkSheet XW 0 0) (VStr "d")
    = Some (Ok (Some col))
    /\ 0 <= line_index col <= 12.
Proof.
  apply (get_column_by_name_finds_scanned 14 gap_of_nine (mkSheet XW 0 0)
           (VStr "d") 13 12).
  - reflexivity.
  - simpl. lia.
  - reflexivity.
  - lia.
  - reflexivity.
Defined.

(** The line a series makes of entry [k] of its reference line is the
    line [get_by_index(k)] returns. *)
Lemma series_line_of_entry (series : LineSeries) (it : CellLine) (k : Z) :
  Line_iter (reference_line series) = Some it ->
  LineSeries_yield series (entry it k)
  = LineSeries_get_by_index series (VInt k)
  /\ (if (LineSeries_contents_type series =? "columns")%string
      then Cell_column (entry it k) else Cell_row (entry it k))
     = LineSeries_get_by_index series (VInt k).
Proof.
  destruct series as [[cls s idx ref]].
  unfold Line_iter, LineSeries_yield, LineSeries_get_by_index,
    LineSeries_contents_type, Cell_row, Cell_column, entry, Line_get_iterator.
  cbn [reference_line line_sheet line_class_of line_index].
  destruct (sheet_interface s), cls; intros H; inversion H; subst it;
    split; reflexivity.
Qed.

Lemma series_get_by_name_inv (fuel : nat) (h : host)
    (series : LineSeries) (name : value) (line : Line) :
  0 <= line_index (reference_line series) ->
  LineSeries_get_by_name fuel h series name = Some (Ok (Some line)) ->
  exists j,
    0 <= j
    /\ LineSeries_get_by_index series (VInt j) = Ok line
    /\ py_eq (Cell_value h (Line_entry (reference_line series) j)) name = true
    /\ forall k, 0 <= k < j ->
         py_eq (Cell_value h (Line_entry (reference_line series) k)) name
         = false.
Proof.
  intros Hidx. unfold LineSeries_get_by_name, Line_find, py_iter.
  destruct (Line_iter (reference_line series)) as [it|] eqn:Eit;
    [|discriminate].
  destruct (Line_iter_entry _ it Eit) as (_ & Ei & Ec & _ & Hent).
  destruct (find_by_value fuel h it 0 name) as [[[[j c]|]|e]|] eqn:Ef;
    cbn [fbind]; try discriminate.
  apply find_by_value_first in Ef; [|lia|lia].
  destruct Ef as (Hj & Hcj & Hv & Hk).
  rewrite Ec in *. replace (0 + (j - 0)) with j in * by lia.
  intros H. exists j. split; [exact Hj|]. split; [|split].
  - destruct (series_line_of_entry series it j Eit) as [_ E].
    rewrite <- E, <- Hcj.
    destruct (LineSeries_contents_type series =? "columns")%string;
      [destruct (Cell_column c)|destruct (Cell_row c)];
      cbn [fbind] in H; inversion H; reflexivity.
  - rewrite <- Hent, <- Hcj. exact Hv.
  - intros k Hkr. rewrite <- Hent. apply Hk. lia.
Qed.

(** X7.  [LineSeries.get_by_name] returns the first match: when it returns
    a line, that line is [get_by_index(j)] for an index [j] whose entry of
    the reference line equals the name, and no entry of the reference line
    at a lower index does. *)
Theorem LineSeries_get_by_name_first_match (fuel : nat) (h : host)
    (series : LineSeries) (name : value) (line : Line) :
  0 <= line_index (reference_line series) ->
  LineSeries_get_by_name fuel h series name = Some (Ok (Some line)) ->
  exists j,
    0 <= j
    /\ LineSeries_get_by_index series (VInt j) = Ok line
    /\ py_eq (Cell_value h (Line_entry (reference_line series) j)) name = true
    /\ forall k, 0 <= k < j ->
         py_eq (Cell_value h (Line_entry (reference_line series) k)) name
         = false.
Proof.
  exact (series_get_by_name_inv fuel h series name line).
Qed.

Lemma LineSeries_get_by_name_first_match_witness :
  exists j,
    0 <= j
    /\ LineSeries_get_by_index
         (mkLineSeries (mkLine ColumnClass (mkSheet Uno 0 0) 0 0)) (VInt j)
       = Ok (mkLine RowClass (mkSheet Uno 0 0) 1 1)
    /\ py_eq (Cell_value three_rows
                (Line_entry (mkLine ColumnClass (mkSheet Uno 0 0) 0 0) j))
         (VStr "b") = true
    /\ forall k, 0 <= k < j ->
         py_eq (Cell_value three_rows
                  (Line_entry (mkLine ColumnClass (mkSheet Uno 0 0) 0 0) k))
           (VStr "b") = false.
Proof.
  apply (LineSeries_get_by_name_first_match 2 three_rows
           (mkLineSeries (mkLine ColumnClass (mkSheet Uno 0 0) 0 0))
           (VStr "b") (mkLine RowClass (mkSheet Uno 0 0) 1 1)).
  - simpl. lia.
  - reflexivity.
Defined.

(** ** Names *)

(** X8.  A column found by name has that name: when
    [Sheet.get_column_by_name(name)] returns a column, [column.name] is
    read without error and equals the name. *)
Theorem get_column_by_name_has_name (fuel : nat) (h : host) (s : Sheet)
    (name : value) (col : Line) :
  Sheet_get_column_by_name fuel h s name = Some (Ok (Some col)) ->
  exists v, Line_name h col = Ok v /\ py_eq v name = true.
Proof.
  intros H. apply get_column_by_name_inv in H.
  destruct H as (HX & Hr & x & Hx & -> & Hv & _).
  unfold Line_name, Line_name_cell_index, Line_get_cell_by_index.
  cbn [line_class_of line_sheet line_index]. rewrite HX.
  replace (reference_row_index s <? 0) with false
    by (symmetry; apply Z.ltb_ge; lia).
  cbn [bind]. eexists. split; [reflexivity|]. exact Hv.
Qed.

Lemma get_column_by_name_has_name_witness :
  exists v,
    Line_name gap_of_nine (mkLine ColumnClass (mkSheet XW 0 0) 2 2) = Ok v
    /\ py_eq v (VStr "c") = true.
Proof.
  apply (get_column_by_name_has_name 3 gap_of_nine (mkSheet XW 0 0)
           (VStr "c") (mkLine ColumnClass (mkSheet XW 0 0) 2 2)).
  reflexivity.
Defined.

(** X9.  The same through the series of a sheet: a line that
    [sheet.rows.get_by_name(name)] or [sheet.columns.get_by_name(name)]
    returns has [name] as its [name]. *)
Theorem series_get_by_name_has_name (fuel : nat) (h : host) (s : Sheet)
    (series : LineSeries) (name : value) (line : Line) :
  Sheet_rows s = Ok series \/ Sheet_columns s = Ok series ->
  LineSeries_get_by_name fuel h series name = Some (Ok (Some line)) ->
  exists v, Line_name h line = Ok v /\ py_eq v name = true.
Proof.
  intros Hs H.
  assert (Hrl : (reference_line series
                 = mkLine ColumnClass s (reference_column_index s)
                     (reference_column_index s)
                 /\ 0 <= reference_column_index s)
                \/ (reference_line series
                    = mkLine RowClass s (reference_row_index s)
                        (reference_row_index s)
                    /\ sheet_interface s = XW
                    /\ 0 <= reference_row_index s)).
  { destruct Hs as [Hs|Hs].
    - left. unfold Sheet_rows in Hs.
      destruct (Sheet_reference_column s) as [col|e] eqn:Ec; [|discriminate].
      apply Sheet_reference_column_inv in Ec. destruct Ec as [Hc ->].
      inversion Hs. auto.
    - right. unfold Sheet_columns in Hs.
      destruct (Sheet_reference_row s) as [row|e] eqn:Er; [|discriminate].
      pose proof (Sheet_reference_row_inv s row Er) as ->.
      inversion Hs; subst series. cbn [reference_line].
      split; [reflexivity|].
      unfold LineSeries_get_by_name, Line_find, py_iter, Line_iter in H.
      cbn [reference_line line_sheet line_class_of] in H.
      unfold Sheet_reference_row, Sheet_get_row_by_index in Er.
      destruct (sheet_interface s); [|discriminate H].
      split; [reflexivity|]. unfold XW_Sheet_get_row_by_index in Er.
      destruct (reference_row_index s <? 0) eqn:E; [discriminate|].
      now apply Z.ltb_ge in E. }
  apply series_get_by_name_inv in H.
  - destruct H as (j & Hj & Hg & Hv & _).
    destruct Hrl as [[Erl Hc]|(Erl & HX & Hr)];
      unfold LineSeries_get_by_index, LineSeries_contents_type in Hg;
      rewrite Erl in Hg, Hv;
      cbn [line_class_of line_sheet String.eqb Ascii.eqb Bool.eqb] in Hg;
      unfold Line_entry, Line_position in Hv;
      cbn [line_class_of line_sheet line_index] in Hv.
    + assert (El : line = mkLine RowClass s j j).
      { unfold Sheet_get_row_by_index, XW_Sheet_get_row_by_index,
          Uno_Sheet_get_row_by_index in Hg.
        destruct (sheet_interface s); [destruct (j <? 0); [discriminate|]|];
          cbn [Line_init] in Hg; inversion Hg; reflexivity. }
      subst line. unfold Line_name, Line_name_cell_index,
        Line_get_cell_by_index.
      cbn [line_class_of line_sheet line_index].
      replace (reference_column_index s <? 0) with false
        by (symmetry; apply Z.ltb_ge; lia).
      destruct (sheet_interface s); cbn [bind]; eexists;
        (split; [reflexivity|exact Hv]).
    + assert (El : line = mkLine ColumnClass s j j).
      { unfold Sheet_get_column_by_index in Hg. rewrite HX in Hg.
        unfold XW_Sheet_get_column_by_index in Hg.
        destruct (j <? 0); [discriminate|].
        cbn [Line_init] in Hg; inversion Hg; reflexivity. }
      subst line. unfold Line_name, Line_name_cell_index,
        Line_get_cell_by_index.
      cbn [line_class_of line_sheet line_index]. rewrite HX.
      replace (reference_row_index s <? 0) with false
        by (symmetry; apply Z.ltb_ge; lia).
      cbn [bind]. eexists. split; [reflexivity|exact Hv].
  - destruct Hrl as [[-> Hc]|(-> & _ & Hr)]; cbn; assumption.
Qed.

Lemma series_get_by_name_has_name_witness :
  exists v,
    Line_name three_rows (mkLine RowClass (mkSheet Uno 0 0) 1 1) = Ok v
    /\ py_eq v (VStr "b") = true.
Proof.
  apply (series_get_by_name_has_name 2 three_rows (mkSheet Uno 0 0)
           (mkLineSeries (mkLine ColumnClass (mkSheet Uno 0 0) 0 0))
           (VStr "b") (mkLine RowClass (mkSheet Uno 0 0) 1 1)).
  - left. reflexivity.
  - reflexivity.
Defined.

(** ** Cells reached through rows and through columns *)

(** X10.  Inside the sheet, a cell is the same whichever way it is
    reached: for [x, y >= 0], [sheet.get_column_by_index(x)] and
    [sheet.get_row_by_index(y)] succeed under both bindings, the column's
    cell [y] and the row's cell [x] are both the cell at [(x, y)], and
    [cell.column] and [cell.row] give those two lines back. *)
Theorem cell_reached_both_ways (s : Sheet) (x y : Z) :
  0 <= x -> 0 <= y ->
  exists col row,
    Sheet_get_column_by_index s (VInt x) = Ok col
    /\ Sheet_get_row_by_index s (VInt y) = Ok row
    /\ Line_get_cell_by_index col (VInt y) = Ok (mkCell s (x, y))
    /\ Line_get_cell_by_index row (VInt x) = Ok (mkCell s (x, y))
    /\ Cell_column (mkCell s (x, y)) = Ok col
    /\ Cell_row (mkCell s (x, y)) = Ok row.
Proof.
  intros Hx Hy.
  assert (Ex : (x <? 0) = false) by (apply Z.ltb_ge; lia).
  assert (Ey : (y <? 0) = false) by (apply Z.ltb_ge; lia).
  exists (mkLine ColumnClass s x x), (mkLine RowClass s y y).
  unfold Cell_column, Cell_row, Cell_x, Cell_y, Sheet_get_column_by_index,
    Sheet_get_row_by_index, XW_Sheet_get_column_by_index,
    XW_Sheet_get_row_by_index, Uno_Sheet_get_column_by_index,
    Uno_Sheet_get_row_by_index, Line_get_cell_by_index, Cell_init.
  cbn [cell_sheet position fst snd line_sheet line_class_of line_index].
  rewrite Ex, Ey. cbn [Line_init].
  destruct (sheet_interface s); repeat split.
Qed.

Lemma cell_reached_both_ways_witness :
  exists col row,
    Sheet_get_column_by_index (mkSheet Uno 0 0) (VInt 3) = Ok col
    /\ Sheet_get_row_by_index (mkSheet Uno 0 0) (VInt 4) = Ok row
    /\ Line_get_cell_by_index col (VInt 4) = Ok (mkCell (mkSheet Uno 0 0) (3, 4))
    /\ Line_get_cell_by_index row (VInt 3) = Ok (mkCell (mkSheet Uno 0 0) (3, 4))
    /\ Cell_column (mkCell (mkSheet Uno 0 0) (3, 4)) = Ok col
    /\ Cell_row (mkCell (mkSheet Uno 0 0) (3, 4)) = Ok row.
Proof.
  apply (cell_reached_both_ways (mkSheet Uno 0 0) 3 4); lia.
Defined.

(** X11.  [row[name]] and [sheet.get_cell((name, y))] agree on a name that
    is found: when indexing the row [y] of a sheet with a string returns a
    cell, [get_cell] with that string as x identifier, [y] as y identifier
    and no hints returns the same cell. *)
Theorem row_getitem_is_get_cell (fuel : nat) (h : host) (s : Sheet)
    (row : Line) (y : Z) (name : string) (c : Cell) :
  Sheet_get_row_by_index s (VInt y) = Ok row ->
  Line_getitem fuel h row (VStr name) = Some (Ok (Some c)) ->
  Sheet_get_cell fuel h s (VStr name) (VInt y) None None = Some (Ok (Some c)).
Proof.
  intros Hrow H.
  assert (Erow : row = mkLine RowClass s y y).
  { unfold Sheet_get_row_by_index, XW_Sheet_get_row_by_index,
      Uno_Sheet_get_row_by_index in Hrow.
    destruct (sheet_interface s); [destruct (y <? 0); [discriminate|]|];
      cbn [Line_init] in Hrow; inversion Hrow; reflexivity. }
  subst row.
  unfold Line_getitem, Line_reference_line in H.
  cbn [is_int is_str orb py_assert fbind line_class_of line_sheet] in H.
  unfold Sheet_get_cell, Sheet_get_column_by_name,
    Sheet_get_column_index_from_name.
  cbn [identifier_type_ok py_assert fbind x_by_name y_by_name is_name
       is_absent is_str andb orb].
  destruct (Sheet_reference_row s) as [rl|e] eqn:Er; [|discriminate H].
  cbn [fbind] in *.
  pose proof (Sheet_reference_row_inv s rl Er) as Erl.
  destruct (sheet_interface s) eqn:HX.
  - assert (Hy : (y <? 0) = false).
    { unfold Sheet_get_row_by_index in Hrow. rewrite HX in Hrow.
      unfold XW_Sheet_get_row_by_index in Hrow.
      destruct (y <? 0); [discriminate|reflexivity]. }
    destruct (Line_find fuel h rl (VStr name)) as [[[[x c0]|]|e]|];
      cbn [fbind] in *; try discriminate H.
    unfold Line_get_cell_by_index in H.
    cbn [line_sheet line_class_of line_index] in H. rewrite HX in H.
    destruct (x <? 0) eqn:Ex; [discriminate H|]. cbn [fbind] in H.
    unfold Sheet_get_column_by_index. rewrite HX.
    unfold XW_Sheet_get_column_by_index. rewrite Ex.
    cbn [Line_init fbind method_of]. unfold Line_get_cell_by_index.
    cbn [line_sheet line_class_of line_index]. rewrite HX, Hy.
    cbn [fbind]. exact H.
  - exfalso. subst rl. unfold Line_find, py_iter, Line_iter in H.
    cbn [line_sheet line_class_of] in H. rewrite HX in H.
    discriminate H.
Qed.

Lemma row_getitem_is_get_cell_witness :
  Sheet_get_cell 3 gap_of_nine (mkSheet XW 0 0) (VStr "c") (VInt 4) None None
  = Some (Ok (Some (mkCell (mkSheet XW 0 0) (2, 4)))).
Proof.
  apply (row_getitem_is_get_cell 3 gap_of_nine (mkSheet XW 0 0)
           (mkLine RowClass (mkSheet XW 0 0) 4 4) 4 "c"
           (mkCell (mkSheet XW 0 0) (2, 4))); reflexivity.
Defined.

(** X12.  [Sheet.get_cell] does not return [None] for a column name that
    is not found: when [get_column_by_name] returns [None] for the x
    identifier and the hints are valid, the method call on that [None]
    raises [AttributeError], whatever the y identifier. *)
Theorem get_cell_of_unknown_column (fuel : nat) (h : host) (s : Sheet)
    (x_identifier y_identifier : value)
    (x_identifier_type y_identifier_type : option string) :
  identifier_type_ok x_identifier_type = true ->
  identifier_type_ok y_identifier_type = true ->
  x_by_name x_identifier_type x_identifier = true ->
  Sheet_get_column_by_name fuel h s x_identifier = Some (Ok None) ->
  Sheet_get_cell fuel h s x_identifier y_identifier
    x_identifier_type y_identifier_type
  = Some (Raise AttributeError).
Proof.
  intros Hx Hy Hn Hc. unfold Sheet_get_cell.
  rewrite Hx, Hy, Hn, Hc. cbn [py_assert fbind method_of].
  destruct (y_by_name _ _ _); reflexivity.
Qed.

Lemma get_cell_of_unknown_column_witness :
  Sheet_get_cell 3 one_cell (mkSheet XW 0 0) (VStr "zzz") (VInt 0) None None
  = Some (Raise AttributeError).
Proof.
  apply (get_cell_of_unknown_column 3 one_cell (mkSheet XW 0 0)
           (VStr "zzz") (VInt 0) None None); reflexivity.
Defined.

(** ** Iterating a [LineSeries] *)

Lemma cells_upto_scan (fuel : nat) (h : host) (it : CellLine) (n : Z) :
  0 <= cl_index it -> cl_i it = 0 ->
  CellLine_cells fuel h it = Some (Ok (cells_upto it n)) ->
  scan fuel (emptiness h it) 0 (highest_inhabited_i it)
  = Some (py_range 0 n).
Proof.
  intros Hidx Hc H. rewrite CellLine_cells_scan in H by lia.
  rewrite Hc in H.
  destruct (scan fuel (emptiness h it) 0 (highest_inhabited_i it))
    as [ks|] eqn:E; [|discriminate H].
  destruct (scan_consecutive _ _ _ _ _ E) as (m & Hm & Eks).
  cbn [option_map] in H. inversion H as [Hmap].
  apply (f_equal (@List.length Cell)) in Hmap. unfold cells_upto in Hmap.
  rewrite !length_map, Eks in Hmap. unfold py_range in Hmap.
  rewrite !length_map, !length_seq in Hmap.
  rewrite Eks. unfold py_range. do 3 f_equal. lia.
Qed.

Lemma series_get_by_index_ok (series : LineSeries) (k : Z) :
  0 <= k ->
  LineSeries_get_by_index series (VInt k) = Ok (series_line series k).
Proof.
  intros Hk. assert (E : (k <? 0) = false) by (apply Z.ltb_ge; lia).
  destruct series as [[cls s idx ref]].
  unfold LineSeries_get_by_index, LineSeries_contents_type, series_line,
    Sheet_get_row_by_index, Sheet_get_column_by_index,
    XW_Sheet_get_row_by_index, XW_Sheet_get_column_by_index,
    Uno_Sheet_get_row_by_index, Uno_Sheet_get_column_by_index.
  cbn [reference_line line_sheet line_class_of].
  destruct cls, (sheet_interface s); cbn [String.eqb Ascii.eqb Bool.eqb];
    rewrite ?E; reflexivity.
Qed.

(** The generator of a series, suspended on an iterator of its reference
    line, yields one line per scanned entry. *)
Lemma LineSeries_lines_suspended (h : host) (series : LineSeries) :
  forall (fuel : nat) (it : CellLine) (ks : list Z),
    0 <= cl_index it -> 0 <= cl_i it ->
    (forall k, 0 <= k ->
               LineSeries_yield series (entry it k)
               = Ok (series_line series k)) ->
    scan fuel (emptiness h it) (cl_i it) (highest_inhabited_i it) = Some ks ->
    LineSeries_lines fuel h (Suspended series it)
    = Some (Ok (map (series_line series) ks)).
Proof.
  induction fuel as [|f IH]; intros it ks Hidx Hc Hy Hs.
  - discriminate Hs.
  - cbn [scan] in Hs. cbn [LineSeries_lines LineSeries_generator_next].
    rewrite CellLine_next_scan by assumption.
    destruct (scan_step _ _ _) as [[i' hi']|] eqn:E.
    + apply scan_step_cursor in E. subst i'.
      destruct (scan f _ _ _) as [ks'|] eqn:E'; [|discriminate Hs].
      inversion Hs; subst ks. clear Hs.
      cbn [bind fst snd]. rewrite Hy by exact Hc. cbn [bind].
      rewrite (IH (with_cursor it (cl_i it + 1) hi') ks');
        try assumption; try (cbn [cl_i with_cursor]; lia).
      reflexivity.
    + inversion Hs; subst ks. reflexivity.
Qed.

Lemma LineSeries_lines_fresh (fuel : nat) (h : host) (series : LineSeries)
    (it : CellLine) :
  Line_iter (reference_line series) = Some it ->
  LineSeries_lines fuel h (LineSeries_iter series)
  = LineSeries_lines fuel h (Suspended series it).
Proof.
  intros Hit. destruct fuel as [|f]; [reflexivity|].
  cbn [LineSeries_lines LineSeries_generator_next LineSeries_iter].
  unfold py_iter. rewrite Hit. reflexivity.
Qed.

Lemma series_lines_of_cells (fuel : nat) (h : host)
    (series : LineSeries) (it : CellLine) (n : Z) :
  Line_iter (reference_line series) = Some it ->
  0 <= line_index (reference_line series) ->
  CellLine_cells fuel h it = Some (Ok (cells_upto it n)) ->
  LineSeries_lines fuel h (LineSeries_iter series)
  = Some (Ok (map (series_line series) (py_range 0 n)))
  /\ forall k, 0 <= k < n ->
       LineSeries_get_by_index series (VInt k) = Ok (series_line series k).
Proof.
  intros Hit Hidx Hcells.
  destruct (Line_iter_entry _ it Hit) as (_ & Ei & Ec & _ & _).
  split.
  - rewrite (LineSeries_lines_fresh _ _ _ it Hit).
    apply LineSeries_lines_suspended; try lia.
    + intros k Hk.
      destruct (series_line_of_entry series it k Hit) as [-> _].
      now apply series_get_by_index_ok.
    + rewrite Ec. apply cells_upto_scan; [lia|exact Ec|exact Hcells].
  - intros k Hk. apply series_get_by_index_ok. lia.
Qed.

(** X13.  Iterating a series yields one line per cell that the iteration
    of its reference line yields, in order, and the line number [k] is the
    line [series.get_by_index(k)]: when the reference line yields the
    cells [0 .. n - 1], [list(series)] is
    [[series.get_by_index(0), ..., series.get_by_index(n - 1)]]. *)
Theorem LineSeries_iter_is_get_by_index (fuel : nat) (h : host)
    (series : LineSeries) (it : CellLine) (n : Z) :
  Line_iter (reference_line series) = Some it ->
  0 <= line_index (reference_line series) ->
  CellLine_cells fuel h it = Some (Ok (cells_upto it n)) ->
  LineSeries_lines fuel h (LineSeries_iter series)
  = Some (Ok (map (series_line series) (py_range 0 n)))
  /\ forall k, 0 <= k < n ->
       LineSeries_get_by_index series (VInt k) = Ok (series_line series k).
Proof.
  exact (series_lines_of_cells fuel h series it n).
Qed.

Lemma LineSeries_iter_is_get_by_index_witness :
  LineSeries_lines 4 three_rows
    (LineSeries_iter (mkLineSeries (mkLine ColumnClass (mkSheet Uno 0 0) 0 0)))
  = Some (Ok (map (series_line
                     (mkLineSeries (mkLine ColumnClass (mkSheet Uno 0 0) 0 0)))
                (py_range 0 3)))
  /\ forall k, 0 <= k < 3 ->
       LineSeries_get_by_index
         (mkLineSeries (mkLine ColumnClass (mkSheet Uno 0 0) 0 0)) (VInt k)
       = Ok (series_line
               (mkLineSeries (mkLine ColumnClass (mkSheet Uno 0 0) 0 0)) k).
Proof.
  apply (LineSeries_iter_is_get_by_index 4 three_rows
           (mkLineSeries (mkLine ColumnClass (mkSheet Uno 0 0) 0 0))
           (CellLine_init (mkSheet Uno 0 0) AxisY 0) 3).
  - reflexivity.
  - simpl. lia.
  - reflexivity.
Defined.

(** The three derived generators against [list(series)]. *)
Lemma LineSeries_indexes_of_lines (h : host) :
  forall (fuel : nat) (g : LineSeries_generator) (lines : list Line),
    LineSeries_lines fuel h g = Some (Ok lines) ->
    LineSeries_indexes fuel h g = Some (Ok (map line_index lines)).
Proof.
  induction fuel as [|f IH]; intros g lines H.
  - discriminate H.
  - cbn [LineSeries_lines] in H. cbn [LineSeries_indexes].
    destruct (LineSeries_generator_next h g) as [[line g']|e].
    + destruct (LineSeries_lines f h g') as [[ls|e]|] eqn:E;
        try discriminate H.
      inversion H; subst lines. rewrite (IH _ _ E). reflexivity.
    + destruct e; try discriminate H. inversion H. reflexivity.
Qed.

Lemma LineSeries_names_of_lines (h : host) (nm : Line -> value) :
  forall (fuel : nat) (g : LineSeries_generator) (lines : list Line),
    LineSeries_lines fuel h g = Some (Ok lines) ->
    (forall l, In l lines -> Line_name h l = Ok (nm l)) ->
    LineSeries_names fuel h g = Some (Ok (map nm lines))
    /\ LineSeries_named_only fuel h g
       = Some (Ok (filter (fun l => py_truth (nm l)) lines)).
Proof.
  induction fuel as [|f IH]; intros g lines H Hn.
  - discriminate H.
  - cbn [LineSeries_lines] in H. cbn [LineSeries_names LineSeries_named_only].
    destruct (LineSeries_generator_next h g) as [[line g']|e].
    + destruct (LineSeries_lines f h g') as [[ls|e]|] eqn:E;
        try discriminate H.
      inversion H; subst lines. clear H.
      rewrite (Hn line) by (left; reflexivity). cbn [fbind].
      destruct (IH g' ls E) as [-> ->].
      { intros l Hl. apply Hn. right. exact Hl. }
      cbn [fbind map filter]. split; [reflexivity|].
      destruct (py_truth (nm line)); reflexivity.
    + destruct e; try discriminate H. inversion H. split; reflexivity.
Qed.

(** X14.  [series.indexes] counts from 0: when the reference line yields
    the cells [0 .. n - 1], [list(series.indexes)] is [[0, ..., n - 1]]. *)
Theorem LineSeries_indexes_count (fuel : nat) (h : host)
    (series : LineSeries) (it : CellLine) (n : Z) :
  Line_iter (reference_line series) = Some it ->
  0 <= line_index (reference_line series) ->
  CellLine_cells fuel h it = Some (Ok (cells_upto it n)) ->
  LineSeries_indexes fuel h (LineSeries_iter series)
  = Some (Ok (py_range 0 n)).
Proof.
  intros Hit Hidx Hcells.
  destruct (series_lines_of_cells fuel h series it n Hit Hidx Hcells)
    as [Hl _].
  rewrite (LineSeries_indexes_of_lines _ _ _ _ Hl), map_map.
  cbn [series_line line_index]. now rewrite map_id.
Qed.

Lemma LineSeries_indexes_count_witness :
  LineSeries_indexes 14 gap_of_nine
    (LineSeries_iter (mkLineSeries (mkLine RowClass (mkSheet XW 0 0) 0 0)))
  = Some (Ok (py_range 0 13)).
Proof.
  apply (LineSeries_indexes_count 14 gap_of_nine
           (mkLineSeries (mkLine RowClass (mkSheet XW 0 0) 0 0))
           (CellLine_init (mkSheet XW 0 0) AxisX 0) 13).
  - reflexivity.
  - simpl. lia.
  - reflexivity.
Defined.

(** The name of line [k] of [sheet.rows] or [sheet.columns] is the value
    of entry [k] of the reference line. *)
Lemma sheet_series_line_name (h : host) (s : Sheet) (series : LineSeries)
    (it : CellLine) (k : Z) :
  Sheet_rows s = Ok series \/ Sheet_columns s = Ok series ->
  Line_iter (reference_line series) = Some it ->
  0 <= k ->
  Line_name h (series_line series k) = Ok (Cell_value h (entry it k)).
Proof.
  intros Hs Hit Hk.
  destruct Hs as [Hs|Hs].
  - unfold Sheet_rows in Hs.
    destruct (Sheet_reference_column s) as [col|e] eqn:Ec; [|discriminate].
    apply Sheet_reference_column_inv in Ec. destruct Ec as [Hc ->].
    inversion Hs; subst series. clear Hs.
    unfold Line_iter in Hit. cbn in Hit.
    assert (it = CellLine_init s AxisY (reference_column_index s))
      by (destruct (sheet_interface s); inversion Hit; reflexivity).
    subst it.
    unfold Line_name, series_line, Line_name_cell_index,
      Line_get_cell_by_index.
    cbn [reference_line line_class_of line_sheet line_index].
    replace (reference_column_index s <? 0) with false
      by (symmetry; apply Z.ltb_ge; lia).
    destruct (sheet_interface s); reflexivity.
  - unfold Sheet_columns in Hs.
    destruct (Sheet_reference_row s) as [row|e] eqn:Er; [|discriminate].
    pose proof (Sheet_reference_row_inv s row Er) as ->.
    inversion Hs; subst series. clear Hs.
    unfold Line_iter in Hit. cbn in Hit.
    unfold Sheet_reference_row, Sheet_get_row_by_index in Er.
    destruct (sheet_interface s) eqn:HX; [|discriminate Hit].
    inversion Hit; subst it. unfold XW_Sheet_get_row_by_index in Er.
    destruct (reference_row_index s <? 0) eqn:E; [discriminate Er|].
    unfold Line_name, series_line, Line_name_cell_index,
      Line_get_cell_by_index.
    cbn [reference_line line_class_of line_sheet line_index].
    rewrite HX, E. reflexivity.
Qed.

Lemma filter_map_swap {A B : Type} (p : B -> bool) (f : A -> B)
    (l : list A) :
  filter p (map f l) = map f (filter (fun a => p (f a)) l).
Proof.
  induction l as [|a l IH]; [reflexivity|].
  cbn [map filter]. destruct (p (f a)); cbn [map]; now rewrite IH.
Qed.

(** X15.  The names of [sheet.rows] and of [sheet.columns] are the values
    of the reference line: when the reference line yields the cells
    [0 .. n - 1], [list(series.names)] is the list of the values of these
    cells, in order, and [list(series.named_only)] keeps exactly the lines
    whose name is true in a condition (a header that is [None], the empty
    string or the number 0 drops its line). *)
Theorem sheet_series_names (fuel : nat) (h : host) (s : Sheet)
    (series : LineSeries) (it : CellLine) (n : Z) :
  Sheet_rows s = Ok series \/ Sheet_columns s = Ok series ->
  Line_iter (reference_line series) = Some it ->
  CellLine_cells fuel h it = Some (Ok (cells_upto it n)) ->
  LineSeries_names fuel h (LineSeries_iter series)
  = Some (Ok (map (fun k => Cell_value h (entry it k)) (py_range 0 n)))
  /\ LineSeries_named_only fuel h (LineSeries_iter series)
     = Some (Ok (map (series_line series)
                   (filter (fun k => py_truth (Cell_value h (entry it k)))
                      (py_range 0 n)))).
Proof.
  intros Hs Hit Hcells.
  assert (Hidx : 0 <= line_index (reference_line series)).
  { destruct Hs as [Hs|Hs].
    - unfold Sheet_rows in Hs.
      destruct (Sheet_reference_column s) as [col|e] eqn:Ec; [|discriminate].
      apply Sheet_reference_column_inv in Ec. destruct Ec as [Hc ->].
      inversion Hs. cbn. exact Hc.
    - unfold Sheet_columns in Hs.
      destruct (Sheet_reference_row s) as [row|e] eqn:Er; [|discriminate].
      pose proof (Sheet_reference_row_inv s row Er) as ->.
      inversion Hs; subst series. cbn.
      unfold Line_iter in Hit. cbn in Hit.
      unfold Sheet_reference_row, Sheet_get_row_by_index in Er.
      destruct (sheet_interface s); [|discriminate Hit].
      unfold XW_Sheet_get_row_by_index in Er.
      destruct (reference_row_index s <? 0) eqn:E; [discriminate Er|].
      now apply Z.ltb_ge in E. }
  destruct (series_lines_of_cells fuel h series it n Hit Hidx Hcells)
    as [Hl _].
  destruct (LineSeries_names_of_lines h
              (fun l => Cell_value h (entry it (line_index l)))
              fuel _ _ Hl) as [En Eo].
  { intros l Hl'. apply in_map_iff in Hl'. destruct Hl' as (k & <- & Hk).
    apply In_py_range in Hk. cbn [series_line line_index].
    apply (sheet_series_line_name h s series it k Hs Hit). lia. }
  split.
  - rewrite En, map_map. reflexivity.
  - rewrite Eo, filter_map_swap. reflexivity.
Qed.

Lemma sheet_series_names_witness :
  LineSeries_names 4 three_rows
    (LineSeries_iter (mkLineSeries (mkLine ColumnClass (mkSheet Uno 0 0) 0 0)))
  = Some (Ok (map (fun k => Cell_value three_rows
                              (entry (CellLine_init (mkSheet Uno 0 0) AxisY 0)
                                 k))
                (py_range 0 3)))
  /\ LineSeries_named_only 4 three_rows
       (LineSeries_iter
          (mkLineSeries (mkLine ColumnClass (mkSheet Uno 0 0) 0 0)))
     = Some (Ok (map (series_line
                        (mkLineSeries
                           (mkLine ColumnClass (mkSheet Uno 0 0) 0 0)))
                   (filter (fun k => py_truth
                                       (Cell_value three_rows
                                          (entry (CellLine_init
                                                    (mkSheet Uno 0 0) AxisY 0)
                                             k)))
                      (py_range 0 3)))).
Proof.
  apply (sheet_series_names 4 three_rows (mkSheet Uno 0 0)
           (mkLineSeries (mkLine ColumnClass (mkSheet Uno 0 0) 0 0))
           (CellLine_init (mkSheet Uno 0 0) AxisY 0) 3).
  - left. reflexivity.
  - reflexivity.
  - reflexivity.
Defined.

(** ** [Color] beyond the round trip of a tuple *)

Lemma land_255 (a : Z) : Z.land a 255 = a mod 256.
Proof. change 255 with (Z.ones 8). now rewrite Z.land_ones by lia. Qed.

(** X16.  [Color.rgb] never leaves the range of a byte: for every packed
    integer, negative or larger than 24 bits included, each of the three
    channels is between 0 and 255. *)
Theorem Color_rgb_channels_in_range (c : Z) :
  let '(r, g, b) := Color_rgb (mkColor c) in
  0 <= r <= 255 /\ 0 <= g <= 255 /\ 0 <= b <= 255.
Proof.
  unfold Color_rgb. cbn [color]. rewrite !land_255.
  repeat split; Z.div_mod_to_equations; lia.
Qed.

(** X17.  The other round trip: for a packed integer [c] of 24 bits,
    building a [Color] from [Color(c).rgb] gives the packed integer [c]
    back. *)
Theorem Color_int_roundtrip (c : Z) :
  0 <= c < 16777216 ->
  let '(r, g, b) := Color_rgb (mkColor c) in
  Color_init (CTuple [VInt r; VInt g; VInt b]) = Ok (mkColor c).
Proof.
  intros Hc. unfold Color_rgb. cbn [color].
  rewrite !land_255, !Z.shiftr_div_pow2 by lia.
  change (2 ^ 16) with 65536. change (2 ^ 8) with 256.
  unfold Color_init. cbn [List.length Nat.eqb negb existsb bad_channel].
  rewrite !Zgtb_false by (Z.div_mod_to_equations; lia). cbn [orb].
  rewrite !Z.shiftl_mul_pow2 by lia.
  change (2 ^ 16) with 65536. change (2 ^ 8) with 256.
  do 2 f_equal. Z.div_mod_to_equations. lia.
Qed.

Lemma Color_int_roundtrip_witness :
  Color_init (CTuple [VInt 255; VInt 0; VInt 128]) = Ok (mkColor 16711808).
Proof.
  exact (Color_int_roundtrip 16711808 ltac:(lia)).
Defined.


(** X19.  The two bindings pack a tuple alike: for a tuple that [Color]
    accepts, [Office.Uno.Cell.set_color((r, g, b))] writes the same
    [CellBackColor] as [set_color(Color((r, g, b)).color)]. *)
Theorem Uno_set_color_tuple_is_Color (h : host) (c : Cell) (r g b : Z)
    (col : Color) :
  Color_init (CTuple [VInt r; VInt g; VInt b]) = Ok col ->
  Uno_Cell_set_color_seq h c [r; g; b] = Uno_Cell_set_color h c (color col).
Proof.
  unfold Color_init. cbn [List.length Nat.eqb negb].
  destruct (existsb bad_channel _); [discriminate|].
  intros H. rewrite !Z.shiftl_mul_pow2 in H by lia.
  injection H as <-. cbn [color].
  unfold Uno_Cell_set_color_seq, Uno_Cell_set_color. reflexivity.
Qed.

Lemma Uno_set_color_tuple_is_Color_witness :
  Uno_Cell_set_color_seq one_cell (mkCell (mkSheet Uno 0 0) (0, 0))
    [255; 0; 128]
  = Uno_Cell_set_color one_cell (mkCell (mkSheet Uno 0 0) (0, 0))
      (color (mkColor 16711808)).
Proof.
  apply (Uno_set_color_tuple_is_Color one_cell
           (mkCell (mkSheet Uno 0 0) (0, 0)) 255 0 128 (mkColor 16711808)).
  reflexivity.
Defined.

(** ** Colors and clearing under the XW binding *)

(** X20.  [Office.XW.Cell.set_color] then [get_color]: a color [>= 0] is
    read back as the RGB tuple [Color(color).rgb] (not as the integer that
    was set), [-1] is read back as [-1], and any other negative color is
    ignored, the document staying as it was.  The value of the cell and
    every other cell are untouched in all three cases. *)
Theorem XW_set_color_get_color (h : host) (c : Cell) (color : Z) :
  sheet_interface (cell_sheet c) = XW ->
  exists h',
    Cell_set_color h c color = Ok h'
    /\ Cell_get_color h' c
       = (if color >=? 0 then ColorTuple (Color_rgb (mkColor color))
          else if color =? -1 then ColorInt (-1)
               else Cell_get_color h c)
    /\ Cell_value h' c = Cell_value h c
    /\ (forall q, q <> position c -> h' q = h q)
    /\ (color < -1 -> forall q, h' q = h q).
Proof.
  intros HX. unfold Cell_set_color, Cell_get_color, Cell_value.
  rewrite HX. unfold XW_Cell_set_color, XW_Cell_get_color, XW_Cell_value.
  rewrite XW_Cell_range_position.
  destruct (color >=? 0) eqn:E0; [|destruct (color =? -1) eqn:E1].
  - cbn [Color_init bind]. eexists. split; [reflexivity|].
    unfold host_update. rewrite pos_eqb_refl.
    repeat split.
    + intros q Hq. apply pos_eqb_neq in Hq. now rewrite Hq.
    + intros Hlt. apply Z.geb_le in E0. lia.
  - eexists. split; [reflexivity|].
    unfold host_update. rewrite pos_eqb_refl.
    repeat split.
    + intros q Hq. apply pos_eqb_neq in Hq. now rewrite Hq.
    + intros Hlt. apply Z.eqb_eq in E1. lia.
  - eexists. split; [reflexivity|]. repeat split.
Qed.

Lemma XW_set_color_get_color_witness :
  exists h',
    Cell_set_color one_cell (mkCell (mkSheet XW 0 0) (0, 0)) 16711808 = Ok h'
    /\ Cell_get_color h' (mkCell (mkSheet XW 0 0) (0, 0))
       = (if 16711808 >=? 0 then ColorTuple (Color_rgb (mkColor 16711808))
          else if 16711808 =? -1 then ColorInt (-1)
               else Cell_get_color one_cell (mkCell (mkSheet XW 0 0) (0, 0)))
    /\ Cell_value h' (mkCell (mkSheet XW 0 0) (0, 0))
       = Cell_value one_cell (mkCell (mkSheet XW 0 0) (0, 0))
    /\ (forall q, q <> position (mkCell (mkSheet XW 0 0) (0, 0)) ->
                  h' q = one_cell q)
    /\ (16711808 < -1 -> forall q, h' q = one_cell q).
Proof.
  apply (XW_set_color_get_color one_cell (mkCell (mkSheet XW 0 0) (0, 0))
           16711808).
  reflexivity.
Defined.

(** X21.  Under the XW binding [clear()] succeeds on every cell whatever
    it holds; afterwards the cell reads [None] as value, the empty string
    as text and [DEFAULT_COLOR] as color, and every other cell of the
    document is as before. *)
Theorem XW_clear_then_read (h : host) (c : Cell) :
  sheet_interface (cell_sheet c) = XW ->
  exists h',
    Cell_clear h c = Ok h'
    /\ Cell_value h' c = VNone
    /\ Cell_string h' c = ""
    /\ Cell_get_color h' c = ColorInt DEFAULT_COLOR
    /\ forall q, q <> position c -> h' q = h q.
Proof.
  intros HX. destruct (XW_Cell_clear h c HX) as (h' & E & Hq).
  exists h'. split; [exact E|].
  assert (Hc : h' (position c) = cleared)
    by (rewrite Hq, pos_eqb_refl; reflexivity).
  destruct (cleared_reads h' c HX Hc) as [Hv Hcol].
  repeat split; try assumption.
  - unfold Cell_string. rewrite HX. unfold XW_Cell_string.
    unfold Cell_value in Hv. rewrite HX in Hv. now rewrite Hv.
  - intros q Hne. rewrite Hq. apply pos_eqb_neq in Hne. now rewrite Hne.
Qed.

Lemma XW_clear_then_read_witness :
  exists h',
    Cell_clear one_cell (mkCell (mkSheet XW 0 0) (0, 0)) = Ok h'
    /\ Cell_value h' (mkCell (mkSheet XW 0 0) (0, 0)) = VNone
    /\ Cell_string h' (mkCell (mkSheet XW 0 0) (0, 0)) = ""
    /\ Cell_get_color h' (mkCell (mkSheet XW 0 0) (0, 0))
       = ColorInt DEFAULT_COLOR
    /\ forall q, q <> position (mkCell (mkSheet XW 0 0) (0, 0)) ->
                 h' q = one_cell q.
Proof.
  apply (XW_clear_then_read one_cell (mkCell (mkSheet XW 0 0) (0, 0))).
  reflexivity.
Defined.

(** ** The text of a cell under the XW binding *)











(** ** White space *)

Lemma append_assoc (a b c : string) : ((a ++ b) ++ c = a ++ (b ++ c))%string.
Proof.
  induction a as [|x a IH]; [reflexivity|].
  cbn [append]. now rewrite IH.
Qed.

Lemma append_nil_r (a : string) : (a ++ "" = a)%string.
Proof.
  induction a as [|x a IH]; [reflexivity|]. cbn [append]. now rewrite IH.
Qed.

Lemma no_space_append (a b : string) :
  no_space (a ++ b) = no_space a && no_space b.
Proof.
  induction a as [|x a IH]; [reflexivity|].
  cbn [append no_space]. rewrite IH. now rewrite andb_assoc.
Qed.

Lemma eqb_empty (w : string) : (w =? "")%string = false <-> w <> "".
Proof. apply String.eqb_neq. Qed.

(** Reading a run without white space only extends the current word. *)
Lemma split_from_run (w : string) :
  forall (word rest : string),
    no_space w = true ->
    split_from word (w ++ rest) = split_from (word ++ w) rest.
Proof.
  induction w as [|c w IH]; intros word rest Hw.
  - now rewrite append_nil_r.
  - cbn [no_space] in Hw. apply andb_true_iff in Hw. destruct Hw as [Hc Hw].
    apply negb_true_iff in Hc. cbn [append split_from]. rewrite Hc.
    rewrite IH by exact Hw. rewrite append_assoc. reflexivity.
Qed.

(** Every string [split] returns is a word. *)
Lemma split_from_words (s : string) :
  forall word, no_space word = true -> Forall is_word (split_from word s).
Proof.
  induction s as [|c s IH]; intros word Hw; cbn [split_from].
  - destruct (word =? "")%string eqn:E; constructor; [|constructor].
    split; [now apply eqb_empty|exact Hw].
  - destruct (is_space c) eqn:Ec.
    + destruct (word =? "")%string eqn:E.
      * now apply IH.
      * constructor; [split; [now apply eqb_empty|exact Hw]|now apply IH].
    + apply IH. rewrite no_space_append, Hw. cbn [no_space].
      now rewrite Ec.
Qed.

(** Splitting what [join] made of words gives the words back. *)
Lemma split_join (ws : list string) :
  Forall is_word ws -> py_split (py_join ws) = ws.
Proof.
  unfold py_split. induction ws as [|w ws IH]; intros H; [reflexivity|].
  inversion H as [|w' ws' [Hne Hns] Hws]; subst.
  destruct ws as [|w2 ws].
  - cbn [py_join]. rewrite <- (append_nil_r w) at 1.
    rewrite split_from_run by exact Hns. cbn [append split_from].
    apply eqb_empty in Hne. now rewrite Hne.
  - change (py_join (w :: w2 :: ws))
      with (w ++ (" " ++ py_join (w2 :: ws)))%string.
    rewrite split_from_run by exact Hns.
    cbn [append split_from]. match goal with
    | |- context [is_space ?c] => change (is_space c) with true
    end.
    cbv iota.
    apply eqb_empty in Hne. rewrite Hne. f_equal. now apply IH.
Qed.

Lemma py_eq_refl (v : value) : py_eq v v = true.
Proof.
  destruct v; cbn [py_eq]; auto using Z.eqb_refl, String.eqb_refl.
Qed.

(** X23.  Removing white space is idempotent: the value without white
    space of a value without white space is that value; [split()] returns
    words, which are not empty and hold no white space, and splitting the
    words joined by single spaces returns the same words. *)
Theorem without_whitespace_idempotent (v : value) :
  without_whitespace (without_whitespace v) = without_whitespace v
  /\ (forall s, v = VStr s ->
                Forall is_word (py_split s)
                /\ py_split (py_join (py_split s)) = py_split s).
Proof.
  split.
  - destruct v as [| | |s]; try reflexivity.
    cbn [without_whitespace]. f_equal. f_equal.
    apply split_join. now apply split_from_words.
  - intros s _. split; [now apply split_from_words|].
    apply split_join. now apply split_from_words.
Qed.

(** X24.  Under the XW binding [remove_whitespace()] succeeds on every
    cell; afterwards the value of the cell is the old value without white
    space, [has_whitespace] is false, and no other cell has changed. *)
Theorem XW_remove_whitespace (h : host) (c : Cell) :
  sheet_interface (cell_sheet c) = XW ->
  exists h',
    Cell_remove_whitespace h c = Ok h'
    /\ Cell_value h' c = Cell_value_without_whitespace h c
    /\ Cell_has_whitespace h' c = false
    /\ forall q, q <> position c -> h' q = h q.
Proof.
  intros HX.
  unfold Cell_remove_whitespace, Cell_has_whitespace,
    Cell_value_without_whitespace, Cell_set_value, Cell_value.
  rewrite HX. unfold XW_Cell_set_value, XW_Cell_value.
  rewrite XW_Cell_range_position.
  eexists. split; [reflexivity|].
  unfold host_update. rewrite pos_eqb_refl.
  assert (E : range_value
                (range_set_value (h (position c))
                   (without_whitespace (range_value (h (position c)))))
              = without_whitespace (range_value (h (position c)))).
  { unfold range_value, range_set_value.
    destruct (cell_content (h (position c))); reflexivity. }
  rewrite E. split; [reflexivity|]. split.
  - destruct (without_whitespace_idempotent (range_value (h (position c))))
      as [-> _].
    now rewrite py_eq_refl.
  - intros q Hq. apply pos_eqb_neq in Hq. now rewrite Hq.
Qed.

Lemma XW_remove_whitespace_witness :
  exists h',
    Cell_remove_whitespace one_cell (mkCell (mkSheet XW 0 0) (0, 0)) = Ok h'
    /\ Cell_value h' (mkCell (mkSheet XW 0 0) (0, 0))
       = Cell_value_without_whitespace one_cell
           (mkCell (mkSheet XW 0 0) (0, 0))
    /\ Cell_has_whitespace h' (mkCell (mkSheet XW 0 0) (0, 0)) = false
    /\ forall q, q <> position (mkCell (mkSheet XW 0 0) (0, 0)) ->
                 h' q = one_cell q.
Proof.
  apply (XW_remove_whitespace one_cell (mkCell (mkSheet XW 0 0) (0, 0))).
  reflexivity.
Defined.

(** X25.  Under the Uno binding [remove_whitespace()] raises
    [AssertionError] on a cell whose value reads [None] (a result type
    that is neither [TEXT] nor [VALUE]): the value without white space is
    [None] again and the value setter refuses it. *)
Theorem Uno_remove_whitespace_of_none (h : host) (c : Cell) :
  sheet_interface (cell_sheet c) = Uno ->
  Cell_value h c = VNone ->
  Cell_remove_whitespace h c = Raise AssertionError.
Proof.
  intros HU Hv. unfold Cell_remove_whitespace, Cell_value_without_whitespace.
  rewrite Hv. unfold Cell_set_value. rewrite HU. reflexivity.
Qed.

Lemma Uno_remove_whitespace_of_none_witness :
  Cell_remove_whitespace one_cell (mkCell (mkSheet Uno 0 0) (3, 3))
  = Raise AssertionError.
Proof.
  apply (Uno_remove_whitespace_of_none one_cell
           (mkCell (mkSheet Uno 0 0) (3, 3))); reflexivity.
Defined.

(** ** [Line.duplicates] *)

Lemma py_range_snoc (i : Z) :
  0 <= i -> py_range 0 (i + 1) = (py_range 0 i ++ [i])%list.
Proof.
  intros Hi. unfold py_range.
  replace (Z.to_nat (i + 1 - 0)) with (S (Z.to_nat (i - 0))) by lia.
  rewrite seq_S, map_app. cbn [map]. do 2 f_equal. lia.
Qed.

Lemma Line_duplicates_loop_S (f : nat) (h : host) (it : CellLine)
    (cell_values : list value) :
  Line_duplicates_loop (S f) h it cell_values
  = match CellLine_next h it with
    | Raise StopIteration => Some (Ok [])
    | Raise e => Some (Raise e)
    | Ok (cell, it') =>
        let v := Cell_value_without_whitespace h cell in
        rest <-- Line_duplicates_loop f h it' (v :: cell_values) ;;
        if existsb (py_eq v) cell_values then Some (Ok (cell :: rest))
        else Some (Ok rest)
    end.
Proof. reflexivity. Qed.

(** The loop of [duplicates], with the set holding the values of the
    entries before the cursor. *)
Lemma Line_duplicates_loop_scan (h : host) :
  forall (fuel : nat) (it : CellLine) (cell_values : list value)
         (ks : list Z),
    0 <= cl_index it -> 0 <= cl_i it ->
    scan fuel (emptiness h it) (cl_i it) (highest_inhabited_i it) = Some ks ->
    (forall v,
        existsb (py_eq v) cell_values
        = existsb (fun j => py_eq v
                              (Cell_value_without_whitespace h (entry it j)))
            (py_range 0 (cl_i it))) ->
    Line_duplicates_loop fuel h it cell_values
    = Some (Ok (map (entry it)
                  (filter
                     (fun k =>
                        existsb
                          (fun j =>
                             py_eq
                               (Cell_value_without_whitespace h (entry it k))
                               (Cell_value_without_whitespace h (entry it j)))
                          (py_range 0 k))
                     ks))).
Proof.
  induction fuel as [|f IH]; intros it seen ks Hidx Hc Hs Hseen.
  - discriminate Hs.
  - cbn [scan] in Hs.
    rewrite Line_duplicates_loop_S, CellLine_next_scan by assumption.
    destruct (scan_step _ _ _) as [[i' hi']|] eqn:E.
    + apply scan_step_cursor in E. subst i'.
      destruct (scan f _ _ _) as [ks'|] eqn:E'; [|discriminate Hs].
      inversion Hs; subst ks. clear Hs. cbv zeta.
      rewrite (IH (with_cursor it (cl_i it + 1) hi') _ ks');
        try assumption; try (cbn [cl_i with_cursor]; lia).
      * cbn [fbind map filter]. rewrite Hseen.
        change (entry (with_cursor it (cl_i it + 1) hi')) with (entry it).
        destruct (existsb _ (py_range 0 (cl_i it))); reflexivity.
      * intros v. cbn [existsb cl_i with_cursor].
        change (entry (with_cursor it (cl_i it + 1) hi')) with (entry it).
        rewrite py_range_snoc by exact Hc.
        rewrite existsb_app, Hseen. cbn [existsb].
        rewrite orb_false_r. apply orb_comm.
    + inversion Hs; subst ks. reflexivity.
Qed.

(** X26.  [Line.duplicates] yields exactly the cells that repeat an
    earlier one: when the iteration of the line yields the cells
    [0 .. n - 1], [list(line.duplicates)] is the list, in order, of the
    cells at the entries [k < n] for which some entry [j < k] has an equal
    value without white space. *)
Theorem Line_duplicates_are_repeats (fuel : nat) (h : host) (l : Line)
    (it : CellLine) (n : Z) :
  Line_iter l = Some it ->
  0 <= line_index l ->
  CellLine_cells fuel h it = Some (Ok (cells_upto it n)) ->
  Line_duplicates fuel h l
  = Some (Ok (map (entry it)
                (filter
                   (fun k =>
                      existsb
                        (fun j =>
                           py_eq
                             (Cell_value_without_whitespace h (entry it k))
                             (Cell_value_without_whitespace h (entry it j)))
                        (py_range 0 k))
                   (py_range 0 n)))).
Proof.
  intros Hit Hidx Hcells.
  destruct (Line_iter_entry l it Hit) as (_ & Ei & Ec & _ & _).
  unfold Line_duplicates, py_iter. rewrite Hit. cbn [fbind].
  apply Line_duplicates_loop_scan; try lia.
  - rewrite Ec. apply cells_upto_scan; [lia|exact Ec|exact Hcells].
  - intros v. rewrite Ec. reflexivity.
Qed.

Lemma Line_duplicates_are_repeats_witness :
  Line_duplicates 6 spaced_column (mkLine ColumnClass (mkSheet XW 0 0) 0 0)
  = Some (Ok (map (entry (CellLine_init (mkSheet XW 0 0) AxisY 0))
                (filter
                   (fun k =>
                      existsb
                        (fun j =>
                           py_eq
                             (Cell_value_without_whitespace spaced_column
                                (entry (CellLine_init (mkSheet XW 0 0) AxisY 0)
                                   k))
                             (Cell_value_without_whitespace spaced_column
                                (entry (CellLine_init (mkSheet XW 0 0) AxisY 0)
                                   j)))
                        (py_range 0 k))
                   (py_range 0 5)))).
Proof.
  apply (Line_duplicates_are_repeats 6 spaced_column
           (mkLine ColumnClass (mkSheet XW 0 0) 0 0)
           (CellLine_init (mkSheet XW 0 0) AxisY 0) 5).
  - reflexivity.
  - simpl. lia.
  - reflexivity.
Defined.

(** On that column the duplicates are the cells of rows 1 and 4, whose
    texts differ from ["a"] by white space only. *)
Lemma Line_duplicates_example :
  Line_duplicates 6 spaced_column (mkLine ColumnClass (mkSheet XW 0 0) 0 0)
  = Some (Ok [mkCell (mkSheet XW 0 0) (0, 1); mkCell (mkSheet XW 0 0) (0, 4)]).
Proof. reflexivity. Qed.

(** ** Indexing a series *)

(** X27.  Indexing a series by a name and then by the index of the line
    found gives that line again: when [series[name]] returns a line for a
    name that is not an [int], [series[line.index]] returns the same
    line. *)
Theorem LineSeries_getitem_name_then_index (fuel : nat) (h : host)
    (series : LineSeries) (name : value) (line : Line) :
  0 <= line_index (reference_line series) ->
  is_int name = false ->
  LineSeries_getitem fuel h series name = Some (Ok (Some line)) ->
  LineSeries_getitem fuel h series (VInt (line_index line))
  = Some (Ok (Some line)).
Proof.
  intros Hidx Hn H. unfold LineSeries_getitem in *. rewrite Hn in H.
  apply series_get_by_name_inv in H; [|exact Hidx].
  destruct H as (j & Hj & Hg & _).
  assert (E : line_index line = j).
  { rewrite series_get_by_index_ok in Hg by exact Hj.
    inversion Hg. reflexivity. }
  cbn [is_int]. rewrite E, Hg. reflexivity.
Qed.

Lemma LineSeries_getitem_name_then_index_witness :
  LineSeries_getitem 3 gap_of_nine
    (mkLineSeries (mkLine RowClass (mkSheet XW 0 0) 0 0))
    (VInt (line_index (mkLine ColumnClass (mkSheet XW 0 0) 2 2)))
  = Some (Ok (Some (mkLine ColumnClass (mkSheet XW 0 0) 2 2))).
Proof.
  apply (LineSeries_getitem_name_then_index 3 gap_of_nine
           (mkLineSeries (mkLine RowClass (mkSheet XW 0 0) 0 0))
           (VStr "c") (mkLine ColumnClass (mkSheet XW 0 0) 2 2)).
  - simpl. lia.
  - reflexivity.
  - reflexivity.
Defined.

(** ** Names past a gap *)

(** X28.  A name past a gap is not found: on a reference line that has an
    iterator, when the entries [a .. a + MAX_CELL_GAP - 1] are empty and
    every entry whose value equals the name lies at [a + MAX_CELL_GAP] or
    later, [LineSeries.get_by_name] and [Line.get_cell_by_reference]
    return [None], within [a + 1] turns of their loop. *)
Theorem lookup_misses_name_past_gap (h : host) (series : LineSeries)
    (l : Line) (it : CellLine) (a : Z) (name : value) :
  Line_reference_line l = Ok (reference_line series) ->
  Line_iter (reference_line series) = Some it ->
  0 <= line_index (reference_line series) -> 0 <= a ->
  (forall k, a <= k < a + MAX_CELL_GAP ->
             Cell_string h (Line_entry (reference_line series) k) = "") ->
  (forall k, 0 <= k ->
             py_eq (Cell_value h (Line_entry (reference_line series) k)) name
             = true ->
             a + MAX_CELL_GAP <= k) ->
  LineSeries_get_by_name (S (Z.to_nat a)) h series name = Some (Ok None)
  /\ Line_get_cell_by_reference (S (Z.to_nat a)) h l name = Some (Ok None).
Proof.
  exact (name_lookup_gap_prefix h series l it a name).
Qed.

Lemma lookup_misses_name_past_gap_witness :
  LineSeries_get_by_name (S (Z.to_nat 3)) gap_of_ten
    (mkLineSeries (mkLine RowClass (mkSheet XW 0 0) 0 0)) (VStr "d")
  = Some (Ok None)
  /\ Line_get_cell_by_reference (S (Z.to_nat 3)) gap_of_ten
       (mkLine RowClass (mkSheet XW 0 0) 7 7) (VStr "d")
     = Some (Ok None).
Proof.
  apply (lookup_misses_name_past_gap gap_of_ten
           (mkLineSeries (mkLine RowClass (mkSheet XW 0 0) 0 0))
           (mkLine RowClass (mkSheet XW 0 0) 7 7)
           (CellLine_init (mkSheet XW 0 0) AxisX 0) 3 (VStr "d")).
  - reflexivity.
  - reflexivity.
  - simpl. lia.
  - lia.
  - unfold MAX_CELL_GAP. intros k Hk.
    assert (C : k = 3 \/ k = 4 \/ k = 5 \/ k = 6 \/ k = 7 \/ k = 8 \/ k = 9
                \/ k = 10 \/ k = 11 \/ k = 12) by lia.
    repeat (destruct C as [-> | C]; [reflexivity|]). subst k. reflexivity.
  - unfold MAX_CELL_GAP. intros k Hk Hv.
    destruct (Z_lt_le_dec k 13) as [Hlt|Hge]; [|lia]. exfalso.
    assert (C : k = 0 \/ k = 1 \/ k = 2 \/ k = 3 \/ k = 4 \/ k = 5 \/ k = 6
                \/ k = 7 \/ k = 8 \/ k = 9 \/ k = 10 \/ k = 11 \/ k = 12)
      by lia.
    repeat (destruct C as [-> | C]; [discriminate Hv|]). subst k.
    discriminate Hv.
Defined.

(** ** [Line.clear] under the Uno binding *)




